(** * buscore-lighthouse: daily counters, report windows and request handling

    A shallow embedding of [src/index.ts] (the Worker's [fetch] and
    [scheduled] handlers with their helpers) and of the [metrics_daily]
    table of [migrations/0001_init.sql], followed by the properties the
    specification states about them and by further properties of the
    code. *)

From Stdlib Require Import ZArith Lia Bool String Ascii List.
From Stdlib Require Import Floats.SpecFloat.
From stdpp Require Import base option gmap strings list fin_maps pretty.

Local Open Scope Z_scope.

(** Exceptions a step of the Worker can raise. *)
Inductive exn :=
  | StorageError   (* a D1 statement rejected *)
  | RangeError     (* toISOString of an invalid Date *)
  | TypeError      (* fetch network failure, Response.redirect of an unparsable URL *)
  | SyntaxError    (* res.json() of a body that is not JSON *)
  | WebhookError.  (* new Error("Discord webhook returned ...") *)

(** ** The Date built-ins used by the Worker

    Time values are milliseconds since 1970-01-01T00:00:00Z.  The
    definitions follow the abstract operations of ECMA-262 (Day,
    DayFromYear, YearFromTime, MonthFromTime, DateFromTime, MakeDay,
    MakeDate, TimeClip), which is what [toISOString], [getUTCFullYear],
    [getUTCMonth], [getUTCDate], [setUTCDate] and [Date.UTC] are
    specified by. *)
Module JsDate.

Definition msPerDay : Z := 86400000.
Definition maxTime : Z := 8640000000000000.

Definition Day (t : Z) : Z := t / msPerDay.
Definition TimeWithinDay (t : Z) : Z := t mod msPerDay.

Definition isLeap (y : Z) : bool :=
  (y mod 4 =? 0) && (negb (y mod 100 =? 0) || (y mod 400 =? 0)).

Definition DaysInYear (y : Z) : Z := if isLeap y then 366 else 365.

Definition DayFromYear (y : Z) : Z :=
  365 * (y - 1970) + (y - 1969) / 4 - (y - 1901) / 100 + (y - 1601) / 400.

(** ECMA-262 defines YearFromTime as the largest [y] whose first day is not
    after [t]; here it is computed from an estimate that is off by at most
    one year (see [YearFromDay_spec]). *)
Definition YearFromDay (d : Z) : Z :=
  let y := 1970 + (400 * d) / 146097 in
  if d <? DayFromYear y then y - 1
  else if DayFromYear (y + 1) <=? d then y + 1
  else y.

Definition YearFromTime (t : Z) : Z := YearFromDay (Day t).

Definition InLeapYear (t : Z) : Z :=
  if isLeap (YearFromTime t) then 1 else 0.

Definition DayWithinYear (t : Z) : Z := Day t - DayFromYear (YearFromTime t).

(** Number of days of the year that precede month [m] (0 = January). *)
Definition DaysBeforeMonth (m leap : Z) : Z :=
  match m with
  | 0 => 0
  | 1 => 31
  | 2 => 59 + leap
  | 3 => 90 + leap
  | 4 => 120 + leap
  | 5 => 151 + leap
  | 6 => 181 + leap
  | 7 => 212 + leap
  | 8 => 243 + leap
  | 9 => 273 + leap
  | 10 => 304 + leap
  | _ => 334 + leap
  end.

Definition MonthOfYearDay (dwy leap : Z) : Z :=
  if dwy <? 31 then 0
  else if dwy <? 59 + leap then 1
  else if dwy <? 90 + leap then 2
  else if dwy <? 120 + leap then 3
  else if dwy <? 151 + leap then 4
  else if dwy <? 181 + leap then 5
  else if dwy <? 212 + leap then 6
  else if dwy <? 243 + leap then 7
  else if dwy <? 273 + leap then 8
  else if dwy <? 304 + leap then 9
  else if dwy <? 334 + leap then 10
  else 11.

Definition MonthFromTime (t : Z) : Z :=
  MonthOfYearDay (DayWithinYear t) (InLeapYear t).

Definition DateFromTime (t : Z) : Z :=
  DayWithinYear t - DaysBeforeMonth (MonthFromTime t) (InLeapYear t) + 1.

(** The same two fields as functions of the day number [Day t]. *)
Definition MonthOfDay (n : Z) : Z :=
  MonthOfYearDay (n - DayFromYear (YearFromDay n))
                 (if isLeap (YearFromDay n) then 1 else 0).

Definition DateOfDay (n : Z) : Z :=
  n - DayFromYear (YearFromDay n)
  - DaysBeforeMonth (MonthOfDay n) (if isLeap (YearFromDay n) then 1 else 0) + 1.

(** MakeDay: the day number of the first of month [month mod 12] of year
    [year + floor(month / 12)], plus [date - 1]. *)
Definition MakeDay (year month date : Z) : Z :=
  let ym := year + month / 12 in
  let mn := month mod 12 in
  DayFromYear ym + DaysBeforeMonth mn (if isLeap ym then 1 else 0) + date - 1.

Definition MakeDate (day time : Z) : Z := day * msPerDay + time.

(** A Date object holds a time value or NaN ([None], an invalid date). *)
Definition TimeClip (t : Z) : option Z :=
  if Z.abs t <=? maxTime then Some t else None.

Definition HourFromTime (t : Z) : Z := (TimeWithinDay t / 3600000) mod 24.
Definition MinFromTime (t : Z) : Z := (TimeWithinDay t / 60000) mod 60.
Definition SecFromTime (t : Z) : Z := (TimeWithinDay t / 1000) mod 60.
Definition msFromTime (t : Z) : Z := TimeWithinDay t mod 1000.

(** Date.UTC maps a year argument between 0 and 99 to 1900 + year. *)
Definition MakeFullYear (y : Z) : Z :=
  if (0 <=? y) && (y <=? 99) then 1900 + y else y.

(** Accessors and mutators; a number is [None] when it is NaN. *)
Definition getUTCFullYear (d : option Z) : option Z := YearFromTime <$> d.
Definition getUTCMonth (d : option Z) : option Z := MonthFromTime <$> d.
Definition getUTCDate (d : option Z) : option Z := DateFromTime <$> d.

Definition setUTCDate (d : option Z) (date : option Z) : option Z :=
  match d, date with
  | Some t, Some dt =>
      TimeClip (MakeDate (MakeDay (YearFromTime t) (MonthFromTime t) dt)
                         (TimeWithinDay t))
  | _, _ => None
  end.

Definition UTC (year month : option Z) (date : Z) : option Z :=
  match year, month with
  | Some y, Some m => TimeClip (MakeDate (MakeDay (MakeFullYear y) m date) 0)
  | _, _ => None
  end.

Definition digit (n : Z) : ascii :=
  match n with
  | 0 => "0" | 1 => "1" | 2 => "2" | 3 => "3" | 4 => "4"
  | 5 => "5" | 6 => "6" | 7 => "7" | 8 => "8" | _ => "9"
  end%char.

Definition pad2 (n : Z) : string :=
  String (digit (n / 10 mod 10)) (String (digit (n mod 10)) EmptyString).

Definition pad3 (n : Z) : string :=
  String (digit (n / 100 mod 10)) (pad2 n).

Definition pad4 (n : Z) : string :=
  String (digit (n / 1000 mod 10)) (pad3 n).

Definition pad6 (n : Z) : string :=
  String (digit (n / 100000 mod 10)) (String (digit (n / 10000 mod 10)) (pad4 n)).

(** Years 0..9999 print with four digits, all others with a sign and six. *)
Definition isoYear (y : Z) : string :=
  if (0 <=? y) && (y <=? 9999) then pad4 y
  else String (if 0 <=? y then "+"%char else "-"%char) (pad6 (Z.abs y)).

Definition iso_string (t : Z) : string :=
  isoYear (YearFromTime t) +:+ "-" +:+ pad2 (MonthFromTime t + 1)
  +:+ "-" +:+ pad2 (DateFromTime t)
  +:+ "T" +:+ pad2 (HourFromTime t) +:+ ":" +:+ pad2 (MinFromTime t)
  +:+ ":" +:+ pad2 (SecFromTime t) +:+ "." +:+ pad3 (msFromTime t)
  +:+ "Z".

(** toISOString throws a RangeError on an invalid Date. *)
Definition toISOString (d : option Z) : exn + string :=
  match d with
  | None => inl RangeError
  | Some t => inr (iso_string t)
  end.

End JsDate.

Import JsDate.

(** [s.slice(0, 10)] *)
Definition slice_0_10 (s : string) : string := substring 0 10 s.

(** [utcDay]: a UTC date as YYYY-MM-DD. *)
Definition utcDay (date : option Z) : exn + string :=
  match JsDate.toISOString date with
  | inl e => inl e
  | inr s => inr (slice_0_10 s)
  end.

(** [utcMonthStart]: the first day of the UTC month containing [date]. *)
Definition utcMonthStart (date : option Z) : exn + string :=
  utcDay (JsDate.UTC (JsDate.getUTCFullYear date) (JsDate.getUTCMonth date) 1).

(** The day key of a valid time value: what [utcDay] returns for it. *)
Definition day_of (t : Z) : string := slice_0_10 (JsDate.iso_string t).

(** A calendar date written as a zero-padded YYYY-MM-DD day key. *)
Definition date_string (y m d : Z) : string :=
  JsDate.pad4 y +:+ "-" +:+ JsDate.pad2 m +:+ "-" +:+ JsDate.pad2 d.

(** The day key of day number [n] (days since 1970-01-01). *)
Definition day_string (n : Z) : string :=
  date_string (JsDate.YearFromDay n) (JsDate.MonthOfDay n + 1) (JsDate.DateOfDay n).

(** Day numbers whose year has four digits: 0000-01-01 .. 9999-12-31. *)
Definition four_digit_day (n : Z) : Prop :=
  JsDate.DayFromYear 0 <= n < JsDate.DayFromYear 10000.

(** Instants whose UTC year lies between 100 and 9999, which covers every
    reading of a present-day clock.  There a day key has the form
    YYYY-MM-DD, the windows of the report stay inside the range of Date,
    and Date.UTC takes the year as it is. *)
Definition clock_in_range (t : Z) : Prop := 100 <= JsDate.YearFromTime t <= 9999.

(** ** JSON values

    What [res.json()] yields.  Object members are kept in document order;
    a later duplicate of a name overrides an earlier one, as in JSON.parse. *)
#[warnings="-register-all"]
Inductive json :=
  | JNull
  | JBool (b : bool)
  | JNum (x : spec_float)
  | JStr (s : string)
  | JArr (items : list json)
  | JObj (members : list (string * json)).

(** ToBoolean; [!v] is its negation. *)
Definition truthy (v : json) : bool :=
  match v with
  | JNull => false
  | JBool b => b
  | JNum (S754_zero _) | JNum S754_nan => false
  | JNum _ => true
  | JStr s => negb (String.eqb s "")
  | JArr _ | JObj _ => true
  end.

Fixpoint lookup_member (name : string) (members : list (string * json)) : option json :=
  match members with
  | [] => None
  | (k, v) :: rest =>
      match lookup_member name rest with
      | Some v' => Some v'
      | None => if String.eqb k name then Some v else None
      end
  end.

(** [v?.name] for the names [latest], [download] and [url], none of which
    is a property of a prototype: [None] is [undefined].  The chain stops
    at [undefined] and [null]; on something that is not an object the
    property is [undefined]. *)
Definition opt_chain (v : option json) (name : string) : option json :=
  match v with
  | Some (JObj members) => lookup_member name members
  | _ => None
  end.

(** [a ?? b] *)
Definition nullish_or (a b : option json) : option json :=
  match a with
  | None | Some JNull => b
  | Some _ => a
  end.

(** ** The metrics_daily table *)

Inductive column := UpdateChecks | Downloads | Errors.

(** The three counter columns of a row, and the shape of a range total. *)
Record counters := Counters {
  update_checks : Z;
  downloads : Z;
  errors : Z
}.

Definition zero_counters : counters := Counters 0 0 0.

Definition get_column (c : column) (r : counters) : Z :=
  match c with
  | UpdateChecks => update_checks r
  | Downloads => downloads r
  | Errors => errors r
  end.

(** [SET column = column + 1] *)
Definition bump (c : column) (r : counters) : counters :=
  match c with
  | UpdateChecks => Counters (update_checks r + 1) (downloads r) (errors r)
  | Downloads => Counters (update_checks r) (downloads r + 1) (errors r)
  | Errors => Counters (update_checks r) (downloads r) (errors r + 1)
  end.

Definition add_counters (a b : counters) : counters :=
  Counters (update_checks a + update_checks b)
           (downloads a + downloads b)
           (errors a + errors b).

(** Rows keyed by the primary key [day]. *)
Abbreviation table := (gmap string counters).

(** INSERT INTO metrics_daily(day, ...) VALUES (?,0,0,0) ON CONFLICT(day) DO NOTHING *)
Definition sql_insert_or_ignore (day : string) (t : table) : table :=
  match t !! day with
  | Some _ => t
  | None => <[day := zero_counters]> t
  end.

(** UPDATE metrics_daily SET c = c + 1 WHERE day = ? *)
Definition sql_update_increment (c : column) (day : string) (t : table) : table :=
  alter (bump c) day t.

(** [day >= ? AND day <= ?] on TEXT values: bytewise comparison. *)
Definition day_between (startDay endDay day : string) : bool :=
  String.leb startDay day && String.leb day endDay.

(** SELECT COALESCE(SUM(update_checks),0), COALESCE(SUM(downloads),0),
    COALESCE(SUM(errors),0) FROM metrics_daily WHERE day >= ? AND day <= ?.
    An aggregate without GROUP BY always yields one row. *)
Definition sql_select_totals (startDay endDay : string) (t : table) : counters :=
  map_fold (fun day r acc =>
              if day_between startDay endDay day then add_counters r acc else acc)
           zero_counters t.

(** ** The world outside the Worker *)

Inductive event :=
  | CallIncrement (day : string) (c : column)        (* incrementCounter entered *)
  | SqlInsert (day : string) (ok : bool)
  | SqlUpdate (c : column) (day : string) (ok : bool)
  | SqlSelect (startDay endDay : string) (ok : bool)
  | HttpGet (url : string)
  | HttpPost (url : string) (content : string).

(** What a call of the global [fetch] does: it rejects, or resolves to a
    response with its [ok] flag and, if the body parses as JSON, its value. *)
Inductive fetch_outcome :=
  | FetchRejects
  | FetchResolves (ok : bool) (body : option json).

(** The behaviour of the environment during one invocation: the time value
    of the n-th [new Date()], whether the n-th D1 statement succeeds, and
    the outcome of the n-th outbound request. *)
Record oracle := Oracle {
  clock : nat -> Z;
  db_ok : nat -> bool;
  net : nat -> fetch_outcome
}.

Record world := World {
  store : table;
  trace : list event;
  clock_reads : nat;
  db_calls : nat;
  net_calls : nat
}.

Record Env := {
  MANIFEST_URL : string;
  DISCORD_WEBHOOK_URL : string;
  ADMIN_TOKEN : string
}.

(** The parts of a Request the handler looks at: [request.method],
    [new URL(request.url).pathname] and [request.headers.get("X-Admin-Token")]. *)
Record Request := {
  method : string;
  pathname : string;
  admin_token_header : option string
}.

Inductive Body :=
  | ErrorBody (error : string)             (* {"ok":false,"error":error} *)
  | ManifestBody (manifest : json)         (* JSON.stringify(manifest) *)
  | ReportBody (today yesterday last_7_days month_to_date : counters)
  | NoBody.

Record Response := {
  status : Z;
  location : option string;
  body : Body
}.

(** ** Computations: state and exceptions *)

Definition M (A : Type) : Type := world -> (exn + A) * world.

Definition ret {A} (a : A) : M A := fun w => (inr a, w).

Definition throw {A} (e : exn) : M A := fun w => (inl e, w).

Definition bind {A B} (m : M A) (k : A -> M B) : M B :=
  fun w => match m w with
           | (inr a, w') => k a w'
           | (inl e, w') => (inl e, w')
           end.

(** try { m } catch { h } *)
Definition try_catch {A} (m : M A) (h : M A) : M A :=
  fun w => match m w with
           | (inr a, w') => (inr a, w')
           | (inl _, w') => h w'
           end.

Definition lift {A} (r : exn + A) : M A := fun w => (r, w).

Notation "'let*' x := m 'in' k" := (bind m (fun x => k))
  (at level 10, x name, m at level 100, k at level 200).
Notation "m >> k" := (bind m (fun _ => k))
  (at level 100, k at level 200, right associativity).

Definition log (e : event) : M unit :=
  fun w => (inr tt, World (store w) (trace w ++ [e]) (clock_reads w) (db_calls w) (net_calls w)).

(** Runs [m] and hands back how it ended, as a settled promise does. *)
Definition settle {A} (m : M A) : M (exn + A) :=
  fun w => let (r, w') := m w in (inr r, w').

(** Promise.all over calls that are all started before any is awaited:
    every call runs, and the first rejection (if any) is the outcome. *)
Definition promise_all3 {A} (m1 m2 m3 : M A) : M (A * A * A) :=
  let* r1 := settle m1 in
  let* r2 := settle m2 in
  let* r3 := settle m3 in
  match r1, r2, r3 with
  | inr a, inr b, inr c => ret (a, b, c)
  | inl e, _, _ | inr _, inl e, _ | inr _, inr _, inl e => throw e
  end.

Definition promise_all4 {A} (m1 m2 m3 m4 : M A) : M (A * A * A * A) :=
  let* r1 := settle m1 in
  let* r2 := settle m2 in
  let* r3 := settle m3 in
  let* r4 := settle m4 in
  match r1, r2, r3, r4 with
  | inr a, inr b, inr c, inr d => ret (a, b, c, d)
  | inl e, _, _, _ | inr _, inl e, _, _ | inr _, inr _, inl e, _
  | inr _, inr _, inr _, inl e => throw e
  end.

Definition newline : string := String "010"%char EmptyString.

(** ** The Worker *)
Section Worker.

(** The environment's behaviour during the invocation. *)
Variable o : oracle.

(** URL parsing as done by Response.redirect: the serialised URL, or
    [None] when the string is not a valid absolute URL. *)
Variable parse_url : string -> option string.

(** [new Date()]: always a valid Date. *)
Definition new_Date : M (option Z) :=
  fun w => (inr (Some (clock o (clock_reads w))),
            World (store w) (trace w) (S (clock_reads w)) (db_calls w) (net_calls w)).

(** One prepared statement sent to D1: it either takes effect and
    yields its result, or rejects and leaves the table as it was. *)
Definition d1 {A} (ev : bool -> event) (f : table -> A * table) : M A :=
  fun w =>
    let ok := db_ok o (db_calls w) in
    let tr := trace w ++ [ev ok] in
    if ok then
      let (a, t) := f (store w) in
      (inr a, World t tr (clock_reads w) (S (db_calls w)) (net_calls w))
    else
      (inl StorageError, World (store w) tr (clock_reads w) (S (db_calls w)) (net_calls w)).

(** The global [fetch]. *)
Definition js_fetch (ev : event) : M (bool * option json) :=
  fun w =>
    let w' := World (store w) (trace w ++ [ev]) (clock_reads w) (db_calls w) (S (net_calls w)) in
    match net o (net_calls w) with
    | FetchRejects => (inl TypeError, w')
    | FetchResolves ok body => (inr (ok, body), w')
    end.

(** [res.json()] *)
Definition res_json (res : bool * option json) : M json :=
  match snd res with
  | Some v => ret v
  | None => throw SyntaxError
  end.

(** Upsert-increment a single counter column for the given day. *)
Definition incrementCounter (day : string) (column : column) : M unit :=
  log (CallIncrement day column) >>
  d1 (SqlInsert day) (fun t => (tt, sql_insert_or_ignore day t)) >>
  d1 (SqlUpdate column day) (fun t => (tt, sql_update_increment column day t)).

(** Fetch manifest JSON; the parsed value, or null on failure. *)
Definition fetchManifest (url : string) : M json :=
  try_catch
    (let* res := js_fetch (HttpGet url) in
     if negb (fst res) then ret JNull
     else res_json res)
    (ret JNull).

(** Aggregate totals for a range of days. *)
Definition queryTotals (startDay endDay : string) : M counters :=
  let* row := d1 (SqlSelect startDay endDay)
                 (fun t => (Some (sql_select_totals startDay endDay t), t)) in
  ret (default zero_counters row).

Definition Response_json (b : Body) (st : Z) : Response :=
  {| status := st; location := None; body := b |}.

(** Response.redirect(url, status) *)
Definition Response_redirect (url : string) (st : Z) : M Response :=
  match parse_url url with
  | Some href => ret {| status := st; location := Some href; body := NoBody |}
  | None => throw TypeError
  end.

(** [d.setUTCDate(d.getUTCDate() - n)] on a copy of [date]. *)
Definition days_before (n : Z) (date : option Z) : option Z :=
  JsDate.setUTCDate date ((fun d => d - n) <$> JsDate.getUTCDate date).

(** The HTTP handler. *)
Definition fetch (request : Request) (env : Env) : M Response :=
  let* now := new_Date in
  let* today := lift (utcDay now) in
  if String.eqb (method request) "GET"
     && String.eqb (pathname request) "/update/check" then
    let* counterError :=
      try_catch (incrementCounter today UpdateChecks >> ret false) (ret true) in
    let* manifest := fetchManifest (MANIFEST_URL env) in
    (if counterError : bool
     then try_catch (incrementCounter today Errors) (ret tt)
     else ret tt) >>
    if negb (truthy manifest) then
      ret (Response_json (ErrorBody "manifest_unavailable") 503)
    else
      ret {| status := 200; location := None; body := ManifestBody manifest |}
  else if String.eqb (method request) "GET"
          && String.eqb (pathname request) "/download/latest" then
    let* counterError :=
      try_catch (incrementCounter today Downloads >> ret false) (ret true) in
    let* manifest := fetchManifest (MANIFEST_URL env) in
    (if counterError : bool
     then try_catch (incrementCounter today Errors) (ret tt)
     else ret tt) >>
    if negb (truthy manifest) then
      ret (Response_json (ErrorBody "manifest_unavailable") 503)
    else
      let latest := opt_chain (Some manifest) "latest" in
      let latestUrl :=
        nullish_or (opt_chain (opt_chain latest "download") "url")
                   (opt_chain latest "url") in
      match latestUrl with
      | Some (JStr url) =>
          if String.eqb url "" then
            ret (Response_json (ErrorBody "manifest_unavailable") 503)
          else Response_redirect url 302
      | _ => ret (Response_json (ErrorBody "manifest_unavailable") 503)
      end
  else if String.eqb (method request) "GET"
          && String.eqb (pathname request) "/report" then
    let token := admin_token_header request in
    if String.eqb (ADMIN_TOKEN env) ""
       || negb (bool_decide (token = Some (ADMIN_TOKEN env))) then
      ret (Response_json (ErrorBody "unauthorized") 401)
    else
      let* todayDate := new_Date in
      let yesterdayDate := days_before 1 todayDate in
      let* yesterday := lift (utcDay yesterdayDate) in
      let sevenDaysAgoDate := days_before 6 todayDate in
      let* sevenDaysAgo := lift (utcDay sevenDaysAgoDate) in
      let* monthStart := lift (utcMonthStart todayDate) in
      let* totals :=
        promise_all4 (queryTotals today today)
                     (queryTotals yesterday yesterday)
                     (queryTotals sevenDaysAgo today)
                     (queryTotals monthStart today) in
      let '(todayTotals, yesterdayTotals, last7, mtd) := totals in
      ret (Response_json (ReportBody todayTotals yesterdayTotals last7 mtd) 200)
  else
    ret (Response_json (ErrorBody "not_found") 404).

Definition report_lines (yesterday sevenDaysAgo today monthStart : string)
    (yesterdayTotals last7Totals mtdTotals : counters) : list string :=
  [ "📊 **BUS Core Lighthouse — Daily Report (" +:+ yesterday +:+ ")**";
    "";
    "**Yesterday (" +:+ yesterday +:+ ")**";
    "  • Update checks: " +:+ pretty (update_checks yesterdayTotals);
    "  • Downloads: " +:+ pretty (downloads yesterdayTotals);
    "  • Errors: " +:+ pretty (errors yesterdayTotals);
    "";
    "**Last 7 days (" +:+ sevenDaysAgo +:+ " → " +:+ today +:+ ")**";
    "  • Update checks: " +:+ pretty (update_checks last7Totals);
    "  • Downloads: " +:+ pretty (downloads last7Totals);
    "  • Errors: " +:+ pretty (errors last7Totals);
    "";
    "**Month to date (" +:+ monthStart +:+ " → " +:+ today +:+ ")**";
    "  • Update checks: " +:+ pretty (update_checks mtdTotals);
    "  • Downloads: " +:+ pretty (downloads mtdTotals);
    "  • Errors: " +:+ pretty (errors mtdTotals) ].

(** The scheduled cron handler. *)
Definition scheduled (env : Env) : M unit :=
  let* todayDate := new_Date in
  let* today := lift (utcDay todayDate) in
  let yesterdayDate := days_before 1 todayDate in
  let* yesterday := lift (utcDay yesterdayDate) in
  let sevenDaysAgoDate := days_before 6 todayDate in
  let* sevenDaysAgo := lift (utcDay sevenDaysAgoDate) in
  let* monthStart := lift (utcMonthStart todayDate) in
  let* totals :=
    settle (promise_all3 (queryTotals yesterday yesterday)
                         (queryTotals sevenDaysAgo today)
                         (queryTotals monthStart today)) in
  match totals with
  | inl _ =>
      try_catch (incrementCounter today Errors) (ret tt)
  | inr (yesterdayTotals, last7Totals, mtdTotals) =>
      let message :=
        String.concat newline
          (report_lines yesterday sevenDaysAgo today monthStart
                        yesterdayTotals last7Totals mtdTotals) in
      try_catch
        (let* res := js_fetch (HttpPost (DISCORD_WEBHOOK_URL env) message) in
         if negb (fst res) then throw WebhookError else ret tt)
        (try_catch (incrementCounter today Errors) (ret tt))
  end.

End Worker.

(** ** Vocabulary of the properties *)

#[global] Instance column_eq_dec : EqDecision column.
Proof. solve_decision. Defined.

(** The calls of [incrementCounter] recorded in a trace, in order. *)
Fixpoint increment_calls (tr : list event) : list (string * column) :=
  match tr with
  | [] => []
  | CallIncrement day c :: rest => (day, c) :: increment_calls rest
  | _ :: rest => increment_calls rest
  end.

(** The webhook requests recorded in a trace. *)
Fixpoint webhook_posts (tr : list event) : list (string * string) :=
  match tr with
  | [] => []
  | HttpPost url content :: rest => (url, content) :: webhook_posts rest
  | _ :: rest => webhook_posts rest
  end.

(** The manifest request rejected, was answered with a non-success status,
    or was answered with a body that is not JSON. *)
Definition manifest_fetch_fails (r : fetch_outcome) : Prop :=
  match r with
  | FetchRejects => True
  | FetchResolves ok body => ok = false \/ body = None
  end.

(** What [fetchManifest] makes of the outcome of its request. *)
Definition manifest_of (r : fetch_outcome) : json :=
  match r with
  | FetchResolves true (Some v) => v
  | _ => JNull
  end.

(** The webhook answered with a success status. *)
Definition webhook_ok (r : fetch_outcome) : bool :=
  match r with
  | FetchResolves true _ => true
  | _ => false
  end.

Definition is_get (request : Request) (path : string) : Prop :=
  method request = "GET" /\ pathname request = path.

#[global] Instance is_get_dec request path : Decision (is_get request path).
Proof. unfold is_get. apply _. Defined.

(** The admin secret is configured and the header carries exactly it. *)
Definition authorised (request : Request) (env : Env) : Prop :=
  ADMIN_TOKEN env <> "" /\ admin_token_header request = Some (ADMIN_TOKEN env).

#[global] Instance authorised_dec request env : Decision (authorised request env).
Proof. unfold authorised. apply _. Defined.

Definition response_503 : Response :=
  {| status := 503; location := None; body := ErrorBody "manifest_unavailable" |}.

Definition redirect_302 (href : string) : Response :=
  {| status := 302; location := Some href; body := NoBody |}.

(** The two places of the manifest the download endpoint reads:
    [manifest?.latest?.download?.url] and [manifest?.latest?.url]. *)
Definition download_url (manifest : json) : option json :=
  opt_chain (opt_chain (opt_chain (Some manifest) "latest") "download") "url".

Definition latest_url (manifest : json) : option json :=
  opt_chain (opt_chain (Some manifest) "latest") "url".

Definition redirect_target (manifest : json) : option json :=
  nullish_or (download_url manifest) (latest_url manifest).

(** The outcome of the download endpoint once the manifest is there. *)
Definition download_outcome (parse_url : string -> option string) (manifest : json)
  : exn + Response :=
  if truthy manifest then
    match redirect_target manifest with
    | Some (JStr url) =>
        if String.eqb url "" then inr response_503
        else match parse_url url with
             | Some href => inr (redirect_302 href)
             | None => inl TypeError
             end
    | _ => inr response_503
    end
  else inr response_503.

(** Worlds reached along a run. *)
Definition tick_clock (w : world) : world :=
  World (store w) (trace w) (S (clock_reads w)) (db_calls w) (net_calls w).

Definition after_db (t : table) (evs : list event) (k : nat) (w : world) : world :=
  World t (trace w ++ evs) (clock_reads w) (k + db_calls w) (net_calls w).

Definition after_manifest (url : string) (w : world) : world :=
  World (store w) (trace w ++ [HttpGet url]) (clock_reads w) (db_calls w) (S (net_calls w)).

Definition after_post (url content : string) (w : world) : world :=
  World (store w) (trace w ++ [HttpPost url content]) (clock_reads w) (db_calls w)
        (S (net_calls w)).

(** The day key the handler computes first: [utcDay()] at the next clock reading. *)
Definition today_of (o : oracle) (w : world) : string :=
  day_of (clock o (clock_reads w)).

(** Both statements of the next [incrementCounter] succeed. *)
Definition increment_ok (o : oracle) (w : world) : bool :=
  db_ok o (db_calls w) && db_ok o (S (db_calls w)).

(** The four range queries of the report all succeed. *)
Definition report_queries_ok (o : oracle) (w : world) : bool :=
  db_ok o (db_calls w) && db_ok o (S (db_calls w)) &&
  db_ok o (S (S (db_calls w))) && db_ok o (S (S (S (db_calls w)))).

(** The three range queries of the scheduled job all succeed. *)
Definition job_queries_ok (o : oracle) (w : world) : bool :=
  db_ok o (db_calls w) && db_ok o (S (db_calls w)) && db_ok o (S (S (db_calls w))).

(** The world after the prefix shared by the two counting endpoints: the
    increment, the manifest request and, if the increment failed, the
    increment of [errors]. *)
Definition counted (o : oracle) (today : string) (c : column) (url : string) (w : world)
  : world :=
  let r1 := incrementCounter o today c w in
  let w2 := after_manifest url (snd r1) in
  match fst r1 with
  | inr _ => w2
  | inl _ => snd (incrementCounter o today Errors w2)
  end.

(** The windows of the report as day keys. *)
Definition yesterday_of (now : Z) : string := day_string (Day now - 1).
Definition sevenDaysAgo_of (now : Z) : string := day_string (Day now - 6).
Definition monthStart_of (now : Z) : string :=
  day_string (Day now - DateOfDay (Day now) + 1).

Definition report_response (today yesterday sevenDaysAgo monthStart : string) (t : table)
  : Response :=
  {| status := 200; location := None;
     body := ReportBody (sql_select_totals today today t)
                        (sql_select_totals yesterday yesterday t)
                        (sql_select_totals sevenDaysAgo today t)
                        (sql_select_totals monthStart today t) |}.

(** The message the job posts. *)
Definition report_message (now : Z) (t : table) : string :=
  let today := day_string (Day now) in
  String.concat newline
    (report_lines (yesterday_of now) (sevenDaysAgo_of now) today (monthStart_of now)
       (sql_select_totals (yesterday_of now) (yesterday_of now) t)
       (sql_select_totals (sevenDaysAgo_of now) today t)
       (sql_select_totals (monthStart_of now) today t)).

Definition job_queries (o : oracle) (now : Z) (w : world) : list event :=
  let today := day_string (Day now) in
  [ SqlSelect (yesterday_of now) (yesterday_of now) (db_ok o (db_calls w));
    SqlSelect (sevenDaysAgo_of now) today (db_ok o (S (db_calls w)));
    SqlSelect (monthStart_of now) today (db_ok o (S (S (db_calls w)))) ].

(** What one row adds to the total of a range. *)
Definition row_share (startDay endDay : string) (kr : string * counters) : counters :=
  if day_between startDay endDay kr.1 then kr.2 else zero_counters.

Definition sum_counters (l : list counters) : counters :=
  foldr add_counters zero_counters l.

Definition counters_le (a b : counters) : Prop :=
  update_checks a <= update_checks b /\ downloads a <= downloads b /\ errors a <= errors b.

(** Every row of [t] is still in [t'], with no counter lower. *)
Definition table_le (t t' : table) : Prop :=
  forall day r, t !! day = Some r -> exists r', t' !! day = Some r' /\ counters_le r r'.

(** [m] relates the table before to the table after by [R], however it ends. *)
Definition keeps (R : table -> table -> Prop) {A} (m : M A) : Prop :=
  forall w, R (store w) (store (snd (m w))).

(** All rows of the table are keyed by four-digit-year day keys. *)
Definition day_keyed (t : table) : Prop :=
  forall day r, t !! day = Some r -> exists n, four_digit_day n /\ day = day_string n.

(** [n] calls of [incrementCounter] for the same day and column, in
    sequence; the run stops at the first call that fails. *)
Fixpoint increments (o : oracle) (n : nat) (day : string) (c : column) : M unit :=
  match n with
  | O => ret tt
  | S k => incrementCounter o day c >> increments o k day c
  end.

(** *** Vocabulary of the further properties *)

(** The two statements of one successful [incrementCounter], as a function
    on tables. *)
Definition upsert_increment (c : column) (day : string) (t : table) : table :=
  sql_update_increment c day (sql_insert_or_ignore day t).

Definition nonneg_counters (r : counters) : Prop :=
  0 <= update_checks r /\ 0 <= downloads r /\ 0 <= errors r.

(** No counter of any row is negative. *)
Definition nonneg_table (t : table) : Prop :=
  forall day r, t !! day = Some r -> nonneg_counters r.

(** No range total of [t'] is lower than that of [t]. *)
Definition totals_le (t t' : table) : Prop :=
  forall a b, counters_le (sql_select_totals a b t) (sql_select_totals a b t').

(** Both statements of the increment of [errors] that follows a failed
    increment succeed: the failed call has issued one statement when its
    INSERT was refused and two when its UPDATE was. *)
Definition errors_increment_ok (o : oracle) (w : world) : bool :=
  let k := ((if db_ok o (db_calls w) then 2 else 1) + db_calls w)%nat in
  db_ok o k && db_ok o (S k).

(** The counter a counting endpoint is for. *)
Definition counts (request : Request) (c : column) : Prop :=
  is_get request "/update/check" /\ c = UpdateChecks \/
  is_get request "/download/latest" /\ c = Downloads.

Definition not_found_response : Response :=
  {| status := 404; location := None; body := ErrorBody "not_found" |}.

(** ** Sample inputs *)

(** 2025-03-15T09:00:00.123Z *)
Definition demo_now : Z := 1742029200123.

Definition demo_manifest : json :=
  JObj [("latest"%string,
         JObj [("download"%string, JObj [("url"%string, JStr "https://x/y.zip")])])].

Definition healthy : oracle :=
  Oracle (fun _ => demo_now) (fun _ => true) (fun _ => FetchResolves true (Some demo_manifest)).

Definition manifest_down : oracle :=
  Oracle (fun _ => demo_now) (fun _ => true) (fun _ => FetchRejects).

Definition storage_down : oracle :=
  Oracle (fun _ => demo_now) (fun _ => false) (fun _ => FetchRejects).

(** The second D1 statement of the invocation is refused. *)
Definition second_query_fails : oracle :=
  Oracle (fun _ => demo_now) (fun n => negb (Nat.eqb n 1))
         (fun _ => FetchResolves true (Some demo_manifest)).

Definition empty_world : world := World ∅ [] 0 0 0.

Definition demo_env : Env :=
  {| MANIFEST_URL := "https://m/manifest.json";
     DISCORD_WEBHOOK_URL := "https://discord/hook";
     ADMIN_TOKEN := "secret" |}.

(** A stand-in for the URL parser: https URLs are accepted as they are. *)
Definition https_only (s : string) : option string :=
  if String.prefix "https://" s then Some s else None.

Definition demo_table : table :=
  <["2025-03-10" := Counters 4 1 0]> (<["2025-03-14" := Counters 2 0 1]> ∅).

Definition update_check_request : Request :=
  {| method := "GET"; pathname := "/update/check"; admin_token_header := None |}.

Definition download_request : Request :=
  {| method := "GET"; pathname := "/download/latest"; admin_token_header := None |}.

Definition report_request (token : option string) : Request :=
  {| method := "GET"; pathname := "/report"; admin_token_header := token |}.

(** A manifest whose [latest.download.url] is the empty string. *)
Definition empty_download_manifest : json :=
  JObj [("latest"%string,
         JObj [("download"%string, JObj [("url"%string, JStr "")]);
               ("url"%string, JStr "https://x/z.zip")])].

(** A manifest whose [latest.url] is a path, not a URL. *)
Definition relative_manifest : json :=
  JObj [("latest"%string, JObj [("url"%string, JStr "/files/latest.zip")])].

Definition serves (manifest : json) : oracle :=
  Oracle (fun _ => demo_now) (fun _ => true) (fun _ => FetchResolves true (Some manifest)).

(** The INSERT of the first increment is refused, later statements succeed. *)
Definition first_statement_fails : oracle :=
  Oracle (fun _ => demo_now) (fun n => negb (Nat.eqb n 0))
         (fun _ => FetchResolves true (Some demo_manifest)).

(** 10000-01-01T00:00:00.000Z, the first instant after the four-digit years. *)
Definition year_10000 : Z := 253402300800000.

(** The webhook answers 500, the storage works. *)
Definition webhook_down : oracle :=
  Oracle (fun _ => demo_now) (fun _ => true) (fun _ => FetchResolves false None).

Ltac zdiv := Z.div_mod_to_equations; lia.

(** * Facts about the embedding *)

Lemma DayFromYear_succ y : DayFromYear (y + 1) = DayFromYear y + DaysInYear y.
Proof.
  unfold DayFromYear, DaysInYear, isLeap.
  destruct (Z.eqb_spec (y mod 4) 0), (Z.eqb_spec (y mod 100) 0), (Z.eqb_spec (y mod 400) 0);
    cbn [negb andb orb]; zdiv.
Qed.

Lemma DayFromYear_le y y' : y <= y' -> DayFromYear y <= DayFromYear y'.
Proof. unfold DayFromYear. intros. zdiv. Qed.

Lemma YearFromDay_spec d :
  DayFromYear (YearFromDay d) <= d < DayFromYear (YearFromDay d + 1).
Proof.
  unfold YearFromDay.
  set (y := 1970 + 400 * d / 146097).
  assert (Hlo : DayFromYear (y - 1) <= d).
  { unfold DayFromYear, y. zdiv. }
  assert (Hhi : d < DayFromYear (y + 2)).
  { unfold DayFromYear, y. zdiv. }
  destruct (Z.ltb_spec d (DayFromYear y)).
  - replace (y - 1 + 1) with y by lia. lia.
  - destruct (Z.leb_spec (DayFromYear (y + 1)) d).
    + replace (y + 1 + 1) with (y + 2) by lia. lia.
    + lia.
Qed.

(** YearFromDay is the largest year whose first day is not after [d]. *)
Lemma YearFromDay_unique d y :
  DayFromYear y <= d < DayFromYear (y + 1) -> YearFromDay d = y.
Proof.
  intros H. pose proof (YearFromDay_spec d) as S.
  destruct (Z.lt_trichotomy (YearFromDay d) y) as [L | [E | G]]; [| exact E |].
  - pose proof (DayFromYear_le (YearFromDay d + 1) y ltac:(lia)). lia.
  - pose proof (DayFromYear_le (y + 1) (YearFromDay d) ltac:(lia)). lia.
Qed.

Lemma YearFromDay_mono d d' : d <= d' -> YearFromDay d <= YearFromDay d'.
Proof.
  intros H. pose proof (YearFromDay_spec d). pose proof (YearFromDay_spec d').
  destruct (Z.le_gt_cases (YearFromDay d) (YearFromDay d')); [assumption |].
  pose proof (DayFromYear_le (YearFromDay d' + 1) (YearFromDay d) ltac:(lia)). lia.
Qed.

Lemma MakeDate_Day t : MakeDate (Day t) (TimeWithinDay t) = t.
Proof. unfold MakeDate, Day, TimeWithinDay, msPerDay. zdiv. Qed.

Lemma MonthFromTime_Day t : MonthFromTime t = MonthOfDay (Day t).
Proof. reflexivity. Qed.
Lemma DateFromTime_Day t : DateFromTime t = DateOfDay (Day t).
Proof. reflexivity. Qed.

Lemma MonthOfYearDay_range dwy leap : 0 <= MonthOfYearDay dwy leap <= 11.
Proof.
  unfold MonthOfYearDay.
  repeat match goal with |- context [?a <? ?b] => destruct (Z.ltb_spec a b) end; lia.
Qed.

Lemma month_of_year_day dwy leap :
  0 <= leap <= 1 -> 0 <= dwy < 365 + leap ->
  let m := MonthOfYearDay dwy leap in
  DaysBeforeMonth m leap <= dwy /\
  (m < 11 -> dwy < DaysBeforeMonth (m + 1) leap) /\
  dwy - DaysBeforeMonth m leap < 31.
Proof.
  intros Hl Hd. unfold MonthOfYearDay.
  repeat match goal with |- context [?a <? ?b] => destruct (Z.ltb_spec a b) end;
    cbn [DaysBeforeMonth Z.add Pos.add Pos.succ]; simpl; lia.
Qed.

Lemma day_within_year n :
  let y := YearFromDay n in
  0 <= n - DayFromYear y < 365 + (if isLeap y then 1 else 0).
Proof.
  intros y. pose proof (YearFromDay_spec n) as S. fold y in S.
  rewrite DayFromYear_succ in S. unfold DaysInYear in S.
  destruct (isLeap y); lia.
Qed.

Lemma MonthOfDay_range n : 0 <= MonthOfDay n <= 11.
Proof. apply MonthOfYearDay_range. Qed.

Lemma DateOfDay_range n : 1 <= DateOfDay n <= 31.
Proof.
  unfold DateOfDay, MonthOfDay.
  pose proof (day_within_year n) as W. cbv zeta in W.
  set (leap := if isLeap (YearFromDay n) then 1 else 0) in *.
  assert (0 <= leap <= 1) by (unfold leap; destruct (isLeap _); lia).
  destruct (month_of_year_day _ leap ltac:(lia) W) as (A & B & C). lia.
Qed.

(** MakeDay at the year and month of a day, with another date. *)
Lemma MakeDay_of_day n dt :
  MakeDay (YearFromDay n) (MonthOfDay n) dt = n - DateOfDay n + dt.
Proof.
  unfold MakeDay. pose proof (MonthOfDay_range n).
  replace (MonthOfDay n / 12) with 0 by zdiv.
  replace (MonthOfDay n mod 12) with (MonthOfDay n) by zdiv.
  rewrite Z.add_0_r. unfold DateOfDay. lia.
Qed.

Lemma MonthOfYearDay_first m leap :
  0 <= leap <= 1 -> 0 <= m <= 11 -> MonthOfYearDay (DaysBeforeMonth m leap) leap = m.
Proof.
  intros Hl Hm.
  assert (m = 0 \/ m = 1 \/ m = 2 \/ m = 3 \/ m = 4 \/ m = 5 \/ m = 6 \/ m = 7
          \/ m = 8 \/ m = 9 \/ m = 10 \/ m = 11) as C by lia.
  assert (leap = 0 \/ leap = 1) as [-> | ->] by lia;
    repeat (destruct C as [-> | C]; [reflexivity |]); subst; reflexivity.
Qed.

Lemma DaysBeforeMonth_nonneg m leap : 0 <= leap -> 0 <= DaysBeforeMonth m leap.
Proof.
  intros H. unfold DaysBeforeMonth.
  repeat match goal with |- context [match ?x with _ => _ end] => destruct x end; lia.
Qed.

Lemma first_of_month n :
  let F := n - DateOfDay n + 1 in
  YearFromDay F = YearFromDay n /\ MonthOfDay F = MonthOfDay n /\ DateOfDay F = 1.
Proof.
  intros F.
  pose proof (day_within_year n) as W. cbv zeta in W.
  pose proof (MonthOfDay_range n) as Mr.
  set (y := YearFromDay n) in *. set (leap := if isLeap y then 1 else 0) in *.
  assert (Hl : 0 <= leap <= 1) by (unfold leap; destruct (isLeap _); lia).
  destruct (month_of_year_day _ leap Hl W) as (A & B & C).
  pose proof (DaysBeforeMonth_nonneg (MonthOfDay n) leap ltac:(lia)) as NN.
  assert (HF : F = DayFromYear y + DaysBeforeMonth (MonthOfDay n) leap).
  { unfold F, DateOfDay. fold y leap. lia. }
  assert (Hy : YearFromDay F = y).
  { apply YearFromDay_unique. rewrite DayFromYear_succ. unfold DaysInYear. fold leap.
    fold (MonthOfDay n) in A.
    assert (DaysInYearEq : (if isLeap y then 366 else 365) = 365 + leap)
      by (unfold leap; destruct (isLeap y); lia).
    rewrite DaysInYearEq.
    unfold MonthOfDay in HF, NN |- *. fold y leap in HF, NN |- *. lia. }
  assert (Hm : MonthOfDay F = MonthOfDay n).
  { unfold MonthOfDay at 1. rewrite Hy. fold leap.
    replace (F - DayFromYear y) with (DaysBeforeMonth (MonthOfDay n) leap) by lia.
    apply MonthOfYearDay_first; assumption. }
  repeat split; [exact Hy | exact Hm |].
  unfold DateOfDay. rewrite Hm, Hy. fold leap. lia.
Qed.

(** Later days have lexicographically later civil dates. *)
Lemma MonthOfYearDay_mono a b leap :
  a <= b -> MonthOfYearDay a leap <= MonthOfYearDay b leap.
Proof.
  intros H. unfold MonthOfYearDay.
  repeat match goal with |- context [?x <? ?y] => destruct (Z.ltb_spec x y) end; lia.
Qed.

Lemma civil_lt n1 n2 :
  n1 < n2 ->
  YearFromDay n1 < YearFromDay n2 \/
  YearFromDay n1 = YearFromDay n2 /\
  (MonthOfDay n1 < MonthOfDay n2 \/
   MonthOfDay n1 = MonthOfDay n2 /\ DateOfDay n1 < DateOfDay n2).
Proof.
  intros H. pose proof (YearFromDay_mono n1 n2 ltac:(lia)) as Y.
  destruct (Z.eq_dec (YearFromDay n1) (YearFromDay n2)) as [E | NE]; [right | left; lia].
  split; [exact E |].
  pose proof (MonthOfYearDay_mono (n1 - DayFromYear (YearFromDay n1))
                (n2 - DayFromYear (YearFromDay n1))
                (if isLeap (YearFromDay n1) then 1 else 0) ltac:(lia)) as Mm.
  assert (M2 : MonthOfDay n2 =
               MonthOfYearDay (n2 - DayFromYear (YearFromDay n1))
                 (if isLeap (YearFromDay n1) then 1 else 0))
    by (unfold MonthOfDay; rewrite E; reflexivity).
  fold (MonthOfDay n1) in Mm. rewrite <- M2 in Mm.
  destruct (Z.eq_dec (MonthOfDay n1) (MonthOfDay n2)) as [Em | NEm]; [right | left; lia].
  split; [exact Em |]. unfold DateOfDay. rewrite <- Em, <- E. lia.
Qed.

(** ** Day keys *)

Lemma utcDay_valid t : utcDay (Some t) = inr (day_of t).
Proof. reflexivity. Qed.

Lemma day_of_Day t :
  0 <= YearFromTime t <= 9999 -> day_of t = day_string (Day t).
Proof.
  intros [H0 H1]. unfold day_of, iso_string, isoYear.
  destruct (Z.leb_spec 0 (YearFromTime t)); [| lia].
  destruct (Z.leb_spec (YearFromTime t) 9999); [| lia].
  reflexivity.
Qed.

Lemma digit_compare x y :
  0 <= x <= 9 -> 0 <= y <= 9 -> Ascii.compare (digit x) (digit y) = (x ?= y).
Proof.
  intros Hx Hy.
  assert (x = 0 \/ x = 1 \/ x = 2 \/ x = 3 \/ x = 4 \/ x = 5 \/ x = 6 \/ x = 7
          \/ x = 8 \/ x = 9) as Cx by lia.
  assert (y = 0 \/ y = 1 \/ y = 2 \/ y = 3 \/ y = 4 \/ y = 5 \/ y = 6 \/ y = 7
          \/ y = 8 \/ y = 9) as Cy by lia.
  repeat (destruct Cx as [-> | Cx]);
    repeat (destruct Cy as [-> | Cy]); subst; reflexivity.
Qed.

Lemma digit_mod_compare a b :
  Ascii.compare (digit (a mod 10)) (digit (b mod 10)) = (a mod 10 ?= b mod 10).
Proof. apply digit_compare; zdiv. Qed.

Lemma date_string_lt y1 m1 d1 y2 m2 d2 :
  0 <= y1 <= 9999 -> 0 <= y2 <= 9999 ->
  0 <= m1 <= 99 -> 0 <= m2 <= 99 -> 0 <= d1 <= 99 -> 0 <= d2 <= 99 ->
  (y1 < y2 \/ y1 = y2 /\ (m1 < m2 \/ m1 = m2 /\ d1 < d2)) ->
  String.compare (date_string y1 m1 d1) (date_string y2 m2 d2) = Lt.
Proof.
  intros Hy1 Hy2 Hm1 Hm2 Hd1 Hd2 Hlt.
  unfold date_string, pad4, pad3, pad2.
  cbv beta iota delta [String.append String.compare].
  rewrite !digit_mod_compare.
  change (Ascii.compare "-" "-") with Eq. cbv iota.
  repeat match goal with
         | |- context [?a ?= ?b] => destruct (Z.compare_spec a b)
         end; try reflexivity; exfalso; zdiv.
Qed.

Lemma four_digit_year n : four_digit_day n <-> 0 <= YearFromDay n <= 9999.
Proof.
  unfold four_digit_day. pose proof (YearFromDay_spec n) as S. split.
  - intros [L U]. split.
    + destruct (Z.le_gt_cases 0 (YearFromDay n)); [assumption |].
      pose proof (DayFromYear_le (YearFromDay n + 1) 0 ltac:(lia)). lia.
    + destruct (Z.le_gt_cases (YearFromDay n) 9999); [assumption |].
      pose proof (DayFromYear_le 10000 (YearFromDay n) ltac:(lia)). lia.
  - intros [L U].
    pose proof (DayFromYear_le 0 (YearFromDay n) L).
    pose proof (DayFromYear_le (YearFromDay n + 1) 10000 ltac:(lia)). lia.
Qed.

Lemma day_of_four_digit t :
  four_digit_day (Day t) -> day_of t = day_string (Day t).
Proof. intros H. apply day_of_Day. apply four_digit_year. exact H. Qed.

Lemma day_string_lt n1 n2 :
  four_digit_day n1 -> four_digit_day n2 -> n1 < n2 ->
  String.compare (day_string n1) (day_string n2) = Lt.
Proof.
  intros H1%four_digit_year H2%four_digit_year Hlt.
  pose proof (MonthOfDay_range n1). pose proof (MonthOfDay_range n2).
  pose proof (DateOfDay_range n1). pose proof (DateOfDay_range n2).
  apply date_string_lt; try lia.
  destruct (civil_lt n1 n2 Hlt) as [Y | [Y [M | [M D]]]]; lia.
Qed.

Lemma string_compare_refl s : String.compare s s = Eq.
Proof.
  induction s as [| c s IH]; [reflexivity |]. cbn.
  unfold Ascii.compare. rewrite N.compare_refl. exact IH.
Qed.

Example day_key_order_sample : String.ltb "2025-01-09" "2025-01-10" = true.
Proof. reflexivity. Qed.

(** Comparing day keys as strings is comparing the days they denote
    (the keys are zero-padded). *)
Lemma day_string_leb n1 n2 :
  four_digit_day n1 -> four_digit_day n2 ->
  String.leb (day_string n1) (day_string n2) = (n1 <=? n2).
Proof.
  intros H1 H2. unfold String.leb.
  destruct (Z.leb_spec n1 n2) as [L | G].
  - destruct (Z.eq_dec n1 n2) as [-> | NE].
    + rewrite string_compare_refl. reflexivity.
    + rewrite (day_string_lt n1 n2) by (assumption || lia). reflexivity.
  - rewrite String.compare_antisym.
    rewrite (day_string_lt n2 n1) by (assumption || lia). reflexivity.
Qed.

Lemma day_string_inj n1 n2 :
  four_digit_day n1 -> four_digit_day n2 -> day_string n1 = day_string n2 -> n1 = n2.
Proof.
  intros H1 H2 E.
  destruct (Z.lt_trichotomy n1 n2) as [L | [E' | G]]; [| exact E' |].
  - pose proof (day_string_lt n1 n2 H1 H2 L) as C.
    rewrite E, string_compare_refl in C. discriminate.
  - pose proof (day_string_lt n2 n1 H2 H1 G) as C.
    rewrite E, string_compare_refl in C. discriminate.
Qed.

(** Bytewise order on strings is transitive. *)
Lemma ascii_compare_spec a b :
  CompareSpec (a = b) (N_of_ascii a < N_of_ascii b)%N (N_of_ascii b < N_of_ascii a)%N
              (Ascii.compare a b).
Proof.
  unfold Ascii.compare. destruct (N.compare_spec (N_of_ascii a) (N_of_ascii b)) as [E | L | G];
    constructor; try assumption.
  rewrite <- (ascii_N_embedding a), <- (ascii_N_embedding b), E. reflexivity.
Qed.

Lemma string_leb_trans s1 s2 s3 :
  String.leb s1 s2 = true -> String.leb s2 s3 = true -> String.leb s1 s3 = true.
Proof.
  unfold String.leb. revert s2 s3.
  induction s1 as [| a s1 IH]; intros [| b s2] [| c s3]; cbn; try (intros; congruence).
  destruct (ascii_compare_spec a b) as [Eab | Lab | Gab];
    destruct (ascii_compare_spec b c) as [Ebc | Lbc | Gbc];
    destruct (ascii_compare_spec a c) as [Eac | Lac | Gac];
    subst; try (intros; congruence); try lia.
  apply IH.
Qed.

Lemma string_leb_refl s : String.leb s s = true.
Proof. unfold String.leb. rewrite string_compare_refl. reflexivity. Qed.


(** ** The windows of the report *)

Lemma DayFromYear_0 : DayFromYear 0 = -719528.
Proof. reflexivity. Qed.
Lemma DayFromYear_100 : DayFromYear 100 = -683003.
Proof. reflexivity. Qed.
Lemma DayFromYear_10000 : DayFromYear 10000 = 2932897.
Proof. reflexivity. Qed.

Lemma clock_in_range_day t :
  clock_in_range t -> DayFromYear 100 <= Day t < DayFromYear 10000.
Proof.
  unfold clock_in_range, YearFromTime. intros [L U].
  pose proof (YearFromDay_spec (Day t)) as S.
  pose proof (DayFromYear_le 100 (YearFromDay (Day t)) L).
  pose proof (DayFromYear_le (YearFromDay (Day t) + 1) 10000 ltac:(lia)). lia.
Qed.

Lemma Day_bounds t : Day t * msPerDay <= t < (Day t + 1) * msPerDay.
Proof. unfold Day, msPerDay. zdiv. Qed.

Lemma TimeClip_small t : Z.abs t <= maxTime -> TimeClip t = Some t.
Proof.
  intros H. unfold TimeClip. destruct (Z.leb_spec (Z.abs t) maxTime); [reflexivity | lia].
Qed.

Lemma Day_shift t k : Day (t - k * msPerDay) = Day t - k.
Proof. unfold Day, msPerDay. zdiv. Qed.

(** [setUTCDate(getUTCDate() - k)] moves the instant back by [k] whole days. *)
Lemma days_before_shift k t :
  clock_in_range t -> 0 <= k <= 31 ->
  days_before k (Some t) = Some (t - k * msPerDay).
Proof.
  intros Ht Hk. unfold days_before, getUTCDate, setUTCDate. cbn [fmap option_fmap option_map].
  unfold YearFromTime. rewrite MonthFromTime_Day, DateFromTime_Day, MakeDay_of_day.
  pose proof (clock_in_range_day t Ht) as D. rewrite DayFromYear_100, DayFromYear_10000 in D.
  pose proof (Day_bounds t) as B.
  assert (E : MakeDate (Day t - DateOfDay (Day t) + (DateOfDay (Day t) - k)) (TimeWithinDay t)
              = t - k * msPerDay).
  { pose proof (MakeDate_Day t) as M. unfold MakeDate in *. lia. }
  rewrite E. apply TimeClip_small. unfold maxTime, msPerDay in *. lia.
Qed.

Lemma utcDay_days_before k t :
  clock_in_range t -> 0 <= k <= 31 ->
  utcDay (days_before k (Some t)) = inr (day_string (Day t - k)).
Proof.
  intros Ht Hk. rewrite days_before_shift by assumption.
  rewrite utcDay_valid. f_equal.
  rewrite day_of_four_digit; rewrite Day_shift; [reflexivity |].
  pose proof (clock_in_range_day t Ht) as D. unfold four_digit_day.
  rewrite DayFromYear_0, DayFromYear_10000. rewrite DayFromYear_100, DayFromYear_10000 in D. lia.
Qed.

Lemma utcDay_today t :
  clock_in_range t -> utcDay (Some t) = inr (day_string (Day t)).
Proof.
  intros Ht. rewrite utcDay_valid. f_equal. apply day_of_Day.
  unfold clock_in_range in Ht. lia.
Qed.

(** [utcMonthStart] is the day key of the first day of the month of [t]. *)
Lemma utcMonthStart_first t :
  clock_in_range t ->
  utcMonthStart (Some t) = inr (day_string (Day t - DateOfDay (Day t) + 1)) /\
  day_string (Day t - DateOfDay (Day t) + 1) =
    date_string (YearFromTime t) (MonthFromTime t + 1) 1.
Proof.
  intros Ht.
  destruct (first_of_month (Day t)) as (Fy & Fm & Fd).
  set (F := Day t - DateOfDay (Day t) + 1) in *.
  split.
  - unfold utcMonthStart, getUTCFullYear, getUTCMonth, UTC.
    cbn [fmap option_fmap option_map].
    unfold MakeFullYear.
    assert (Hy : (0 <=? YearFromTime t) && (YearFromTime t <=? 99) = false).
    { unfold clock_in_range in Ht. apply andb_false_iff. right. apply Z.leb_gt. lia. }
    rewrite Hy. unfold YearFromTime at 1. rewrite MonthFromTime_Day, MakeDay_of_day.
    fold F.
    pose proof (clock_in_range_day t Ht) as D. rewrite DayFromYear_100, DayFromYear_10000 in D.
    pose proof (DateOfDay_range (Day t)) as R.
    assert (HF : MakeDate F 0 = F * msPerDay) by (unfold MakeDate; lia).
    rewrite HF. rewrite TimeClip_small by (unfold maxTime, msPerDay, F; lia).
    rewrite utcDay_valid. f_equal.
    assert (DF : Day (F * msPerDay) = F) by (unfold Day, msPerDay; zdiv).
    rewrite day_of_Day; rewrite ?DF; [reflexivity |].
    unfold YearFromTime. rewrite DF, Fy. unfold clock_in_range, YearFromTime in Ht. lia.
  - unfold day_string. rewrite Fy, Fm, Fd. reflexivity.
Qed.

(** ** The table and the range sum *)

Lemma counters_eq (a b : counters) :
  update_checks a = update_checks b -> downloads a = downloads b ->
  errors a = errors b -> a = b.
Proof. destruct a, b; cbn; congruence. Qed.

Lemma add_counters_zero_l r : add_counters zero_counters r = r.
Proof. apply counters_eq; cbn; lia. Qed.

Lemma add_counters_zero_r r : add_counters r zero_counters = r.
Proof. apply counters_eq; cbn; lia. Qed.

Lemma sum_counters_cons r l :
  sum_counters (r :: l) = add_counters r (sum_counters l).
Proof. reflexivity. Qed.

Lemma select_as_sum a b (t : table) :
  sql_select_totals a b t = sum_counters (row_share a b <$> map_to_list t).
Proof.
  unfold sql_select_totals. rewrite map_fold_foldr.
  induction (map_to_list t) as [| [k r] l IH]; [reflexivity |].
  cbn. rewrite IH. unfold row_share. cbn.
  destruct (day_between a b k); [reflexivity |].
  rewrite add_counters_zero_l. reflexivity.
Qed.

Lemma sum_counters_zero (l : list counters) :
  (forall r, r ∈ l -> r = zero_counters) -> sum_counters l = zero_counters.
Proof.
  induction l as [| r l IH]; intros H; [reflexivity |].
  rewrite sum_counters_cons.
  rewrite (H r) by left. rewrite add_counters_zero_l.
  apply IH. intros r' Hr'. apply H. right. exact Hr'.
Qed.

Lemma sum_counters_pointwise {A} (f g h : A -> counters) (l : list A) :
  (forall x, x ∈ l -> add_counters (f x) (g x) = h x) ->
  add_counters (sum_counters (f <$> l)) (sum_counters (g <$> l)) = sum_counters (h <$> l).
Proof.
  induction l as [| x l IH]; intros H; [reflexivity |].
  rewrite !fmap_cons, !sum_counters_cons.
  rewrite <- (H x) by left. rewrite <- IH by (intros y Hy; apply H; right; exact Hy).
  apply counters_eq; cbn [update_checks downloads errors add_counters]; lia.
Qed.

(** A range that holds no row sums to zero. *)
Lemma select_no_rows a b (t : table) :
  (forall day r, t !! day = Some r -> day_between a b day = false) ->
  sql_select_totals a b t = zero_counters.
Proof.
  intros H. rewrite select_as_sum. apply sum_counters_zero.
  intros r [[k x] [-> Hk]]%list_elem_of_fmap.
  apply elem_of_map_to_list in Hk. unfold row_share. cbn.
  rewrite (H k x Hk). reflexivity.
Qed.

Lemma day_between_same d k : day_between d d k = true <-> k = d.
Proof.
  unfold day_between. rewrite andb_true_iff. split.
  - intros [A B]. apply String.leb_antisym; assumption.
  - intros ->. rewrite string_leb_refl. auto.
Qed.

Lemma day_between_empty a b k :
  String.ltb b a = true -> day_between a b k = false.
Proof.
  intros H. unfold day_between.
  destruct (String.leb a k) eqn:E1; [| reflexivity].
  destruct (String.leb k b) eqn:E2; [| reflexivity].
  pose proof (string_leb_trans _ _ _ E1 E2) as E3.
  unfold String.ltb, String.leb in *. rewrite String.compare_antisym in E3.
  destruct (String.compare b a); cbn in *; congruence.
Qed.

Lemma select_step_comm a b (j1 j2 : string) (z1 z2 y : counters) :
  (if day_between a b j1 then add_counters z1
     (if day_between a b j2 then add_counters z2 y else y)
   else (if day_between a b j2 then add_counters z2 y else y)) =
  (if day_between a b j2 then add_counters z2
     (if day_between a b j1 then add_counters z1 y else y)
   else (if day_between a b j1 then add_counters z1 y else y)).
Proof.
  destruct (day_between a b j1), (day_between a b j2); try reflexivity.
  apply counters_eq; cbn; lia.
Qed.

(** The total of the one-day range [d .. d] is the row of [d], if any. *)
Lemma select_single_day d (t : table) :
  sql_select_totals d d t = default zero_counters (t !! d).
Proof.
  destruct (t !! d) as [r |] eqn:E; cbn.
  - unfold sql_select_totals.
    rewrite (map_fold_delete_L _ _ d r t); [| intros; apply select_step_comm | exact E].
    assert (D : day_between d d d = true) by (apply day_between_same; reflexivity).
    rewrite D.
    fold (sql_select_totals d d (delete d t)).
    rewrite select_no_rows; [apply add_counters_zero_r |].
    intros k x Hk. destruct (day_between d d k) eqn:B; [| reflexivity].
    apply day_between_same in B. subst k. rewrite lookup_delete_eq in Hk. discriminate.
  - apply select_no_rows. intros k x Hk.
    destruct (day_between d d k) eqn:B; [| reflexivity].
    apply day_between_same in B. subst k. congruence.
Qed.


(** ** Runs of the helpers and of the handlers

    Each lemma gives the outcome and the world after a call in closed form,
    by cases on what the environment does. *)

Section Runs.
Variable o : oracle.
Variable parse_url : string -> option string.

Lemma incrementCounter_run day c w :
  incrementCounter o day c w =
  let i := db_calls w in
  if db_ok o i then
    if db_ok o (S i) then
      (inr tt,
       after_db (sql_update_increment c day (sql_insert_or_ignore day (store w)))
                [CallIncrement day c; SqlInsert day true; SqlUpdate c day true] 2 w)
    else
      (inl StorageError,
       after_db (sql_insert_or_ignore day (store w))
                [CallIncrement day c; SqlInsert day true; SqlUpdate c day false] 2 w)
  else
    (inl StorageError,
     after_db (store w) [CallIncrement day c; SqlInsert day false] 1 w).
Proof.
  unfold incrementCounter, bind, log, d1, after_db. cbn.
  destruct (db_ok o (db_calls w)); cbn; [destruct (db_ok o (S (db_calls w))); cbn |];
    rewrite <- ?app_assoc; reflexivity.
Qed.

Lemma queryTotals_run a b w :
  queryTotals o a b w =
  if db_ok o (db_calls w) then
    (inr (sql_select_totals a b (store w)), after_db (store w) [SqlSelect a b true] 1 w)
  else
    (inl StorageError, after_db (store w) [SqlSelect a b false] 1 w).
Proof.
  unfold queryTotals, bind, d1, after_db, ret. cbn.
  destruct (db_ok o (db_calls w)); reflexivity.
Qed.

Lemma fetchManifest_run url w :
  fetchManifest o url w =
  (inr (manifest_of (net o (net_calls w))),
   World (store w) (trace w ++ [HttpGet url]) (clock_reads w) (db_calls w)
         (S (net_calls w))).
Proof.
  unfold fetchManifest, try_catch, bind, js_fetch, res_json, ret, throw, manifest_of.
  destruct (net o (net_calls w)) as [| [] []]; reflexivity.
Qed.

Lemma counting_prefix {B} today c url (K : json -> M B) w :
  (let* counterError :=
     try_catch (incrementCounter o today c >> ret false) (ret true) in
   let* manifest := fetchManifest o url in
   (if counterError : bool
    then try_catch (incrementCounter o today Errors) (ret tt)
    else ret tt) >>
   K manifest) w
  = K (manifest_of (net o (net_calls w))) (counted o today c url w).
Proof.
  unfold counted. unfold bind at 1. unfold try_catch at 1. unfold bind at 1.
  rewrite incrementCounter_run. cbv zeta.
  destruct (db_ok o (db_calls w)); [destruct (db_ok o (S (db_calls w))) |];
    cbn [fst snd ret]; unfold bind at 1; rewrite fetchManifest_run;
    unfold after_manifest, after_db;
    cbn [fst snd net_calls store trace clock_reads db_calls];
    unfold bind at 1; unfold try_catch, ret;
    try reflexivity;
    match goal with
    | |- context [incrementCounter o today Errors ?w'] =>
        destruct (incrementCounter o today Errors w') as [[e | []] w3]; reflexivity
    end.
Qed.

Lemma fetch_update_check request env w :
  is_get request "/update/check" ->
  fetch o parse_url request env w =
  let manifest := manifest_of (net o (net_calls w)) in
  (inr (if truthy manifest
        then {| status := 200; location := None; body := ManifestBody manifest |}
        else response_503),
   counted o (today_of o w) UpdateChecks (MANIFEST_URL env) (tick_clock w)).
Proof.
  intros [Hm Hp]. unfold fetch. unfold bind at 1. cbn [new_Date].
  unfold bind at 1. cbn [lift utcDay toISOString]. rewrite Hm, Hp.
  cbn [String.eqb Ascii.eqb Bool.eqb andb].
  fold (day_of (clock o (clock_reads w))). fold (today_of o w). fold (tick_clock w).
  rewrite counting_prefix. cbv zeta.
  cbn [net_calls tick_clock].
  destruct (truthy (manifest_of (net o (net_calls w)))); reflexivity.
Qed.

Lemma fetch_download_latest request env w :
  is_get request "/download/latest" ->
  fetch o parse_url request env w =
  (download_outcome parse_url (manifest_of (net o (net_calls w))),
   counted o (today_of o w) Downloads (MANIFEST_URL env) (tick_clock w)).
Proof.
  intros [Hm Hp]. unfold fetch. unfold bind at 1. cbn [new_Date].
  unfold bind at 1. cbn [lift utcDay toISOString]. rewrite Hm, Hp.
  cbn [String.eqb Ascii.eqb Bool.eqb andb].
  fold (day_of (clock o (clock_reads w))). fold (today_of o w). fold (tick_clock w).
  rewrite counting_prefix. cbv zeta.
  cbn [net_calls tick_clock].
  unfold download_outcome, redirect_target, download_url, latest_url, Response_redirect.
  destruct (truthy (manifest_of (net o (net_calls w)))); cbn [negb]; [| reflexivity].
  match goal with |- context [nullish_or ?a ?b] => destruct (nullish_or a b) as [[] |] end;
    try reflexivity.
  destruct (String.eqb s ""); [reflexivity |].
  destruct (parse_url s); reflexivity.
Qed.

Lemma fetch_not_found request env w :
  ~ is_get request "/update/check" -> ~ is_get request "/download/latest" ->
  ~ is_get request "/report" ->
  fetch o parse_url request env w =
  (inr {| status := 404; location := None; body := ErrorBody "not_found" |},
   tick_clock w).
Proof.
  intros H1 H2 H3. unfold fetch. unfold bind at 1. cbn [new_Date].
  unfold bind at 1. cbn [lift utcDay toISOString].
  unfold is_get in *.
  destruct (String.eqb_spec (method request) "GET") as [Em | Em]; cbn [andb];
    [| reflexivity].
  destruct (String.eqb_spec (pathname request) "/update/check"); [tauto |].
  destruct (String.eqb_spec (pathname request) "/download/latest"); [tauto |].
  destruct (String.eqb_spec (pathname request) "/report"); [tauto |].
  reflexivity.
Qed.

Lemma fetch_report_unauthorised request env w :
  is_get request "/report" -> ~ authorised request env ->
  fetch o parse_url request env w =
  (inr {| status := 401; location := None; body := ErrorBody "unauthorized" |},
   tick_clock w).
Proof.
  intros [Hm Hp] Hna. unfold fetch. unfold bind at 1. cbn [new_Date].
  unfold bind at 1. cbn [lift utcDay toISOString]. rewrite Hm, Hp.
  cbn [String.eqb Ascii.eqb Bool.eqb andb].
  destruct (String.eqb_spec (ADMIN_TOKEN env) "") as [E | NE]; cbn [orb]; [reflexivity |].
  case_bool_decide as Ht; cbn [negb]; [| reflexivity].
  exfalso. apply Hna. split; assumption.
Qed.

Lemma promise_all4_queries a1 b1 a2 b2 a3 b3 a4 b4 w :
  promise_all4 (queryTotals o a1 b1) (queryTotals o a2 b2)
               (queryTotals o a3 b3) (queryTotals o a4 b4) w =
  let i := db_calls w in
  let w' := after_db (store w)
              [ SqlSelect a1 b1 (db_ok o i); SqlSelect a2 b2 (db_ok o (S i));
                SqlSelect a3 b3 (db_ok o (S (S i)));
                SqlSelect a4 b4 (db_ok o (S (S (S i)))) ] 4 w in
  if db_ok o i && db_ok o (S i) && db_ok o (S (S i)) && db_ok o (S (S (S i))) then
    (inr (sql_select_totals a1 b1 (store w), sql_select_totals a2 b2 (store w),
          sql_select_totals a3 b3 (store w), sql_select_totals a4 b4 (store w)), w')
  else (inl StorageError, w').
Proof.
  unfold promise_all4, bind, settle, queryTotals, bind, d1, ret, throw, after_db.
  cbv zeta. cbn [store trace clock_reads db_calls net_calls].
  destruct (db_ok o (db_calls w));
    cbn [store trace clock_reads db_calls net_calls default fst snd andb];
    destruct (db_ok o (S (db_calls w)));
    cbn [store trace clock_reads db_calls net_calls default fst snd andb];
    destruct (db_ok o (S (S (db_calls w))));
    cbn [store trace clock_reads db_calls net_calls default fst snd andb];
    destruct (db_ok o (S (S (S (db_calls w)))));
    cbn [store trace clock_reads db_calls net_calls default fst snd andb];
    rewrite <- ?app_assoc; reflexivity.
Qed.

Lemma fetch_report_authorised request env w :
  is_get request "/report" -> authorised request env ->
  clock_in_range (clock o (S (clock_reads w))) ->
  fetch o parse_url request env w =
  let i := db_calls w in
  let now := clock o (S (clock_reads w)) in
  let today := today_of o w in
  let w' := after_db (store w)
              [ SqlSelect today today (db_ok o i);
                SqlSelect (yesterday_of now) (yesterday_of now) (db_ok o (S i));
                SqlSelect (sevenDaysAgo_of now) today (db_ok o (S (S i)));
                SqlSelect (monthStart_of now) today (db_ok o (S (S (S i)))) ] 4
              (tick_clock (tick_clock w)) in
  if db_ok o i && db_ok o (S i) && db_ok o (S (S i)) && db_ok o (S (S (S i))) then
    (inr (report_response today (yesterday_of now) (sevenDaysAgo_of now)
                          (monthStart_of now) (store w)), w')
  else (inl StorageError, w').
Proof.
  intros [Hm Hp] [Hne Htok] Hclk. unfold fetch. unfold bind at 1. cbn [new_Date].
  unfold bind at 1. cbn [lift utcDay toISOString]. rewrite Hm, Hp.
  cbn [String.eqb Ascii.eqb Bool.eqb andb].
  fold (day_of (clock o (clock_reads w))). fold (today_of o w).
  destruct (String.eqb_spec (ADMIN_TOKEN env) "") as [E | _]; [contradiction |].
  rewrite bool_decide_eq_true_2 by exact Htok. cbn [orb negb].
  unfold bind at 1. cbn [new_Date clock_reads].
  rewrite !utcDay_days_before by (assumption || lia).
  destruct (utcMonthStart_first _ Hclk) as [Hms _]. rewrite Hms.
  cbn [store trace clock_reads db_calls net_calls].
  do 3 (unfold bind at 1; cbn [lift]).
  unfold bind at 1. rewrite promise_all4_queries. cbv zeta.
  cbn [db_calls store].
  fold (yesterday_of (clock o (S (clock_reads w)))).
  fold (sevenDaysAgo_of (clock o (S (clock_reads w)))).
  fold (monthStart_of (clock o (S (clock_reads w)))).
  destruct (db_ok o (db_calls w) && db_ok o (S (db_calls w)) &&
            db_ok o (S (S (db_calls w))) && db_ok o (S (S (S (db_calls w)))));
    reflexivity.
Qed.

Lemma promise_all3_queries a1 b1 a2 b2 a3 b3 w :
  promise_all3 (queryTotals o a1 b1) (queryTotals o a2 b2) (queryTotals o a3 b3) w =
  let i := db_calls w in
  let w' := after_db (store w)
              [ SqlSelect a1 b1 (db_ok o i); SqlSelect a2 b2 (db_ok o (S i));
                SqlSelect a3 b3 (db_ok o (S (S i))) ] 3 w in
  if db_ok o i && db_ok o (S i) && db_ok o (S (S i)) then
    (inr (sql_select_totals a1 b1 (store w), sql_select_totals a2 b2 (store w),
          sql_select_totals a3 b3 (store w)), w')
  else (inl StorageError, w').
Proof.
  unfold promise_all3, bind, settle, queryTotals, bind, d1, ret, throw, after_db.
  cbv zeta. cbn [store trace clock_reads db_calls net_calls].
  destruct (db_ok o (db_calls w));
    cbn [store trace clock_reads db_calls net_calls default fst snd andb];
    destruct (db_ok o (S (db_calls w)));
    cbn [store trace clock_reads db_calls net_calls default fst snd andb];
    destruct (db_ok o (S (S (db_calls w))));
    cbn [store trace clock_reads db_calls net_calls default fst snd andb];
    rewrite <- ?app_assoc; reflexivity.
Qed.

Lemma scheduled_run env w :
  clock_in_range (clock o (clock_reads w)) ->
  scheduled o env w =
  let i := db_calls w in
  let now := clock o (clock_reads w) in
  let today := day_string (Day now) in
  let w1 := after_db (store w) (job_queries o now w) 3 (tick_clock w) in
  if db_ok o i && db_ok o (S i) && db_ok o (S (S i)) then
    let w2 := after_post (DISCORD_WEBHOOK_URL env) (report_message now (store w)) w1 in
    if webhook_ok (net o (net_calls w)) then (inr tt, w2)
    else (inr tt, snd (incrementCounter o today Errors w2))
  else (inr tt, snd (incrementCounter o today Errors w1)).
Proof.
  intros Hclk. unfold scheduled. unfold bind at 1. cbn [new_Date].
  rewrite utcDay_today by assumption.
  unfold bind at 1. cbn [lift].
  rewrite !utcDay_days_before by (assumption || lia).
  destruct (utcMonthStart_first _ Hclk) as [Hms _]. rewrite Hms.
  cbn [store trace clock_reads db_calls net_calls].
  do 3 (unfold bind at 1; cbn [lift]).
  unfold bind at 1. unfold settle. rewrite promise_all3_queries. cbv zeta.
  cbn [db_calls store].
  fold (yesterday_of (clock o (clock_reads w))).
  fold (sevenDaysAgo_of (clock o (clock_reads w))).
  fold (monthStart_of (clock o (clock_reads w))).
  fold (tick_clock w). unfold job_queries.
  destruct (db_ok o (db_calls w) && db_ok o (S (db_calls w)) &&
            db_ok o (S (S (db_calls w)))).
  - unfold try_catch at 1. unfold bind at 1. unfold js_fetch.
    cbn [net_calls after_db tick_clock store trace clock_reads db_calls].
    unfold report_message, after_post, webhook_ok.
    cbn [net_calls after_db tick_clock store trace clock_reads db_calls].
    destruct (net o (net_calls w)) as [| [] body]; cbn [fst negb];
      unfold try_catch, ret, throw;
      try reflexivity;
      match goal with
      | |- context [incrementCounter o ?d Errors ?w'] =>
          destruct (incrementCounter o d Errors w') as [[e | []] w3]; reflexivity
      end.
  - unfold try_catch, ret.
    match goal with
    | |- context [incrementCounter o ?d Errors ?w'] =>
        destruct (incrementCounter o d Errors w') as [[e | []] w3]; reflexivity
    end.
Qed.
End Runs.


(** ** Counters never decrease *)

Lemma counters_le_refl r : counters_le r r.
Proof. unfold counters_le. lia. Qed.

Lemma table_le_refl t : table_le t t.
Proof. intros day r H. exists r. split; [exact H | apply counters_le_refl]. Qed.

Lemma table_le_trans t1 t2 t3 : table_le t1 t2 -> table_le t2 t3 -> table_le t1 t3.
Proof.
  intros H12 H23 day r H. destruct (H12 day r H) as (r2 & H2 & L2).
  destruct (H23 day r2 H2) as (r3 & H3 & L3). exists r3. split; [exact H3 |].
  unfold counters_le in *. lia.
Qed.

Lemma insert_or_ignore_le day t : table_le t (sql_insert_or_ignore day t).
Proof.
  unfold sql_insert_or_ignore. destruct (t !! day) eqn:E; [apply table_le_refl |].
  intros d r H. exists r. split; [| apply counters_le_refl].
  rewrite lookup_insert_ne; [exact H | congruence].
Qed.

Lemma bump_le c r : counters_le r (bump c r).
Proof. destruct c; unfold counters_le; cbn; lia. Qed.

Lemma update_increment_le c day t : table_le t (sql_update_increment c day t).
Proof.
  intros d r H. unfold sql_update_increment.
  destruct (decide (day = d)) as [-> | NE].
  - exists (bump c r). rewrite lookup_alter_eq, H. split; [reflexivity | apply bump_le].
  - exists r. rewrite lookup_alter_ne by exact NE. split; [exact H | apply counters_le_refl].
Qed.

Section Keeps.
Variable R : table -> table -> Prop.
Hypothesis R_refl : forall t, R t t.
Hypothesis R_trans : forall t1 t2 t3, R t1 t2 -> R t2 t3 -> R t1 t3.

Lemma keeps_ret {A} (a : A) : keeps R (ret a).
Proof. intros w. apply R_refl. Qed.

Lemma keeps_throw {A} e : keeps R (@throw A e).
Proof. intros w. apply R_refl. Qed.

Lemma keeps_lift {A} (r : exn + A) : keeps R (lift r).
Proof. intros w. apply R_refl. Qed.

Lemma keeps_log e : keeps R (log e).
Proof. intros w. apply R_refl. Qed.

Lemma keeps_bind {A B} (m : M A) (k : A -> M B) :
  keeps R m -> (forall a, keeps R (k a)) -> keeps R (bind m k).
Proof.
  intros Hm Hk w. unfold bind. specialize (Hm w).
  destruct (m w) as [[e | a] w1]; cbn in *; [exact Hm |].
  eapply R_trans; [exact Hm | apply Hk].
Qed.

Lemma keeps_try_catch {A} (m h : M A) :
  keeps R m -> keeps R h -> keeps R (try_catch m h).
Proof.
  intros Hm Hh w. unfold try_catch. specialize (Hm w).
  destruct (m w) as [[e | a] w1]; cbn in *; [| exact Hm].
  eapply R_trans; [exact Hm | apply Hh].
Qed.

Lemma keeps_settle {A} (m : M A) : keeps R m -> keeps R (settle m).
Proof.
  intros Hm w. unfold settle. specialize (Hm w). destruct (m w) as [r w1]. exact Hm.
Qed.

Lemma keeps_new_Date o : keeps R (new_Date o).
Proof. intros w. apply R_refl. Qed.

Lemma keeps_js_fetch o ev : keeps R (js_fetch o ev).
Proof. intros w. unfold js_fetch. destruct (net o (net_calls w)); apply R_refl. Qed.

Lemma keeps_d1 o {A} ev (f : table -> A * table) :
  (forall t, R t (snd (f t))) -> keeps R (d1 o ev f).
Proof.
  intros Hf w. unfold d1. destruct (db_ok o (db_calls w)); [| apply R_refl].
  specialize (Hf (store w)). destruct (f (store w)) as [a t]. exact Hf.
Qed.

Lemma keeps_promise_all3 {A} (m1 m2 m3 : M A) :
  keeps R m1 -> keeps R m2 -> keeps R m3 -> keeps R (promise_all3 m1 m2 m3).
Proof.
  intros H1 H2 H3. unfold promise_all3.
  repeat (apply keeps_bind; [apply keeps_settle; assumption | intros ?]).
  repeat match goal with |- context [match ?x with _ => _ end] => destruct x end;
    (apply keeps_ret || apply keeps_throw).
Qed.

Lemma keeps_promise_all4 {A} (m1 m2 m3 m4 : M A) :
  keeps R m1 -> keeps R m2 -> keeps R m3 -> keeps R m4 ->
  keeps R (promise_all4 m1 m2 m3 m4).
Proof.
  intros H1 H2 H3 H4. unfold promise_all4.
  repeat (apply keeps_bind; [apply keeps_settle; assumption | intros ?]).
  repeat match goal with |- context [match ?x with _ => _ end] => destruct x end;
    (apply keeps_ret || apply keeps_throw).
Qed.

Lemma keeps_queryTotals o a b : keeps R (queryTotals o a b).
Proof.
  unfold queryTotals. apply keeps_bind; [| intros; apply keeps_ret].
  apply keeps_d1. intros t. apply R_refl.
Qed.

Lemma keeps_fetchManifest o url : keeps R (fetchManifest o url).
Proof.
  unfold fetchManifest. apply keeps_try_catch; [| apply keeps_ret].
  apply keeps_bind; [apply keeps_js_fetch | intros res].
  destruct (negb (fst res)); [apply keeps_ret |].
  unfold res_json. destruct (snd res); [apply keeps_ret | apply keeps_throw].
Qed.

(** The two statements of [incrementCounter] are the only writes. *)
Hypothesis R_insert : forall day t, R t (sql_insert_or_ignore day t).
Hypothesis R_update : forall c day t, R t (sql_update_increment c day t).

Lemma keeps_incrementCounter o day c : keeps R (incrementCounter o day c).
Proof.
  unfold incrementCounter.
  apply keeps_bind; [apply keeps_log | intros _].
  apply keeps_bind; [apply keeps_d1; intros t; apply R_insert | intros _].
  apply keeps_d1. intros t. apply R_update.
Qed.

Lemma keeps_fetch o parse_url request env : keeps R (fetch o parse_url request env).
Proof.
  unfold fetch.
  apply keeps_bind; [apply keeps_new_Date | intros now].
  apply keeps_bind; [apply keeps_lift | intros today].
  repeat match goal with
         | |- keeps R (if ?b then _ else _) => destruct b
         | |- keeps R (match ?x with _ => _ end) => destruct x
         | |- keeps R (bind _ _) => apply keeps_bind; [| intros ?]
         | |- keeps R (try_catch _ _) => apply keeps_try_catch
         | |- keeps R (ret _) => apply keeps_ret
         | |- keeps R (throw _) => apply keeps_throw
         | |- keeps R (lift _) => apply keeps_lift
         | |- keeps R (new_Date _) => apply keeps_new_Date
         | |- keeps R (incrementCounter _ _ _) => apply keeps_incrementCounter
         | |- keeps R (fetchManifest _ _) => apply keeps_fetchManifest
         | |- keeps R (queryTotals _ _ _) => apply keeps_queryTotals
         | |- keeps R (promise_all4 _ _ _ _) => apply keeps_promise_all4
         | |- keeps R (Response_redirect _ _ _) => unfold Response_redirect
         end.
Qed.

Lemma keeps_scheduled o env : keeps R (scheduled o env).
Proof.
  unfold scheduled.
  repeat match goal with
         | |- keeps R (if ?b then _ else _) => destruct b
         | |- keeps R (match ?x with _ => _ end) => destruct x
         | |- keeps R (bind _ _) => apply keeps_bind; [| intros ?]
         | |- keeps R (try_catch _ _) => apply keeps_try_catch
         | |- keeps R (settle _) => apply keeps_settle
         | |- keeps R (ret _) => apply keeps_ret
         | |- keeps R (throw _) => apply keeps_throw
         | |- keeps R (lift _) => apply keeps_lift
         | |- keeps R (new_Date _) => apply keeps_new_Date
         | |- keeps R (js_fetch _ _) => apply keeps_js_fetch
         | |- keeps R (incrementCounter _ _ _) => apply keeps_incrementCounter
         | |- keeps R (queryTotals _ _ _) => apply keeps_queryTotals
         | |- keeps R (promise_all3 _ _ _) => apply keeps_promise_all3
         end.
Qed.
End Keeps.

(** ** Rows touched by an increment *)

Lemma increment_row c day (t : table) :
  sql_update_increment c day (sql_insert_or_ignore day t) !! day =
  Some (bump c (default zero_counters (t !! day))).
Proof.
  unfold sql_update_increment, sql_insert_or_ignore.
  rewrite lookup_alter_eq. destruct (t !! day) eqn:E.
  - rewrite E. reflexivity.
  - rewrite lookup_insert_eq. reflexivity.
Qed.

Lemma insert_or_ignore_other day d (t : table) :
  d <> day -> sql_insert_or_ignore day t !! d = t !! d.
Proof.
  intros NE. unfold sql_insert_or_ignore. destruct (t !! day); [reflexivity |].
  apply lookup_insert_ne. congruence.
Qed.

Lemma insert_or_ignore_row day (t : table) :
  default zero_counters (sql_insert_or_ignore day t !! day) = default zero_counters (t !! day).
Proof.
  unfold sql_insert_or_ignore. destruct (t !! day) eqn:E; [rewrite E; reflexivity |].
  rewrite lookup_insert_eq. reflexivity.
Qed.

Lemma update_increment_other c day d (t : table) :
  d <> day -> sql_update_increment c day t !! d = t !! d.
Proof. intros NE. apply lookup_alter_ne. congruence. Qed.

Lemma bump_other c c' r : c' <> c -> get_column c' (bump c r) = get_column c' r.
Proof. destruct c, c'; intros H; try reflexivity; congruence. Qed.

Lemma bump_same c r : get_column c (bump c r) = get_column c r + 1.
Proof. destruct c; reflexivity. Qed.

Lemma increments_store o n day c w :
  fst (increments o n day c w) = inr tt ->
  store (snd (increments o n day c w)) =
  Nat.iter n (fun t => sql_update_increment c day (sql_insert_or_ignore day t)) (store w).
Proof.
  revert w. induction n as [| n IH]; intros w H; [reflexivity |].
  cbn [increments] in *. unfold bind in *. rewrite incrementCounter_run in *. cbv zeta in *.
  destruct (db_ok o (db_calls w)); [| discriminate].
  destruct (db_ok o (S (db_calls w))); [| discriminate].
  rewrite IH by exact H. cbn [after_db store snd].
  symmetry.
  exact (Nat.iter_succ_r n
           (fun t => sql_update_increment c day (sql_insert_or_ignore day t)) (store w)).
Qed.

Lemma iter_increment_row n c day (t : table) :
  t !! day = None ->
  default zero_counters
    (Nat.iter n (fun t => sql_update_increment c day (sql_insert_or_ignore day t)) t !! day)
  = Nat.iter n (bump c) zero_counters.
Proof.
  intros E. induction n as [| n IH].
  - cbn [Nat.iter nat_rect]. rewrite E. reflexivity.
  - rewrite !Nat.iter_succ, increment_row. cbn [default]. rewrite IH. reflexivity.
Qed.

Lemma iter_bump_column n c c' :
  get_column c' (Nat.iter n (bump c) zero_counters) =
  if decide (c' = c) then Z.of_nat n else 0.
Proof.
  induction n as [| n IH]; [| rewrite Nat.iter_succ].
  - destruct (decide (c' = c)), c'; reflexivity.
  - destruct (decide (c' = c)) as [-> | NE].
    + rewrite bump_same, IH. lia.
    + rewrite bump_other by exact NE. exact IH.
Qed.

Lemma queryTotals_result o a b w totals :
  fst (queryTotals o a b w) = inr totals -> totals = sql_select_totals a b (store w).
Proof.
  rewrite queryTotals_run. destruct (db_ok o (db_calls w)); cbn; congruence.
Qed.

Lemma day_between_keys da db n :
  four_digit_day da -> four_digit_day db -> four_digit_day n ->
  day_between (day_string da) (day_string db) (day_string n) = (da <=? n) && (n <=? db).
Proof.
  intros Ha Hb Hn. unfold day_between. rewrite !day_string_leb by assumption. reflexivity.
Qed.

Lemma demo_table_day_keyed : day_keyed demo_table.
Proof.
  intros day r H. unfold demo_table in H.
  destruct (decide (day = "2025-03-10")) as [-> | N1].
  { exists 20157. split; [unfold four_digit_day; vm_compute; intuition discriminate | reflexivity]. }
  rewrite lookup_insert_ne in H by congruence.
  destruct (decide (day = "2025-03-14")) as [-> | N2].
  { exists 20161. split; [unfold four_digit_day; vm_compute; intuition discriminate | reflexivity]. }
  rewrite lookup_insert_ne in H by congruence.
  rewrite lookup_empty in H. discriminate.
Qed.

Lemma not_authorised request env :
  ADMIN_TOKEN env = "" \/ admin_token_header request <> Some (ADMIN_TOKEN env) ->
  ~ authorised request env.
Proof. intros [E | NE] [H1 H2]; contradiction. Qed.

Lemma increment_calls_app tr1 tr2 :
  increment_calls (tr1 ++ tr2) = increment_calls tr1 ++ increment_calls tr2.
Proof.
  induction tr1 as [| e tr1 IH]; [reflexivity |].
  destruct e; cbn [app increment_calls]; rewrite IH; reflexivity.
Qed.

Lemma webhook_posts_app tr1 tr2 :
  webhook_posts (tr1 ++ tr2) = webhook_posts tr1 ++ webhook_posts tr2.
Proof.
  induction tr1 as [| e tr1 IH]; [reflexivity |].
  destruct e; cbn [app webhook_posts]; rewrite IH; reflexivity.
Qed.

(** One call of [incrementCounter] appends its marker and its statements. *)
Lemma incrementCounter_trace o day c w :
  exists evs,
    trace (snd (incrementCounter o day c w)) = trace w ++ CallIncrement day c :: evs /\
    increment_calls evs = [] /\ webhook_posts evs = [].
Proof.
  rewrite incrementCounter_run. cbv zeta.
  destruct (db_ok o (db_calls w)); [destruct (db_ok o (S (db_calls w))) |];
    cbn [snd after_db trace]; eexists; (split; [reflexivity | split; reflexivity]).
Qed.

Section Counting.

Variable o : oracle.

Lemma incrementCounter_ok day c w :
fst (incrementCounter o day c w) = inr tt <-> increment_ok o w = true.
Proof.
rewrite incrementCounter_run. cbv zeta. unfold increment_ok.
destruct (db_ok o (db_calls w)); [destruct (db_ok o (S (db_calls w))) |];
  cbn [fst andb]; split; intros H; try reflexivity; discriminate.
Qed.

(** The counting prefix: one attempt on the endpoint's counter before the
  manifest request, and one on [errors] after it if the first failed. *)
Lemma counted_effects today c url w :
(exists evs1 evs2,
   trace (counted o today c url w)
   = trace w ++ CallIncrement today c :: evs1 ++ HttpGet url :: evs2 /\
   increment_calls evs1 = [] /\
   increment_calls evs2 = (if increment_ok o w then [] else [(today, Errors)])) /\
(increment_ok o w = true ->
 store (counted o today c url w)
 = sql_update_increment c today (sql_insert_or_ignore today (store w))).
Proof.
unfold counted, increment_ok. rewrite incrementCounter_run. cbv zeta.
destruct (db_ok o (db_calls w)); [destruct (db_ok o (S (db_calls w))) |];
  cbn [fst snd andb].
- split; [| intros _; reflexivity].
  exists [SqlInsert today true; SqlUpdate c today true], [].
  unfold after_manifest, after_db. cbn [trace]. rewrite <- app_assoc.
  repeat split.
- split; [| intros; discriminate].
  match goal with
  | |- context [incrementCounter o today Errors ?w'] =>
      destruct (incrementCounter_trace o today Errors w') as (evs & Et & Ei & _)
  end.
  rewrite Et. unfold after_manifest, after_db. cbn [trace].
  exists [SqlInsert today true; SqlUpdate c today false], (CallIncrement today Errors :: evs).
  rewrite <- !app_assoc. cbn [app increment_calls]. rewrite Ei. repeat split.
- split; [| intros; discriminate].
  match goal with
  | |- context [incrementCounter o today Errors ?w'] =>
      destruct (incrementCounter_trace o today Errors w') as (evs & Et & Ei & _)
  end.
  rewrite Et. unfold after_manifest, after_db. cbn [trace].
  exists [SqlInsert today false], (CallIncrement today Errors :: evs).
  rewrite <- !app_assoc. cbn [app increment_calls]. rewrite Ei. repeat split.
Qed.

End Counting.

Lemma manifest_of_failed r : manifest_fetch_fails r -> manifest_of r = JNull.
Proof.
  destruct r as [| ok body]; [reflexivity |]. cbn.
  intros [-> | ->]; [reflexivity |]. destruct ok; reflexivity.
Qed.

Lemma opt_chain_object v name x :
  opt_chain (Some v) name = Some x -> truthy v = true.
Proof. destruct v; cbn; intros H; try discriminate; reflexivity. Qed.

Lemma redirect_target_truthy manifest x :
  redirect_target manifest = Some x -> x <> JNull -> truthy manifest = true.
Proof.
  unfold redirect_target, download_url, latest_url. intros H Hx.
  destruct (opt_chain (Some manifest) "latest") as [l |] eqn:E.
  - eapply opt_chain_object. exact E.
  - cbn in H. discriminate.
Qed.


Lemma scheduled_completes o env w :
  clock_in_range (clock o (clock_reads w)) -> fst (scheduled o env w) = inr tt.
Proof.
  intros H. rewrite scheduled_run by exact H. cbv zeta.
  repeat match goal with |- context [if ?b then _ else _] => destruct b end; reflexivity.
Qed.

Lemma clock_in_range_demo : clock_in_range demo_now.
Proof. unfold clock_in_range. vm_compute. intuition discriminate. Qed.

Lemma incrementCounter_calls o day c w :
  increment_calls (trace (snd (incrementCounter o day c w)))
  = increment_calls (trace w) ++ [(day, c)] /\
  webhook_posts (trace (snd (incrementCounter o day c w))) = webhook_posts (trace w).
Proof.
  destruct (incrementCounter_trace o day c w) as (evs & -> & Ei & Ew).
  rewrite increment_calls_app, webhook_posts_app. cbn [increment_calls webhook_posts].
  rewrite Ei, Ew, app_nil_r. split; reflexivity.
Qed.

Lemma four_digit_of_clock t : clock_in_range t -> four_digit_day (Day t).
Proof.
  intros H. apply four_digit_year. unfold clock_in_range, YearFromTime in H. lia.
Qed.

(** ** Rows are keyed by day keys *)

Lemma insert_or_ignore_day_keyed n (t : table) :
  four_digit_day n -> day_keyed t -> day_keyed (sql_insert_or_ignore (day_string n) t).
Proof.
  intros Hn Hk day r H. unfold sql_insert_or_ignore in H.
  destruct (t !! day_string n) eqn:E; [exact (Hk day r H) |].
  destruct (decide (day = day_string n)) as [-> | NE]; [exists n; auto |].
  rewrite lookup_insert_ne in H by congruence. exact (Hk day r H).
Qed.

Lemma update_increment_day_keyed c d (t : table) :
  day_keyed t -> day_keyed (sql_update_increment c d t).
Proof.
  intros Hk day r H. unfold sql_update_increment in H.
  destruct (decide (d = day)) as [-> | NE].
  - rewrite lookup_alter_eq in H. destruct (t !! day) as [r0 |] eqn:E; [| discriminate].
    exact (Hk day r0 E).
  - rewrite lookup_alter_ne in H by exact NE. exact (Hk day r H).
Qed.

Lemma incrementCounter_day_keyed o n c w :
  four_digit_day n -> day_keyed (store w) ->
  day_keyed (store (snd (incrementCounter o (day_string n) c w))).
Proof.
  intros Hn Hk. rewrite incrementCounter_run. cbv zeta.
  destruct (db_ok o (db_calls w)); [destruct (db_ok o (S (db_calls w))) |];
    cbn [snd after_db store];
    auto using insert_or_ignore_day_keyed, update_increment_day_keyed.
Qed.

Lemma counted_day_keyed o n c url w :
  four_digit_day n -> day_keyed (store w) ->
  day_keyed (store (counted o (day_string n) c url w)).
Proof.
  intros Hn Hk. unfold counted.
  pose proof (incrementCounter_day_keyed o n c w Hn Hk) as H1.
  destruct (fst (incrementCounter o (day_string n) c w)); [| exact H1].
  apply incrementCounter_day_keyed; [exact Hn | exact H1].
Qed.

Lemma today_of_in_range o w :
  clock_in_range (clock o (clock_reads w)) ->
  today_of o w = day_string (Day (clock o (clock_reads w))) /\
  four_digit_day (Day (clock o (clock_reads w))).
Proof.
  intros H. split; [| apply four_digit_of_clock; exact H].
  unfold today_of. apply day_of_Day. unfold clock_in_range in H. lia.
Qed.

(** The handlers only ever add rows for the current day: a table keyed by
    day keys stays so. *)
Lemma handlers_keep_day_keys o parse_url request env w :
  (forall n, clock_in_range (clock o n)) -> day_keyed (store w) ->
  day_keyed (store (snd (fetch o parse_url request env w))) /\
  day_keyed (store (snd (scheduled o env w))).
Proof.
  intros Hclk Hk.
  destruct (today_of_in_range o w (Hclk _)) as [Et Hd].
  split.
  - destruct (decide (is_get request "/update/check")) as [G1 | G1].
    { rewrite fetch_update_check by exact G1. cbv zeta. cbn [snd]. rewrite Et.
      apply counted_day_keyed; assumption. }
    destruct (decide (is_get request "/download/latest")) as [G2 | G2].
    { rewrite fetch_download_latest by exact G2. cbn [snd]. rewrite Et.
      apply counted_day_keyed; assumption. }
    destruct (decide (is_get request "/report")) as [G3 | G3].
    { destruct (decide (authorised request env)) as [A | A].
      - rewrite fetch_report_authorised by (assumption || apply Hclk). cbv zeta.
        destruct (_ && _); exact Hk.
      - rewrite fetch_report_unauthorised by assumption. exact Hk. }
    rewrite fetch_not_found by assumption. exact Hk.
  - rewrite scheduled_run by apply Hclk. cbv zeta.
    destruct (_ && _); [destruct (webhook_ok _) |]; cbn [snd];
      try exact Hk; apply incrementCounter_day_keyed; assumption.
Qed.

(** Outside [clock_in_range]: Date.UTC reads a year from 0 to 99 as
    1900 + year, so in the year 50 [utcMonthStart] names a month of 1950. *)
Remark utcMonthStart_two_digit_year :
  utcDay (Some (MakeDate (MakeDay 50 2 15) 0)) = inr "0050-03-15"%string /\
  utcMonthStart (Some (MakeDate (MakeDay 50 2 15) 0)) = inr "1950-03-01"%string.
Proof. split; reflexivity. Qed.

Lemma windows_in_handlers now :
  clock_in_range now ->
  (forall o parse_url request env w,
     clock o (S (clock_reads w)) = now ->
     is_get request "/report" -> authorised request env ->
     trace (snd (fetch o parse_url request env w))
     = trace w ++
       [ SqlSelect (today_of o w) (today_of o w) (db_ok o (db_calls w));
         SqlSelect (day_string (Day now - 1)) (day_string (Day now - 1))
                   (db_ok o (S (db_calls w)));
         SqlSelect (day_string (Day now - 6)) (today_of o w)
                   (db_ok o (S (S (db_calls w))));
         SqlSelect (day_string (Day now - (DateFromTime now - 1))) (today_of o w)
                   (db_ok o (S (S (S (db_calls w))))) ]) /\
  (forall o env w,
     clock o (clock_reads w) = now ->
     exists rest,
       trace (snd (scheduled o env w))
       = trace w ++
         [ SqlSelect (day_string (Day now - 1)) (day_string (Day now - 1))
                     (db_ok o (db_calls w));
           SqlSelect (day_string (Day now - 6)) (day_string (Day now))
                     (db_ok o (S (db_calls w)));
           SqlSelect (day_string (Day now - (DateFromTime now - 1))) (day_string (Day now))
                     (db_ok o (S (S (db_calls w)))) ] ++ rest).
Proof.
  intros Hclk.
  assert (Em : Day now - DateOfDay (Day now) + 1 = Day now - (DateFromTime now - 1))
    by (rewrite DateFromTime_Day; lia).
  split.
  - intros o parse_url request env w <- Hget Hauth.
    rewrite fetch_report_authorised by assumption. cbv zeta.
    unfold yesterday_of, sevenDaysAgo_of, monthStart_of. rewrite Em.
    destruct (_ && _); reflexivity.
  - intros o env w <-.
    rewrite scheduled_run by assumption. cbv zeta.
    unfold job_queries, yesterday_of, sevenDaysAgo_of, monthStart_of. rewrite Em.
    destruct (_ && _); [destruct (webhook_ok _) |]; cbn [snd].
    + eexists. unfold after_post, after_db. cbn [trace]. rewrite <- app_assoc. reflexivity.
    + match goal with
      | |- context [incrementCounter o ?d Errors ?w'] =>
          destruct (incrementCounter_trace o d Errors w') as (evs & -> & _)
      end.
      eexists. unfold after_post, after_db. cbn [trace]. rewrite <- !app_assoc. reflexivity.
    + match goal with
      | |- context [incrementCounter o ?d Errors ?w'] =>
          destruct (incrementCounter_trace o d Errors w') as (evs & -> & _)
      end.
      eexists. unfold after_db. cbn [trace]. rewrite <- !app_assoc. reflexivity.
Qed.

(** ** Range totals of a changed table *)

Lemma select_insert a b k r (t : table) :
  t !! k = None ->
  sql_select_totals a b (<[k := r]> t)
  = add_counters (row_share a b (k, r)) (sql_select_totals a b t).
Proof.
  intros E. unfold sql_select_totals.
  rewrite map_fold_insert_L; [| intros; apply select_step_comm | exact E].
  unfold row_share. cbn [fst snd].
  destruct (day_between a b k); [reflexivity |].
  rewrite add_counters_zero_l. reflexivity.
Qed.

Lemma select_delete a b k r (t : table) :
  t !! k = Some r ->
  sql_select_totals a b t
  = add_counters (row_share a b (k, r)) (sql_select_totals a b (delete k t)).
Proof.
  intros E. rewrite <- (insert_delete_id t k r E) at 1.
  apply select_insert. apply lookup_delete_eq.
Qed.

Lemma add_bump c r s : add_counters (bump c r) s = bump c (add_counters r s).
Proof. destruct c; apply counters_eq; cbn; lia. Qed.

(** Adding an all-zero row changes no total. *)
Lemma select_insert_or_ignore a b day (t : table) :
  sql_select_totals a b (sql_insert_or_ignore day t) = sql_select_totals a b t.
Proof.
  unfold sql_insert_or_ignore. destruct (t !! day) eqn:E; [reflexivity |].
  rewrite select_insert by exact E. unfold row_share. cbn [fst snd].
  destruct (day_between a b day); apply add_counters_zero_l.
Qed.

Lemma alter_as_insert c day r (t : table) :
  t !! day = Some r ->
  sql_update_increment c day t = <[day := bump c r]> (delete day t).
Proof.
  intros E. apply map_eq. intros i. unfold sql_update_increment.
  destruct (decide (day = i)) as [-> | NE].
  - rewrite lookup_alter_eq, lookup_insert_eq, E. reflexivity.
  - rewrite lookup_alter_ne, lookup_insert_ne, lookup_delete_ne by exact NE. reflexivity.
Qed.

Lemma select_update_increment a b c day r (t : table) :
  t !! day = Some r ->
  sql_select_totals a b (sql_update_increment c day t)
  = if day_between a b day then bump c (sql_select_totals a b t)
    else sql_select_totals a b t.
Proof.
  intros E. rewrite (alter_as_insert c day r t E).
  rewrite select_insert by apply lookup_delete_eq.
  rewrite (select_delete a b day r t E).
  unfold row_share. cbn [fst snd].
  destruct (day_between a b day); [apply add_bump | reflexivity].
Qed.

Lemma update_increment_absent c day (t : table) :
  t !! day = None -> sql_update_increment c day t = t.
Proof.
  intros E. unfold sql_update_increment. apply alter_id. intros x Hx. congruence.
Qed.

Lemma insert_or_ignore_present day (t : table) :
  exists r, sql_insert_or_ignore day t !! day = Some r.
Proof.
  unfold sql_insert_or_ignore. destruct (t !! day) as [r |] eqn:E.
  - exists r. exact E.
  - exists zero_counters. apply lookup_insert_eq.
Qed.

(** One upsert-increment adds one to the column in every range that holds
    the day, and changes no other total. *)
Lemma select_upsert_increment a b c day (t : table) :
  sql_select_totals a b (upsert_increment c day t)
  = if day_between a b day then bump c (sql_select_totals a b t)
    else sql_select_totals a b t.
Proof.
  unfold upsert_increment.
  destruct (insert_or_ignore_present day t) as [r Hr].
  rewrite (select_update_increment a b c day r _ Hr).
  rewrite select_insert_or_ignore. reflexivity.
Qed.

Lemma totals_le_refl t : totals_le t t.
Proof. intros a b. apply counters_le_refl. Qed.

Lemma totals_le_trans t1 t2 t3 : totals_le t1 t2 -> totals_le t2 t3 -> totals_le t1 t3.
Proof.
  intros H12 H23 a b. specialize (H12 a b). specialize (H23 a b).
  unfold counters_le in *. lia.
Qed.

Lemma totals_le_insert day t : totals_le t (sql_insert_or_ignore day t).
Proof. intros a b. rewrite select_insert_or_ignore. apply counters_le_refl. Qed.

Lemma totals_le_update c day t : totals_le t (sql_update_increment c day t).
Proof.
  intros a b. destruct (t !! day) as [r |] eqn:E.
  - rewrite (select_update_increment a b c day r t E).
    destruct (day_between a b day); [apply bump_le | apply counters_le_refl].
  - rewrite update_increment_absent by exact E. apply counters_le_refl.
Qed.

(** A range total reads only the rows of its range. *)
Lemma select_ext a b (t1 t2 : table) :
  (forall day, day_between a b day = true -> t1 !! day = t2 !! day) ->
  sql_select_totals a b t1 = sql_select_totals a b t2.
Proof.
  revert t2. induction t1 as [| k r m Hk IH] using map_ind; intros t2 H.
  - rewrite (select_no_rows a b ∅) by (intros ? ? E; rewrite lookup_empty in E; discriminate).
    symmetry. apply select_no_rows. intros day r Hr.
    destruct (day_between a b day) eqn:B; [| reflexivity].
    rewrite <- (H day B), lookup_empty in Hr. discriminate.
  - rewrite select_insert by exact Hk. unfold row_share. cbn [fst snd].
    destruct (day_between a b k) eqn:B.
    + assert (E2 : t2 !! k = Some r) by (rewrite <- (H k B); apply lookup_insert_eq).
      rewrite (select_delete a b k r t2 E2). unfold row_share. cbn [fst snd]. rewrite B.
      f_equal. apply IH. intros day Bd.
      destruct (decide (k = day)) as [-> | NE].
      * rewrite lookup_delete_eq. exact Hk.
      * rewrite lookup_delete_ne by exact NE. rewrite <- (H day Bd).
        rewrite lookup_insert_ne by exact NE. reflexivity.
    + rewrite add_counters_zero_l. apply IH. intros day Bd.
      rewrite <- (H day Bd). rewrite lookup_insert_ne; [reflexivity |]. congruence.
Qed.

(** ** Counters are never negative *)

Lemma nonneg_insert day t : nonneg_table t -> nonneg_table (sql_insert_or_ignore day t).
Proof.
  intros H d r Hr. unfold sql_insert_or_ignore in Hr.
  destruct (t !! day) eqn:E; [exact (H d r Hr) |].
  destruct (decide (day = d)) as [-> | NE].
  - rewrite lookup_insert_eq in Hr. injection Hr as <-. unfold nonneg_counters. cbn. lia.
  - rewrite lookup_insert_ne in Hr by exact NE. exact (H d r Hr).
Qed.

Lemma nonneg_bump c r : nonneg_counters r -> nonneg_counters (bump c r).
Proof. unfold nonneg_counters. destruct c; cbn; lia. Qed.

Lemma nonneg_update c day t : nonneg_table t -> nonneg_table (sql_update_increment c day t).
Proof.
  intros H d r Hr. unfold sql_update_increment in Hr.
  destruct (decide (day = d)) as [-> | NE].
  - rewrite lookup_alter_eq in Hr. destruct (t !! d) as [r0 |] eqn:E; [| discriminate].
    cbn in Hr. injection Hr as <-. apply nonneg_bump. exact (H d r0 E).
  - rewrite lookup_alter_ne in Hr by exact NE. exact (H d r Hr).
Qed.

Lemma nonneg_add r s : nonneg_counters r -> nonneg_counters s -> nonneg_counters (add_counters r s).
Proof. unfold nonneg_counters. cbn. lia. Qed.

Lemma nonneg_sum (l : list counters) :
  (forall r, r ∈ l -> nonneg_counters r) -> nonneg_counters (sum_counters l).
Proof.
  induction l as [| r l IH]; intros H.
  - unfold nonneg_counters. cbn. lia.
  - rewrite sum_counters_cons. apply nonneg_add; [apply H; left |].
    apply IH. intros r' Hr'. apply H. right. exact Hr'.
Qed.

Lemma nonneg_select a b (t : table) :
  nonneg_table t -> nonneg_counters (sql_select_totals a b t).
Proof.
  intros H. rewrite select_as_sum. apply nonneg_sum.
  intros r [[k x] [-> Hk]]%list_elem_of_fmap.
  apply elem_of_map_to_list in Hk. unfold row_share. cbn [fst snd].
  destruct (day_between a b k); [exact (H k x Hk) |].
  unfold nonneg_counters. cbn. lia.
Qed.

Lemma sum_counters_le {A} (f g : A -> counters) (l : list A) :
  (forall x, x ∈ l -> counters_le (f x) (g x)) ->
  counters_le (sum_counters (f <$> l)) (sum_counters (g <$> l)).
Proof.
  induction l as [| x l IH]; intros H; [apply counters_le_refl |].
  rewrite !fmap_cons, !sum_counters_cons.
  pose proof (H x ltac:(left)) as Hx.
  pose proof (IH ltac:(intros y Hy; apply H; right; exact Hy)) as Hl.
  unfold counters_le in *. cbn [add_counters update_checks downloads errors]. lia.
Qed.

Lemma nonneg_demo_table : nonneg_table demo_table.
Proof.
  intros day r H. unfold demo_table in H.
  destruct (decide (day = "2025-03-10")) as [-> | N1].
  { rewrite lookup_insert_eq in H. injection H as <-. unfold nonneg_counters. cbn. lia. }
  rewrite lookup_insert_ne in H by congruence.
  destruct (decide (day = "2025-03-14")) as [-> | N2].
  { rewrite lookup_insert_eq in H. injection H as <-. unfold nonneg_counters. cbn. lia. }
  rewrite lookup_insert_ne in H by congruence.
  rewrite lookup_empty in H. discriminate.
Qed.

Lemma bump_comm c1 c2 r : bump c1 (bump c2 r) = bump c2 (bump c1 r).
Proof. destruct c1, c2; reflexivity. Qed.

Lemma upsert_increment_lookup c day d (t : table) :
  upsert_increment c day t !! d
  = if decide (d = day) then Some (bump c (default zero_counters (t !! day))) else t !! d.
Proof.
  unfold upsert_increment. destruct (decide (d = day)) as [-> | NE].
  - apply increment_row.
  - rewrite update_increment_other, insert_or_ignore_other by exact NE. reflexivity.
Qed.

Lemma upsert_increment_comm c1 d1 c2 d2 (t : table) :
  upsert_increment c1 d1 (upsert_increment c2 d2 t)
  = upsert_increment c2 d2 (upsert_increment c1 d1 t).
Proof.
  apply map_eq. intros i. rewrite !upsert_increment_lookup.
  destruct (decide (i = d1)) as [E1 | N1], (decide (i = d2)) as [E2 | N2];
    subst; rewrite ?upsert_increment_lookup;
    repeat match goal with
           | |- context [decide (?x = ?x)] => destruct (decide (x = x)); [| congruence]
           | H : ?x <> ?y |- context [decide (?x = ?y)] => destruct (decide (x = y)); [congruence |]
           | H : ?y <> ?x |- context [decide (?x = ?y)] => destruct (decide (x = y)); [congruence |]
           end; cbn [default id]; try reflexivity.
  rewrite bump_comm. reflexivity.
Qed.

Lemma incrementCounter_success o day c w :
  fst (incrementCounter o day c w) = inr tt ->
  store (snd (incrementCounter o day c w)) = upsert_increment c day (store w).
Proof.
  rewrite incrementCounter_run. cbv zeta.
  destruct (db_ok o (db_calls w)); [destruct (db_ok o (S (db_calls w))) |];
    cbn [fst snd after_db store]; intros H; try discriminate. reflexivity.
Qed.

Lemma incrementCounter_failure o day c w e :
  fst (incrementCounter o day c w) = inl e ->
  e = StorageError /\
  (store (snd (incrementCounter o day c w)) = store w \/
   store (snd (incrementCounter o day c w)) = sql_insert_or_ignore day (store w)).
Proof.
  rewrite incrementCounter_run. cbv zeta.
  destruct (db_ok o (db_calls w)); [destruct (db_ok o (S (db_calls w))) |];
    cbn [fst snd after_db store]; intros H; try discriminate;
    (split; [congruence | auto]).
Qed.

(** ** Effects of the counting prefix *)

Lemma insert_or_ignore_idem day (t : table) :
  sql_insert_or_ignore day (sql_insert_or_ignore day t) = sql_insert_or_ignore day t.
Proof.
  unfold sql_insert_or_ignore at 1.
  destruct (insert_or_ignore_present day t) as [r ->]. reflexivity.
Qed.

Lemma counted_success o today c url w :
  increment_ok o w = true ->
  counted o today c url w
  = after_manifest url
      (after_db (upsert_increment c today (store w))
                [CallIncrement today c; SqlInsert today true; SqlUpdate c today true] 2 w).
Proof.
  unfold counted, increment_ok. rewrite incrementCounter_run. cbv zeta.
  destruct (db_ok o (db_calls w)); [destruct (db_ok o (S (db_calls w))) |];
    cbn [fst snd andb]; intros H; try discriminate. reflexivity.
Qed.

Lemma counted_retry o today c url w :
  increment_ok o w = false -> errors_increment_ok o w = true ->
  store (counted o today c url w) = upsert_increment Errors today (store w) /\
  increment_calls (trace (counted o today c url w))
  = increment_calls (trace w) ++ [(today, c); (today, Errors)].
Proof.
  unfold counted, increment_ok, errors_increment_ok. rewrite incrementCounter_run. cbv zeta.
  destruct (db_ok o (db_calls w)) eqn:E1; [destruct (db_ok o (S (db_calls w))) eqn:E2 |];
    cbn [fst snd andb]; intros H K; try discriminate;
    rewrite incrementCounter_run; cbv zeta;
    unfold after_manifest, after_db; cbn [db_calls store trace Nat.add];
    apply andb_true_iff in K; destruct K as [K1 K2];
    cbn [Nat.add] in K1, K2; rewrite K1, K2; cbn [snd store trace];
    (split;
     [unfold upsert_increment; rewrite ?insert_or_ignore_idem; reflexivity
     | rewrite !increment_calls_app; cbn [increment_calls];
       rewrite ?app_nil_r, <- ?app_assoc; reflexivity]).
Qed.

Lemma counted_lost o today c url w :
  increment_ok o w = false -> errors_increment_ok o w = false ->
  (forall a b, sql_select_totals a b (store (counted o today c url w))
               = sql_select_totals a b (store w)) /\
  increment_calls (trace (counted o today c url w))
  = increment_calls (trace w) ++ [(today, c); (today, Errors)].
Proof.
  unfold counted, increment_ok, errors_increment_ok. rewrite incrementCounter_run. cbv zeta.
  destruct (db_ok o (db_calls w)) eqn:E1; [destruct (db_ok o (S (db_calls w))) eqn:E2 |];
    cbn [fst snd andb]; intros H K; try discriminate;
    rewrite incrementCounter_run; cbv zeta;
    unfold after_manifest, after_db; cbn [db_calls store trace Nat.add];
    cbn [Nat.add] in K;
    match type of K with
    | ?x && ?y = false => destruct x; [destruct y; [discriminate |] |]
    end; cbn [snd store trace];
    (split;
     [intros a b; rewrite ?select_insert_or_ignore; reflexivity
     | rewrite !increment_calls_app; cbn [increment_calls];
       rewrite ?app_nil_r, <- ?app_assoc; reflexivity]).
Qed.

Lemma incrementCounter_other_rows o day c w d :
  d <> day -> store (snd (incrementCounter o day c w)) !! d = store w !! d.
Proof.
  intros NE. rewrite incrementCounter_run. cbv zeta.
  destruct (db_ok o (db_calls w)); [destruct (db_ok o (S (db_calls w))) |];
    cbn [snd after_db store];
    rewrite ?update_increment_other, ?insert_or_ignore_other by exact NE; reflexivity.
Qed.

Lemma incrementCounter_other_columns o day c w d c' :
  c' <> c ->
  get_column c' (default zero_counters (store (snd (incrementCounter o day c w)) !! d))
  = get_column c' (default zero_counters (store w !! d)).
Proof.
  intros NE. destruct (decide (d = day)) as [-> | Nd];
    [| rewrite incrementCounter_other_rows by exact Nd; reflexivity].
  rewrite incrementCounter_run. cbv zeta.
  destruct (db_ok o (db_calls w)); [destruct (db_ok o (S (db_calls w))) |];
    cbn [snd after_db store].
  - rewrite increment_row. cbn [default]. apply bump_other. exact NE.
  - rewrite insert_or_ignore_row. reflexivity.
  - reflexivity.
Qed.

Lemma incrementCounter_counters o day c w :
  net_calls (snd (incrementCounter o day c w)) = net_calls w /\
  clock_reads (snd (incrementCounter o day c w)) = clock_reads w /\
  (db_calls w <= db_calls (snd (incrementCounter o day c w)) <= 2 + db_calls w)%nat.
Proof.
  rewrite incrementCounter_run. cbv zeta.
  destruct (db_ok o (db_calls w)); [destruct (db_ok o (S (db_calls w))) |];
    cbn [snd after_db net_calls clock_reads db_calls]; repeat split; lia.
Qed.

Lemma counted_counters o today c url w :
  net_calls (counted o today c url w) = S (net_calls w) /\
  clock_reads (counted o today c url w) = clock_reads w /\
  (db_calls w <= db_calls (counted o today c url w) <= 4 + db_calls w)%nat.
Proof.
  unfold counted.
  destruct (incrementCounter_counters o today c w) as (N1 & C1 & D1).
  destruct (fst (incrementCounter o today c w)).
  - match goal with
    | |- context [incrementCounter o today Errors ?w'] =>
        destruct (incrementCounter_counters o today Errors w') as (N2 & C2 & D2)
    end.
    unfold after_manifest in *. cbn [net_calls clock_reads db_calls] in *.
    repeat split; lia.
  - unfold after_manifest. cbn [net_calls clock_reads db_calls].
    repeat split; lia.
Qed.

Lemma counted_other_rows o today c url w d :
  d <> today -> store (counted o today c url w) !! d = store w !! d.
Proof.
  intros NE. unfold counted.
  destruct (fst (incrementCounter o today c w)).
  - rewrite incrementCounter_other_rows by exact NE.
    unfold after_manifest. cbn [store]. apply incrementCounter_other_rows. exact NE.
  - unfold after_manifest. cbn [store]. apply incrementCounter_other_rows. exact NE.
Qed.

Lemma counted_other_columns o today c url w d c' :
  c' <> c -> c' <> Errors ->
  get_column c' (default zero_counters (store (counted o today c url w) !! d))
  = get_column c' (default zero_counters (store w !! d)).
Proof.
  intros NE NErr. unfold counted.
  destruct (fst (incrementCounter o today c w)).
  - rewrite incrementCounter_other_columns by exact NErr.
    unfold after_manifest. cbn [store]. apply incrementCounter_other_columns. exact NE.
  - unfold after_manifest. cbn [store]. apply incrementCounter_other_columns. exact NE.
Qed.

Lemma fetch_counting o parse_url request env w c :
  counts request c ->
  snd (fetch o parse_url request env w)
  = counted o (today_of o w) c (MANIFEST_URL env) (tick_clock w).
Proof.
  intros [[G ->] | [G ->]].
  - rewrite fetch_update_check by exact G. reflexivity.
  - rewrite fetch_download_latest by exact G. reflexivity.
Qed.

Lemma not_counting request :
  method request <> "GET" \/
  pathname request <> "/update/check" /\ pathname request <> "/download/latest" /\
  pathname request <> "/report" ->
  ~ is_get request "/update/check" /\ ~ is_get request "/download/latest" /\
  ~ is_get request "/report".
Proof. unfold is_get. intros [H | (H1 & H2 & H3)]; repeat split; intros [A B]; congruence. Qed.

Lemma counted_webhook_posts o today c url w :
  webhook_posts (trace (counted o today c url w)) = webhook_posts (trace w).
Proof.
  unfold counted.
  destruct (incrementCounter_calls o today c w) as [_ W1].
  destruct (fst (incrementCounter o today c w)).
  - match goal with
    | |- context [incrementCounter o today Errors ?w'] =>
        destruct (incrementCounter_calls o today Errors w') as [_ W2]
    end.
    rewrite W2. unfold after_manifest. cbn [trace].
    rewrite webhook_posts_app. cbn [webhook_posts]. rewrite app_nil_r. exact W1.
  - unfold after_manifest. cbn [trace].
    rewrite webhook_posts_app. cbn [webhook_posts]. rewrite app_nil_r. exact W1.
Qed.

Lemma get_column_update_checks r : get_column UpdateChecks r = update_checks r.
Proof. reflexivity. Qed.

Lemma get_column_downloads r : get_column Downloads r = downloads r.
Proof. reflexivity. Qed.

(** The world after a request, by endpoint. *)
Lemma fetch_world o parse_url request env w :
  (forall n, clock_in_range (clock o n)) ->
  (exists c, counts request c /\
     snd (fetch o parse_url request env w)
     = counted o (today_of o w) c (MANIFEST_URL env) (tick_clock w)) \/
  (exists evs, increment_calls evs = [] /\ webhook_posts evs = [] /\
     snd (fetch o parse_url request env w)
     = after_db (store w) evs 4 (tick_clock (tick_clock w))) \/
  snd (fetch o parse_url request env w) = tick_clock w.
Proof.
  intros Hclk.
  destruct (decide (is_get request "/update/check")) as [G1 | G1].
  { left. exists UpdateChecks.
    assert (Hc : counts request UpdateChecks) by (left; split; [exact G1 | reflexivity]).
    split; [exact Hc | apply fetch_counting; exact Hc]. }
  destruct (decide (is_get request "/download/latest")) as [G2 | G2].
  { left. exists Downloads.
    assert (Hc : counts request Downloads) by (right; split; [exact G2 | reflexivity]).
    split; [exact Hc | apply fetch_counting; exact Hc]. }
  right.
  destruct (decide (is_get request "/report")) as [G3 | G3].
  - destruct (decide (authorised request env)) as [A | A].
    + left. rewrite fetch_report_authorised by (assumption || apply Hclk). cbv zeta.
      eexists. split; [| split; [| destruct (_ && _); reflexivity]]; reflexivity.
    + right. rewrite fetch_report_unauthorised by assumption. reflexivity.
  - right. rewrite fetch_not_found by assumption. reflexivity.
Qed.

(** ** Ranges of day keys *)

Lemma day_string_length n : String.length (day_string n) = 10%nat.
Proof. reflexivity. Qed.

Lemma day_between_incl a b a' b' k :
  four_digit_day a -> four_digit_day b -> four_digit_day a' -> four_digit_day b' ->
  a' <= a -> b <= b' ->
  day_between (day_string a) (day_string b) k = true ->
  day_between (day_string a') (day_string b') k = true.
Proof.
  intros Ha Hb Ha' Hb' La Lb. unfold day_between. rewrite !andb_true_iff.
  intros [H1 H2]. split.
  - apply (string_leb_trans _ (day_string a)); [| exact H1].
    rewrite day_string_leb by assumption. apply Z.leb_le. exact La.
  - apply (string_leb_trans _ (day_string b)); [exact H2 |].
    rewrite day_string_leb by assumption. apply Z.leb_le. exact Lb.
Qed.

Lemma select_le a b a' b' (t : table) :
  nonneg_table t ->
  (forall k, day_between a b k = true -> day_between a' b' k = true) ->
  counters_le (sql_select_totals a b t) (sql_select_totals a' b' t).
Proof.
  intros Hn Hin. rewrite !select_as_sum. apply sum_counters_le.
  intros [k r] Hk%elem_of_map_to_list. unfold row_share. cbn [fst snd].
  destruct (day_between a b k) eqn:B.
  - rewrite (Hin k B). apply counters_le_refl.
  - destruct (day_between a' b' k); [| apply counters_le_refl].
    pose proof (Hn k r Hk) as N. unfold nonneg_counters in N. unfold counters_le. cbn. lia.
Qed.

Lemma select_add_le a1 b1 a2 b2 a b (t : table) :
  nonneg_table t ->
  (forall k, day_between a1 b1 k = true -> day_between a b k = true) ->
  (forall k, day_between a2 b2 k = true -> day_between a b k = true) ->
  (forall k, day_between a1 b1 k = true -> day_between a2 b2 k = true -> False) ->
  counters_le (add_counters (sql_select_totals a1 b1 t) (sql_select_totals a2 b2 t))
              (sql_select_totals a b t).
Proof.
  intros Hn H1 H2 Hd. rewrite !select_as_sum.
  rewrite (sum_counters_pointwise (row_share a1 b1) (row_share a2 b2)
             (fun x => add_counters (row_share a1 b1 x) (row_share a2 b2 x)))
    by reflexivity.
  apply sum_counters_le.
  intros [k r] Hk%elem_of_map_to_list. unfold row_share. cbn [fst snd].
  pose proof (Hn k r Hk) as N. unfold nonneg_counters in N.
  destruct (day_between a1 b1 k) eqn:B1, (day_between a2 b2 k) eqn:B2.
  - exfalso. exact (Hd k B1 B2).
  - rewrite (H1 k B1), add_counters_zero_r. apply counters_le_refl.
  - rewrite (H2 k B2), add_counters_zero_l. apply counters_le_refl.
  - rewrite add_counters_zero_l.
    destruct (day_between a b k); unfold counters_le; cbn; lia.
Qed.

(** The days from the first of the month of [D] up to [D] are the days
    with the year and month of [D] and a date not after that of [D]. *)
Lemma month_to_date_days D n :
  D - DateOfDay D + 1 <= n <= D <->
  YearFromDay n = YearFromDay D /\ MonthOfDay n = MonthOfDay D /\ DateOfDay n <= DateOfDay D.
Proof.
  destruct (first_of_month D) as (Fy & Fm & Fd). cbv zeta in Fy, Fm, Fd.
  split.
  - intros [L U].
    assert (Hu : n = D \/ n < D) by lia.
    assert (Hl : n = D - DateOfDay D + 1 \/ D - DateOfDay D + 1 < n) by lia.
    pose proof (DateOfDay_range n) as Rn.
    destruct Hu as [-> | Hu]; [repeat split; lia |].
    pose proof (civil_lt n D Hu) as C2.
    destruct Hl as [-> | Hl].
    + rewrite Fy, Fm, Fd. pose proof (DateOfDay_range D). repeat split; lia.
    + pose proof (civil_lt _ n Hl) as C1. rewrite Fy, Fm, Fd in C1. lia.
  - intros (Ey & Em & Ed).
    assert (E : DateOfDay n - DateOfDay D = n - D).
    { unfold DateOfDay. rewrite Ey, Em. lia. }
    pose proof (DateOfDay_range n). lia.
Qed.

Lemma day_between_days a b n :
  four_digit_day a -> four_digit_day b -> four_digit_day n ->
  day_between (day_string a) (day_string b) (day_string n) = true <-> a <= n <= b.
Proof.
  intros Ha Hb Hn. rewrite day_between_keys by assumption.
  rewrite andb_true_iff, !Z.leb_le. reflexivity.
Qed.

Lemma window_days_four_digit t :
  clock_in_range t ->
  four_digit_day (Day t) /\ four_digit_day (Day t - 1) /\ four_digit_day (Day t - 6) /\
  four_digit_day (Day t - DateOfDay (Day t) + 1).
Proof.
  intros Ht. pose proof (clock_in_range_day t Ht) as D.
  pose proof (DateOfDay_range (Day t)) as R.
  unfold four_digit_day. rewrite DayFromYear_0, DayFromYear_10000.
  rewrite DayFromYear_100, DayFromYear_10000 in D. lia.
Qed.

Lemma clock_in_range_same_day t t' : Day t' = Day t -> clock_in_range t -> clock_in_range t'.
Proof. unfold clock_in_range, YearFromTime. intros ->. auto. Qed.

Lemma get_column_bump c c' r :
  get_column c' (bump c r) = get_column c' r + (if decide (c' = c) then 1 else 0).
Proof.
  destruct (decide (c' = c)) as [-> | NE].
  - apply bump_same.
  - rewrite bump_other by exact NE. lia.
Qed.

Lemma iter_upsert_select n c day a b (t : table) c' :
  get_column c' (sql_select_totals a b (Nat.iter n (upsert_increment c day) t))
  = get_column c' (sql_select_totals a b t)
    + (if day_between a b day then if decide (c' = c) then Z.of_nat n else 0 else 0).
Proof.
  induction n as [| n IH].
  - cbn [Nat.iter nat_rect]. destruct (day_between a b day), (decide (c' = c)); lia.
  - rewrite Nat.iter_succ, select_upsert_increment.
    destruct (day_between a b day); [| exact IH].
    rewrite get_column_bump, IH. destruct (decide (c' = c)); lia.
Qed.

Lemma iter_upsert_row n c day (t : table) c' :
  get_column c' (default zero_counters (Nat.iter n (upsert_increment c day) t !! day))
  = get_column c' (default zero_counters (t !! day))
    + (if decide (c' = c) then Z.of_nat n else 0).
Proof.
  induction n as [| n IH].
  - cbn [Nat.iter nat_rect]. destruct (decide (c' = c)); lia.
  - rewrite Nat.iter_succ. unfold upsert_increment at 1. rewrite increment_row.
    cbn [default id]. rewrite get_column_bump, IH. destruct (decide (c' = c)); lia.
Qed.

Lemma manifest_of_truthy r :
  truthy (manifest_of r) = true -> r = FetchResolves true (Some (manifest_of r)).
Proof. destruct r as [| [] [v |]]; cbn; intros H; try discriminate; reflexivity. Qed.

(** ** Calls that D1 accepts *)

(** [n] increments succeed when D1 accepts their [2 n] statements. *)
Lemma increments_succeed o n day c w :
  (forall k, (k < 2 * n)%nat -> db_ok o (k + db_calls w) = true) ->
  fst (increments o n day c w) = inr tt.
Proof.
  revert w. induction n as [| n IH]; intros w H; [reflexivity |].
  cbn [increments]. unfold bind. rewrite incrementCounter_run. cbv zeta.
  pose proof (H 0%nat ltac:(lia)) as H0. pose proof (H 1%nat ltac:(lia)) as H1.
  cbn [Nat.add] in H0, H1. rewrite H0, H1.
  apply IH. intros k Hk. cbn [after_db db_calls].
  replace (k + (2 + db_calls w))%nat with ((k + 2) + db_calls w)%nat by lia.
  apply H. lia.
Qed.

Lemma queryTotals_returns o a b w :
  db_ok o (db_calls w) = true ->
  fst (queryTotals o a b w) = inr (sql_select_totals a b (store w)).
Proof. intros H. rewrite queryTotals_run, H. reflexivity. Qed.

(** The run of the scheduled job after a failure: the statements of the
    one [incrementCounter] call follow the queries (and the post). *)
Lemma scheduled_failure_trace o env w :
  clock_in_range (clock o (clock_reads w)) ->
  job_queries_ok o w = false \/ webhook_ok (net o (net_calls w)) = false ->
  trace (snd (scheduled o env w))
  = trace w ++ job_queries o (clock o (clock_reads w)) w
    ++ (if job_queries_ok o w
        then [HttpPost (DISCORD_WEBHOOK_URL env)
                       (report_message (clock o (clock_reads w)) (store w))]
        else [])
    ++ CallIncrement (day_string (Day (clock o (clock_reads w)))) Errors
       :: SqlInsert (day_string (Day (clock o (clock_reads w)))) (db_ok o (3 + db_calls w))
       :: (if db_ok o (3 + db_calls w)
           then [SqlUpdate Errors (day_string (Day (clock o (clock_reads w))))
                           (db_ok o (4 + db_calls w))]
           else []).
Proof.
  intros Hclk Hfail. rewrite scheduled_run by exact Hclk. cbv zeta.
  fold (job_queries_ok o w).
  destruct (job_queries_ok o w).
  - destruct Hfail as [Hf | Hf]; [discriminate |]. rewrite Hf. cbn [snd].
    rewrite incrementCounter_run. cbv zeta.
    unfold after_post, after_db. cbn [db_calls trace store tick_clock Nat.add].
    destruct (db_ok o (S (S (S (db_calls w))))); [destruct (db_ok o (S (S (S (S (db_calls w)))))) |];
      cbn [snd trace]; rewrite <- !app_assoc; reflexivity.
  - cbn [snd]. rewrite incrementCounter_run. cbv zeta.
    unfold after_db. cbn [db_calls trace store tick_clock Nat.add].
    destruct (db_ok o (S (S (S (db_calls w))))); [destruct (db_ok o (S (S (S (S (db_calls w)))))) |];
      cbn [snd trace app]; rewrite <- !app_assoc; reflexivity.
Qed.

Lemma scheduled_failure_store o env w :
  clock_in_range (clock o (clock_reads w)) ->
  job_queries_ok o w = false \/ webhook_ok (net o (net_calls w)) = false ->
  db_ok o (3 + db_calls w) = true -> db_ok o (4 + db_calls w) = true ->
  store (snd (scheduled o env w))
  = upsert_increment Errors (day_string (Day (clock o (clock_reads w)))) (store w).
Proof.
  intros Hclk Hfail D3 D4. rewrite scheduled_run by exact Hclk. cbv zeta.
  fold (job_queries_ok o w).
  assert (E : forall w1, db_calls w1 = (3 + db_calls w)%nat -> store w1 = store w ->
            store (snd (incrementCounter o (day_string (Day (clock o (clock_reads w))))
                          Errors w1))
            = upsert_increment Errors (day_string (Day (clock o (clock_reads w)))) (store w)).
  { intros w1 Hd Hs. rewrite incrementCounter_run. cbv zeta.
    rewrite Hd. cbn [Nat.add] in D3, D4 |- *. rewrite D3, D4. cbn [snd after_db store].
    rewrite Hs. reflexivity. }
  destruct (job_queries_ok o w).
  - destruct Hfail as [Hf | Hf]; [discriminate |]. rewrite Hf. cbn [snd].
    apply E; reflexivity.
  - cbn [snd]. apply E; reflexivity.
Qed.

(** When the increment that follows a failure is refused too, no range
    total changes. *)
Lemma scheduled_failure_lost o env w :
  clock_in_range (clock o (clock_reads w)) ->
  job_queries_ok o w = false \/ webhook_ok (net o (net_calls w)) = false ->
  db_ok o (3 + db_calls w) = false \/ db_ok o (4 + db_calls w) = false ->
  forall a b,
    sql_select_totals a b (store (snd (scheduled o env w)))
    = sql_select_totals a b (store w).
Proof.
  intros Hclk Hfail Hdb a b. rewrite scheduled_run by exact Hclk. cbv zeta.
  fold (job_queries_ok o w).
  assert (E : forall w1, db_calls w1 = (3 + db_calls w)%nat -> store w1 = store w ->
            sql_select_totals a b
              (store (snd (incrementCounter o (day_string (Day (clock o (clock_reads w))))
                             Errors w1)))
            = sql_select_totals a b (store w)).
  { intros w1 Hd Hs. rewrite incrementCounter_run. cbv zeta.
    rewrite Hd. cbn [Nat.add] in Hdb |- *.
    destruct (db_ok o (S (S (S (db_calls w))))); [destruct (db_ok o (S (S (S (S (db_calls w)))))) |];
      cbn [snd after_db store]; rewrite ?select_insert_or_ignore, ?Hs; try reflexivity.
    destruct Hdb; discriminate. }
  destruct (job_queries_ok o w).
  - destruct Hfail as [Hf | Hf]; [discriminate |]. rewrite Hf. cbn [snd].
    apply E; reflexivity.
  - cbn [snd]. apply E; reflexivity.
Qed.

(** * The claims *)

(** C1.  Starting from a table with no row for [day], after [N] calls of
    [incrementCounter] for [day] and column [c] that all succeeded, the
    range sum over [day .. day] gives [N] for [c]: the SELECT has that
    value, [queryTotals] returns it whenever D1 runs the statement, and it
    returns nothing else.  The [N] calls do succeed when D1 accepts their
    statements.  Moreover no operation of the system lowers a counter:
    after [fetch], [scheduled] or [incrementCounter], however they end,
    every row that was there is still there with each counter at least as
    high. *)
Theorem increments_accumulate (o : oracle) (N : nat) (day : string) (c : column) (w : world) :
  store w !! day = None ->
  fst (increments o N day c w) = inr tt ->
  get_column c (sql_select_totals day day (store (snd (increments o N day c w)))) = Z.of_nat N /\
  (forall totals,
     fst (queryTotals o day day (snd (increments o N day c w))) = inr totals ->
     get_column c totals = Z.of_nat N) /\
  (forall o',
     db_ok o' (db_calls (snd (increments o N day c w))) = true ->
     exists totals,
       fst (queryTotals o' day day (snd (increments o N day c w))) = inr totals /\
       get_column c totals = Z.of_nat N) /\
  (forall o' w',
     (forall k, (k < 2 * N)%nat -> db_ok o' (k + db_calls w') = true) ->
     fst (increments o' N day c w') = inr tt) /\
  (forall o' parse_url request env w0,
     table_le (store w0) (store (snd (fetch o' parse_url request env w0)))) /\
  (forall o' env w0, table_le (store w0) (store (snd (scheduled o' env w0)))) /\
  (forall o' day' c' w0,
     table_le (store w0) (store (snd (incrementCounter o' day' c' w0)))).
Proof.
  intros Hnone Hok.
  assert (Hsum : get_column c (sql_select_totals day day (store (snd (increments o N day c w))))
                 = Z.of_nat N).
  { rewrite select_single_day, increments_store by exact Hok.
    rewrite iter_increment_row by exact Hnone. rewrite iter_bump_column.
    destruct (decide (c = c)); [reflexivity | congruence]. }
  split; [exact Hsum |]. split.
  { intros totals Ht. apply queryTotals_result in Ht. subst totals. exact Hsum. }
  split.
  { intros o' Hdb. eexists. split; [apply queryTotals_returns; exact Hdb | exact Hsum]. }
  split; [intros o' w'; apply increments_succeed |].
  split; [| split].
  - intros. apply (keeps_fetch table_le table_le_refl table_le_trans
                     insert_or_ignore_le update_increment_le).
  - intros. apply (keeps_scheduled table_le table_le_refl table_le_trans
                     insert_or_ignore_le update_increment_le).
  - intros. apply (keeps_incrementCounter table_le table_le_refl table_le_trans
                     insert_or_ignore_le update_increment_le).
Qed.

(** Three successful increments of [downloads] on the empty table, and the
    query that follows them. *)
Lemma increments_accumulate_witness :
  get_column Downloads
    (sql_select_totals "2025-03-15" "2025-03-15"
       (store (snd (increments healthy 3 "2025-03-15" Downloads empty_world)))) = 3 /\
  exists totals,
    fst (queryTotals healthy "2025-03-15" "2025-03-15"
           (snd (increments healthy 3 "2025-03-15" Downloads empty_world))) = inr totals /\
    get_column Downloads totals = 3.
Proof.
  destruct (increments_accumulate healthy 3 "2025-03-15" Downloads empty_world)
    as (H1 & _ & H3 & _).
  - reflexivity.
  - vm_compute. reflexivity.
  - split; [exact H1 |]. apply (H3 healthy). reflexivity.
Defined.

(** C2, as amended.  For every GET /update/check whose manifest fetch
    fails, the handler answers 503 with body
    {"ok":false,"error":"manifest_unavailable"}; the increment of
    [update_checks] for the current UTC day is attempted exactly once, and
    before the manifest request (the only other attempt, made when that one
    failed, is on [errors]); and when the attempt succeeds, the row of the
    day is the old one with [update_checks] one higher, so the range sum of
    the day grows by exactly one in that column. *)
Theorem update_check_manifest_unavailable (o : oracle) (parse_url : string -> option string)
    (request : Request) (env : Env) (w : world) :
  is_get request "/update/check" ->
  manifest_fetch_fails (net o (net_calls w)) ->
  fst (fetch o parse_url request env w) = inr response_503 /\
  (exists evs1 evs2,
     trace (snd (fetch o parse_url request env w))
     = trace w ++ CallIncrement (today_of o w) UpdateChecks :: evs1
               ++ HttpGet (MANIFEST_URL env) :: evs2 /\
     increment_calls evs1 = [] /\
     increment_calls evs2 = (if increment_ok o w then [] else [(today_of o w, Errors)])) /\
  (increment_ok o w = true ->
   store (snd (fetch o parse_url request env w))
   = sql_update_increment UpdateChecks (today_of o w)
       (sql_insert_or_ignore (today_of o w) (store w)) /\
   sql_select_totals (today_of o w) (today_of o w) (store (snd (fetch o parse_url request env w)))
   = bump UpdateChecks (sql_select_totals (today_of o w) (today_of o w) (store w))).
Proof.
  intros Hget Hfail. rewrite fetch_update_check by exact Hget. cbv zeta.
  rewrite (manifest_of_failed _ Hfail). cbn [truthy fst snd].
  destruct (counted_effects o (today_of o w) UpdateChecks (MANIFEST_URL env) (tick_clock w))
    as [Htr Hst].
  split; [reflexivity |]. split; [exact Htr |].
  intros Hok. specialize (Hst Hok). cbn [tick_clock store] in Hst.
  split; [exact Hst |].
  rewrite Hst, !select_single_day, increment_row. reflexivity.
Qed.

(** A request while the manifest host is unreachable. *)
Lemma update_check_manifest_unavailable_witness :
  fst (fetch manifest_down https_only update_check_request demo_env empty_world)
  = inr response_503.
Proof.
  destruct (update_check_manifest_unavailable manifest_down https_only update_check_request
              demo_env empty_world) as [H _].
  - split; reflexivity.
  - exact I.
  - exact H.
Defined.

(** C2 as stated fails when the storage is down as well: the manifest
    fetch fails, the answer is the 503, and the table is what it was, with
    [update_checks] of the day still 0. *)
Lemma update_check_storage_down :
  fst (fetch storage_down https_only update_check_request demo_env empty_world)
  = inr response_503 /\
  manifest_fetch_fails (net storage_down (net_calls empty_world)) /\
  store (snd (fetch storage_down https_only update_check_request demo_env empty_world))
  = store empty_world /\
  update_checks
    (sql_select_totals "2025-03-15" "2025-03-15"
       (store (snd (fetch storage_down https_only update_check_request demo_env empty_world))))
  = 0.
Proof. vm_compute. repeat split. Qed.




(** C4, as amended.  With a valid admin token, a GET /report during which
    one of the four range queries fails does not produce a response: the
    StorageError leaves the handler.  Every other request whose redirect
    target, if it has one, is accepted by Response.redirect is answered
    with an HTTP response.  The scheduled job always completes without
    raising. *)
Theorem responses_and_propagation (o : oracle) (parse_url : string -> option string)
    (request : Request) (env : Env) (w : world) :
  (forall n, clock_in_range (clock o n)) ->
  (is_get request "/report" -> authorised request env -> report_queries_ok o w = false ->
   fst (fetch o parse_url request env w) = inl StorageError) /\
  (~ (is_get request "/report" /\ authorised request env /\ report_queries_ok o w = false) ->
   (forall url,
      is_get request "/download/latest" ->
      redirect_target (manifest_of (net o (net_calls w))) = Some (JStr url) ->
      url <> "" -> is_Some (parse_url url)) ->
   exists response, fst (fetch o parse_url request env w) = inr response) /\
  fst (scheduled o env w) = inr tt.
Proof.
  intros Hclk. split; [| split].
  - intros Hget Hauth Hq. rewrite fetch_report_authorised by (assumption || apply Hclk).
    cbv zeta. unfold report_queries_ok in Hq. rewrite Hq. reflexivity.
  - intros Hnot Hurl.
    destruct (decide (is_get request "/update/check")) as [G1 | G1].
    { rewrite fetch_update_check by exact G1. cbv zeta. eexists. reflexivity. }
    destruct (decide (is_get request "/download/latest")) as [G2 | G2].
    { rewrite fetch_download_latest by exact G2. cbn [fst]. unfold download_outcome.
      destruct (truthy _); [| eexists; reflexivity].
      destruct (redirect_target _) as [[| | | url | |] |] eqn:Et; try (eexists; reflexivity).
      destruct (String.eqb_spec url "") as [| Hne]; [eexists; reflexivity |].
      destruct (Hurl url G2 eq_refl Hne) as [href ->]. eexists. reflexivity. }
    destruct (decide (is_get request "/report")) as [G3 | G3].
    { destruct (decide (authorised request env)) as [A | A].
      - rewrite fetch_report_authorised by (assumption || apply Hclk). cbv zeta.
        fold (report_queries_ok o w).
        destruct (report_queries_ok o w) eqn:Q; [eexists; reflexivity |].
        exfalso. apply Hnot. split; [exact G3 | split; [exact A | reflexivity]].
      - rewrite fetch_report_unauthorised by assumption. eexists. reflexivity. }
    rewrite fetch_not_found by assumption. eexists. reflexivity.
  - apply scheduled_completes. apply Hclk.
Qed.

(** The second query of an authorised report is refused; the job run in
    the same conditions completes. *)
Lemma responses_and_propagation_witness :
  fst (fetch second_query_fails https_only (report_request (Some "secret"%string))
             demo_env empty_world) = inl StorageError /\
  fst (scheduled second_query_fails demo_env empty_world) = inr tt.
Proof.
  destruct (responses_and_propagation second_query_fails https_only
              (report_request (Some "secret"%string)) demo_env empty_world) as (H1 & _ & H3).
  - intros n. exact clock_in_range_demo.
  - split; [apply H1 | exact H3].
    + split; reflexivity.
    + split; [discriminate | reflexivity].
    + reflexivity.
Defined.

(** C4 as stated fails: an authorised GET /report whose second range query
    is refused ends with the StorageError, not with a response. *)
Lemma report_query_failure_propagates :
  is_get (report_request (Some "secret"%string)) "/report" /\
  authorised (report_request (Some "secret"%string)) demo_env /\
  fetch second_query_fails https_only (report_request (Some "secret"%string))
        demo_env empty_world
  = (inl StorageError,
     World ∅ [ SqlSelect "2025-03-15" "2025-03-15" true;
               SqlSelect "2025-03-14" "2025-03-14" false;
               SqlSelect "2025-03-09" "2025-03-15" true;
               SqlSelect "2025-03-01" "2025-03-15" true ] 2 4 0).
Proof.
  split; [split; reflexivity |]. split; [split; [discriminate | reflexivity] |].
  vm_compute. reflexivity.
Qed.

(** C5.  A GET /report whose X-Admin-Token header is missing or differs
    from the configured secret, or whose configured secret is empty, is
    answered 401 with body {"ok":false,"error":"unauthorized"}; the table
    and the trace are unchanged and no D1 statement was issued. *)
Theorem report_unauthorized (o : oracle) (parse_url : string -> option string)
    (request : Request) (env : Env) (w : world) :
  is_get request "/report" ->
  ADMIN_TOKEN env = "" \/ admin_token_header request <> Some (ADMIN_TOKEN env) ->
  fst (fetch o parse_url request env w)
  = inr {| status := 401; location := None; body := ErrorBody "unauthorized" |} /\
  store (snd (fetch o parse_url request env w)) = store w /\
  trace (snd (fetch o parse_url request env w)) = trace w /\
  db_calls (snd (fetch o parse_url request env w)) = db_calls w.
Proof.
  intros Hget Hbad.
  rewrite fetch_report_unauthorised by (assumption || (apply not_authorised; assumption)).
  repeat split.
Qed.

(** A wrong token. *)
Lemma report_unauthorized_witness :
  fst (fetch healthy https_only (report_request (Some "guess"%string)) demo_env empty_world)
  = inr {| status := 401; location := None; body := ErrorBody "unauthorized" |}.
Proof.
  destruct (report_unauthorized healthy https_only (report_request (Some "guess"%string))
              demo_env empty_world) as [H _].
  - split; reflexivity.
  - right. discriminate.
  - exact H.
Defined.

(** C6.  The scheduled job returns normally.  When one of its range
    queries fails it calls [incrementCounter] exactly once, for today's
    [errors], and posts nothing to the webhook: after the three SELECTs
    the only statements sent to D1 are the INSERT and, if that is
    accepted, the UPDATE of [errors] for today.  When the queries succeed
    and the webhook request is rejected or answered with a non-success
    status, it has posted once and then makes the same single call.  In
    both cases, when D1 accepts the two statements the row of today is the
    old one (or a new all-zero one) with [errors] one higher and no other
    row has changed; when D1 refuses one of them no range total changes
    and the job still returns normally.  When queries and webhook both
    succeed it increments nothing. *)
Theorem scheduled_job_failures (o : oracle) (env : Env) (w : world) :
  clock_in_range (clock o (clock_reads w)) ->
  fst (scheduled o env w) = inr tt /\
  (job_queries_ok o w = false ->
   increment_calls (trace (snd (scheduled o env w)))
   = increment_calls (trace w) ++ [(day_string (Day (clock o (clock_reads w))), Errors)] /\
   webhook_posts (trace (snd (scheduled o env w))) = webhook_posts (trace w)) /\
  (job_queries_ok o w = true -> webhook_ok (net o (net_calls w)) = false ->
   increment_calls (trace (snd (scheduled o env w)))
   = increment_calls (trace w) ++ [(day_string (Day (clock o (clock_reads w))), Errors)] /\
   webhook_posts (trace (snd (scheduled o env w)))
   = webhook_posts (trace w)
     ++ [(DISCORD_WEBHOOK_URL env, report_message (clock o (clock_reads w)) (store w))]) /\
  (job_queries_ok o w = true -> webhook_ok (net o (net_calls w)) = true ->
   increment_calls (trace (snd (scheduled o env w))) = increment_calls (trace w)) /\
  (job_queries_ok o w = false ->
   trace (snd (scheduled o env w))
   = trace w ++ job_queries o (clock o (clock_reads w)) w
     ++ CallIncrement (day_string (Day (clock o (clock_reads w)))) Errors
        :: SqlInsert (day_string (Day (clock o (clock_reads w)))) (db_ok o (3 + db_calls w))
        :: (if db_ok o (3 + db_calls w)
            then [SqlUpdate Errors (day_string (Day (clock o (clock_reads w))))
                            (db_ok o (4 + db_calls w))]
            else [])) /\
  (job_queries_ok o w = true -> webhook_ok (net o (net_calls w)) = false ->
   trace (snd (scheduled o env w))
   = trace w ++ job_queries o (clock o (clock_reads w)) w
     ++ HttpPost (DISCORD_WEBHOOK_URL env)
                 (report_message (clock o (clock_reads w)) (store w))
        :: CallIncrement (day_string (Day (clock o (clock_reads w)))) Errors
        :: SqlInsert (day_string (Day (clock o (clock_reads w)))) (db_ok o (3 + db_calls w))
        :: (if db_ok o (3 + db_calls w)
            then [SqlUpdate Errors (day_string (Day (clock o (clock_reads w))))
                            (db_ok o (4 + db_calls w))]
            else [])) /\
  (job_queries_ok o w = false \/ webhook_ok (net o (net_calls w)) = false ->
   db_ok o (3 + db_calls w) = true -> db_ok o (4 + db_calls w) = true ->
   store (snd (scheduled o env w)) !! day_string (Day (clock o (clock_reads w)))
   = Some (bump Errors
             (default zero_counters
                (store w !! day_string (Day (clock o (clock_reads w)))))) /\
   (forall d, d <> day_string (Day (clock o (clock_reads w))) ->
      store (snd (scheduled o env w)) !! d = store w !! d) /\
   sql_select_totals (day_string (Day (clock o (clock_reads w))))
                     (day_string (Day (clock o (clock_reads w))))
                     (store (snd (scheduled o env w)))
   = bump Errors
       (sql_select_totals (day_string (Day (clock o (clock_reads w))))
                          (day_string (Day (clock o (clock_reads w)))) (store w))) /\
  (job_queries_ok o w = false \/ webhook_ok (net o (net_calls w)) = false ->
   db_ok o (3 + db_calls w) = false \/ db_ok o (4 + db_calls w) = false ->
   forall a b,
     sql_select_totals a b (store (snd (scheduled o env w)))
     = sql_select_totals a b (store w)).
Proof.
  intros Hclk. split; [apply scheduled_completes; exact Hclk |].
  assert (Hcalls :
    (job_queries_ok o w = false ->
     increment_calls (trace (snd (scheduled o env w)))
     = increment_calls (trace w) ++ [(day_string (Day (clock o (clock_reads w))), Errors)] /\
     webhook_posts (trace (snd (scheduled o env w))) = webhook_posts (trace w)) /\
    (job_queries_ok o w = true -> webhook_ok (net o (net_calls w)) = false ->
     increment_calls (trace (snd (scheduled o env w)))
     = increment_calls (trace w) ++ [(day_string (Day (clock o (clock_reads w))), Errors)] /\
     webhook_posts (trace (snd (scheduled o env w)))
     = webhook_posts (trace w)
       ++ [(DISCORD_WEBHOOK_URL env, report_message (clock o (clock_reads w)) (store w))]) /\
    (job_queries_ok o w = true -> webhook_ok (net o (net_calls w)) = true ->
     increment_calls (trace (snd (scheduled o env w))) = increment_calls (trace w))).
  { rewrite scheduled_run by exact Hclk. cbv zeta. fold (job_queries_ok o w).
    destruct (job_queries_ok o w).
    - split; [intros; discriminate |].
      destruct (webhook_ok (net o (net_calls w))); cbn [snd]; split; intros _ H';
        try discriminate.
      + unfold after_post, after_db, job_queries. cbn [trace].
        rewrite !increment_calls_app. cbn [increment_calls]. rewrite !app_nil_r. reflexivity.
      + match goal with
        | |- context [incrementCounter o ?d Errors ?w'] =>
            destruct (incrementCounter_calls o d Errors w') as [Ei Ew]
        end.
        rewrite Ei, Ew. unfold after_post, after_db, job_queries. cbn [trace].
        rewrite !increment_calls_app, !webhook_posts_app.
        cbn [increment_calls webhook_posts]. rewrite !app_nil_r. split; reflexivity.
    - split; [| split; intros; discriminate].
      intros _. cbn [snd].
      match goal with
      | |- context [incrementCounter o ?d Errors ?w'] =>
          destruct (incrementCounter_calls o d Errors w') as [Ei Ew]
      end.
      rewrite Ei, Ew. unfold after_db, job_queries. cbn [trace].
      rewrite !increment_calls_app, !webhook_posts_app.
      cbn [increment_calls webhook_posts]. rewrite !app_nil_r. split; reflexivity. }
  destruct Hcalls as (C1 & C2 & C3).
  split; [exact C1 |]. split; [exact C2 |]. split; [exact C3 |].
  split; [| split; [| split]].
  - intros Hq. rewrite (scheduled_failure_trace o env w Hclk (or_introl Hq)).
    rewrite Hq. reflexivity.
  - intros Hq Hw. rewrite (scheduled_failure_trace o env w Hclk (or_intror Hw)).
    rewrite Hq. reflexivity.
  - intros Hfail D3 D4. rewrite (scheduled_failure_store o env w Hclk Hfail D3 D4).
    split; [apply increment_row |]. split.
    + intros d Hd. unfold upsert_increment.
      rewrite update_increment_other, insert_or_ignore_other by exact Hd. reflexivity.
    + rewrite select_upsert_increment.
      rewrite (proj2 (day_between_same _ _) eq_refl). reflexivity.
  - intros Hfail Hdb. apply scheduled_failure_lost; assumption.
Qed.

(** A run on 2025-03-15 whose second query is refused: one call, no post,
    and [errors] of the day at 1. *)
Lemma scheduled_job_failures_witness :
  fst (scheduled second_query_fails demo_env empty_world) = inr tt /\
  increment_calls (trace (snd (scheduled second_query_fails demo_env empty_world)))
  = [("2025-03-15"%string, Errors)] /\
  webhook_posts (trace (snd (scheduled second_query_fails demo_env empty_world))) = [] /\
  store (snd (scheduled second_query_fails demo_env empty_world)) !! "2025-03-15"%string
  = Some (Counters 0 0 1).
Proof.
  destruct (scheduled_job_failures second_query_fails demo_env empty_world)
    as (H1 & H2 & _ & _ & _ & _ & H7 & _).
  - exact clock_in_range_demo.
  - split; [exact H1 |].
    destruct (H2 eq_refl) as [Hi Hp]. split; [exact Hi |]. split; [exact Hp |].
    destruct (H7 (or_introl eq_refl) eq_refl eq_refl) as [Hs _]. exact Hs.
Defined.

(** C7.  For a reference instant [now]: [yesterday] is the day key of the
    UTC day of [now] minus one day, [sevenDaysAgo] that of the day minus
    six days, and [monthStart] the day key with the year and month of [now]
    and day 01, which is the key of the first day of that month.  On
    2025-03-01 the month starts on 2025-03-01 and the seven-day window on
    2025-02-23; on 2025-03-15 the three keys are 2025-03-14, 2025-03-09
    and 2025-03-01.  These are the ranges the report and the scheduled job
    query. *)
Theorem report_windows (now : Z) :
  clock_in_range now ->
  utcDay (Some now) = inr (day_string (Day now)) /\
  utcDay (days_before 1 (Some now)) = inr (day_string (Day now - 1)) /\
  utcDay (days_before 6 (Some now)) = inr (day_string (Day now - 6)) /\
  utcMonthStart (Some now)
  = inr (date_string (YearFromTime now) (MonthFromTime now + 1) 1) /\
  utcMonthStart (Some now) = inr (day_string (Day now - (DateFromTime now - 1))) /\
  (utcDay (Some now) = inr "2025-03-01"%string ->
   utcMonthStart (Some now) = inr "2025-03-01"%string /\
   utcDay (days_before 6 (Some now)) = inr "2025-02-23"%string) /\
  (utcDay (Some now) = inr "2025-03-15"%string ->
   utcDay (days_before 1 (Some now)) = inr "2025-03-14"%string /\
   utcDay (days_before 6 (Some now)) = inr "2025-03-09"%string /\
   utcMonthStart (Some now) = inr "2025-03-01"%string) /\
  (forall o parse_url request env w,
     clock o (S (clock_reads w)) = now ->
     is_get request "/report" -> authorised request env ->
     trace (snd (fetch o parse_url request env w))
     = trace w ++
       [ SqlSelect (today_of o w) (today_of o w) (db_ok o (db_calls w));
         SqlSelect (day_string (Day now - 1)) (day_string (Day now - 1))
                   (db_ok o (S (db_calls w)));
         SqlSelect (day_string (Day now - 6)) (today_of o w)
                   (db_ok o (S (S (db_calls w))));
         SqlSelect (day_string (Day now - (DateFromTime now - 1))) (today_of o w)
                   (db_ok o (S (S (S (db_calls w))))) ]) /\
  (forall o env w,
     clock o (clock_reads w) = now ->
     exists rest,
       trace (snd (scheduled o env w))
       = trace w ++
         [ SqlSelect (day_string (Day now - 1)) (day_string (Day now - 1))
                     (db_ok o (db_calls w));
           SqlSelect (day_string (Day now - 6)) (day_string (Day now))
                     (db_ok o (S (db_calls w)));
           SqlSelect (day_string (Day now - (DateFromTime now - 1))) (day_string (Day now))
                     (db_ok o (S (S (db_calls w)))) ] ++ rest).
Proof.
  intros Hclk.
  pose proof (utcDay_today now Hclk) as Htoday.
  pose proof (utcDay_days_before 1 now Hclk ltac:(lia)) as Hy.
  pose proof (utcDay_days_before 6 now Hclk ltac:(lia)) as H7.
  destruct (utcMonthStart_first now Hclk) as [Hms Hfirst].
  assert (Hms' : utcMonthStart (Some now) = inr (day_string (Day now - (DateFromTime now - 1)))).
  { rewrite Hms. rewrite DateFromTime_Day. do 2 f_equal. lia. }
  assert (Hday : forall n, four_digit_day n -> utcDay (Some now) = inr (day_string n) ->
                           Day now = n).
  { intros n Hn E. rewrite Htoday in E. apply (inj inr) in E.
    apply day_string_inj; [apply four_digit_of_clock; exact Hclk | exact Hn | exact E]. }
  assert (D1 : four_digit_day 20148) by (unfold four_digit_day; vm_compute; intuition discriminate).
  assert (D2 : four_digit_day 20162) by (unfold four_digit_day; vm_compute; intuition discriminate).
  split; [exact Htoday |]. split; [exact Hy |]. split; [exact H7 |].
  split; [rewrite Hms, Hfirst; reflexivity |]. split; [exact Hms' |].
  split; [| split; [| exact (windows_in_handlers now Hclk)]]; intros E.
  - rewrite Hms, H7, (Hday 20148 D1 E). split; reflexivity.
  - rewrite Hms, Hy, H7, (Hday 20162 D2 E). repeat split.
Qed.

(** The windows at 2025-03-15T09:00:00.123Z. *)
Lemma report_windows_witness :
  utcDay (days_before 1 (Some demo_now)) = inr "2025-03-14"%string /\
  utcDay (days_before 6 (Some demo_now)) = inr "2025-03-09"%string /\
  utcMonthStart (Some demo_now) = inr "2025-03-01"%string.
Proof.
  destruct (report_windows demo_now clock_in_range_demo) as (_ & _ & _ & _ & _ & _ & H & _).
  apply H. reflexivity.
Defined.

(** C8.  Over a table with no row in [a .. b] the range sum is all zero:
    the SELECT yields zeros, [queryTotals] returns them once D1 has run the
    statement, and the table is left as it was.  This includes [a > b],
    where no key at all lies in the range. *)
Theorem sumRange_without_rows (o : oracle) (a b : string) (w : world) :
  (forall day r, store w !! day = Some r -> day_between a b day = false) ->
  db_ok o (db_calls w) = true ->
  sql_select_totals a b (store w) = zero_counters /\
  fst (queryTotals o a b w) = inr zero_counters /\
  store (snd (queryTotals o a b w)) = store w /\
  (String.ltb b a = true -> forall t : table, sql_select_totals a b t = zero_counters).
Proof.
  intros Hrows Hdb.
  pose proof (select_no_rows a b (store w) Hrows) as Hz.
  rewrite queryTotals_run, Hdb. cbn [fst snd after_db store]. rewrite Hz.
  repeat split.
  intros Hgt t. apply select_no_rows. intros day r _. apply day_between_empty. exact Hgt.
Qed.

(** A week of the empty table. *)
Lemma sumRange_without_rows_witness :
  fst (queryTotals healthy "2025-03-09" "2025-03-15" empty_world) = inr zero_counters.
Proof.
  destruct (sumRange_without_rows healthy "2025-03-09" "2025-03-15" empty_world) as (_ & H & _).
  - intros day r H. unfold empty_world in H. cbn [store] in H.
    rewrite lookup_empty in H. discriminate.
  - reflexivity.
  - exact H.
Defined.

(** C9.  The range sum is additive: for day keys [a <= m < b] over a table
    keyed by day keys, the sums over [a .. m] and over [next day of m .. b]
    add up, column by column, to the sum over [a .. b]; the same holds of
    the values [queryTotals] returns for the three ranges. *)
Theorem sumRange_additive (t : table) (da dm db : Z) :
  day_keyed t -> four_digit_day da -> four_digit_day db -> da <= dm < db ->
  add_counters (sql_select_totals (day_string da) (day_string dm) t)
               (sql_select_totals (day_string (dm + 1)) (day_string db) t)
  = sql_select_totals (day_string da) (day_string db) t /\
  (forall o w1 w2 w3 r1 r2 r3,
     store w1 = t -> store w2 = t -> store w3 = t ->
     fst (queryTotals o (day_string da) (day_string dm) w1) = inr r1 ->
     fst (queryTotals o (day_string (dm + 1)) (day_string db) w2) = inr r2 ->
     fst (queryTotals o (day_string da) (day_string db) w3) = inr r3 ->
     add_counters r1 r2 = r3).
Proof.
  intros Hk Ha Hb Hm.
  assert (Hadd : add_counters (sql_select_totals (day_string da) (day_string dm) t)
                   (sql_select_totals (day_string (dm + 1)) (day_string db) t)
                 = sql_select_totals (day_string da) (day_string db) t).
  { rewrite !select_as_sum. apply sum_counters_pointwise.
    intros [k r] Hin. apply elem_of_map_to_list in Hin.
    destruct (Hk k r Hin) as (n & Hn & ->).
    assert (Hdm : four_digit_day dm) by (unfold four_digit_day in *; lia).
    assert (Hdm1 : four_digit_day (dm + 1)) by (unfold four_digit_day in *; lia).
    unfold row_share. cbn [fst snd].
    rewrite !day_between_keys by assumption.
    destruct (Z.leb_spec da n), (Z.leb_spec n dm), (Z.leb_spec (dm + 1) n), (Z.leb_spec n db);
      cbn [andb]; try lia;
      rewrite ?add_counters_zero_l, ?add_counters_zero_r; reflexivity. }
  split; [exact Hadd |].
  intros o w1 w2 w3 r1 r2 r3 E1 E2 E3 H1 H2 H3.
  apply queryTotals_result in H1, H2, H3. subst. rewrite E2, E3 in *. exact Hadd.
Qed.

(** 2025-03-09 .. 2025-03-13 and 2025-03-14 .. 2025-03-15 over two rows. *)
Lemma sumRange_additive_witness :
  add_counters (sql_select_totals (day_string 20156) (day_string 20160) demo_table)
               (sql_select_totals (day_string (20160 + 1)) (day_string 20162) demo_table)
  = sql_select_totals (day_string 20156) (day_string 20162) demo_table.
Proof.
  destruct (sumRange_additive demo_table 20156 20160 20162) as [H _].
  - exact demo_table_day_keyed.
  - unfold four_digit_day. vm_compute. intuition discriminate.
  - unfold four_digit_day. vm_compute. intuition discriminate.
  - lia.
  - exact H.
Defined.

(** C10.  [incrementCounter day c] leaves the rows of all other days as
    they were and, in the row of [day], leaves the two other columns as
    they were (0 when the row is new); when it succeeds the row of [day] is
    the old one, or the all-zero one if there was none, with [c] one
    higher. *)
Theorem incrementCounter_frame (o : oracle) (day : string) (c : column) (w : world) :
  (forall d, d <> day -> store (snd (incrementCounter o day c w)) !! d = store w !! d) /\
  (forall c', c' <> c ->
     get_column c' (default zero_counters (store (snd (incrementCounter o day c w)) !! day))
     = get_column c' (default zero_counters (store w !! day))) /\
  (fst (incrementCounter o day c w) = inr tt ->
     store (snd (incrementCounter o day c w)) !! day
     = Some (bump c (default zero_counters (store w !! day)))) /\
  (store w !! day = None -> fst (incrementCounter o day c w) = inr tt ->
     store (snd (incrementCounter o day c w)) !! day = Some (bump c zero_counters)).
Proof.
  rewrite incrementCounter_run. cbv zeta.
  destruct (db_ok o (db_calls w)); [destruct (db_ok o (S (db_calls w))) |];
    cbn [fst snd after_db store]; repeat split; intros; try discriminate.
  - rewrite update_increment_other, insert_or_ignore_other by assumption. reflexivity.
  - rewrite increment_row. cbn [default]. apply bump_other. assumption.
  - apply increment_row.
  - rewrite increment_row. rewrite H. reflexivity.
  - apply insert_or_ignore_other. assumption.
  - rewrite insert_or_ignore_row. reflexivity.
Qed.

(** * Further properties of the code *)

(** X1.  For instants of the years 0000 to 9999, [utcDay] names the UTC
    day: the key has ten characters, two instants have the same key
    exactly when they fall on the same UTC day, and the bytewise order of
    the keys, which the range query compares by, is the order of the days. *)
Theorem day_keys_order_days (t1 t2 : Z) (k1 k2 : string) :
  0 <= YearFromTime t1 <= 9999 -> 0 <= YearFromTime t2 <= 9999 ->
  utcDay (Some t1) = inr k1 -> utcDay (Some t2) = inr k2 ->
  String.length k1 = 10%nat /\
  (k1 = k2 <-> Day t1 = Day t2) /\
  String.leb k1 k2 = (Day t1 <=? Day t2) /\
  (forall a b, day_between a b k1 = day_between a b (day_string (Day t1))).
Proof.
  intros H1 H2 E1 E2. rewrite utcDay_valid in E1, E2.
  apply (inj inr) in E1, E2. rewrite day_of_Day in E1, E2 by assumption. subst k1 k2.
  assert (F1 : four_digit_day (Day t1)) by (apply four_digit_year; exact H1).
  assert (F2 : four_digit_day (Day t2)) by (apply four_digit_year; exact H2).
  split; [apply day_string_length |]. split; [| split].
  - split; [apply day_string_inj; assumption | intros ->; reflexivity].
  - apply day_string_leb; assumption.
  - reflexivity.
Qed.

(** 2025-03-15T09:00:00.123Z and the midnight before it. *)
Lemma day_keys_order_days_witness :
  utcDay (Some demo_now) = utcDay (Some (demo_now - 32400123)) /\
  String.leb "2025-03-15" "2025-03-15" = true.
Proof.
  destruct (day_keys_order_days demo_now (demo_now - 32400123) "2025-03-15" "2025-03-15")
    as (_ & _ & H & _).
  - vm_compute. intuition discriminate.
  - vm_compute. intuition discriminate.
  - reflexivity.
  - reflexivity.
  - split; [reflexivity |]. rewrite H. reflexivity.
Defined.

(** X2.  Outside the years 0000 to 9999 [utcDay] does not name a day:
    toISOString prints such a year with a sign and six digits, so the
    first ten characters are the sign, the year, a dash and the month, and
    all instants of one month get the same key. *)
Theorem utcDay_beyond_four_digit_years (t : Z) :
  YearFromTime t < 0 \/ 9999 < YearFromTime t ->
  utcDay (Some t)
  = inr (String (if 0 <=? YearFromTime t then "+"%char else "-"%char)
                (pad6 (Z.abs (YearFromTime t)))
         +:+ "-" +:+ pad2 (MonthFromTime t + 1)) /\
  (forall t', YearFromTime t' = YearFromTime t -> MonthFromTime t' = MonthFromTime t ->
              utcDay (Some t') = utcDay (Some t)).
Proof.
  intros H.
  assert (E : forall u, YearFromTime u = YearFromTime t ->
              utcDay (Some u)
              = inr (String (if 0 <=? YearFromTime u then "+"%char else "-"%char)
                            (pad6 (Z.abs (YearFromTime u)))
                     +:+ "-" +:+ pad2 (MonthFromTime u + 1))).
  { intros u Eu. rewrite utcDay_valid. unfold day_of, iso_string, isoYear.
    assert (C : (0 <=? YearFromTime u) && (YearFromTime u <=? 9999) = false).
    { rewrite Eu. apply andb_false_iff.
      destruct H; [left; apply Z.leb_gt | right; apply Z.leb_gt]; lia. }
    rewrite C. reflexivity. }
  split; [apply E; reflexivity |].
  intros t' Ey Em. rewrite (E t' Ey), (E t eq_refl), Ey, Em. reflexivity.
Qed.

(** The first two days of the year 10000. *)
Lemma utcDay_beyond_four_digit_years_witness :
  utcDay (Some year_10000) = inr "+010000-01"%string /\
  utcDay (Some (year_10000 + msPerDay)) = inr "+010000-01"%string.
Proof.
  destruct (utcDay_beyond_four_digit_years year_10000) as [H1 H2].
  - right. vm_compute. reflexivity.
  - split; [rewrite H1; reflexivity |].
    rewrite (H2 (year_10000 + msPerDay)); [rewrite H1; reflexivity | |]; reflexivity.
Defined.

(** X3.  Which rows the windows select.  With the keys computed at
    [now] (by [utcDay], [setUTCDate] and [utcMonthStart] as in the
    handlers), the range [today .. today] holds the key of exactly the day
    of [now], [yesterday .. yesterday] that of the day before,
    [sevenDaysAgo .. today] the keys of exactly the seven days ending
    today, and [monthStart .. today] the keys of exactly the days with the
    year and month of [now] and a day of the month not after today's. *)
Theorem windows_select_days (now n : Z) (today yesterday sevenDaysAgo monthStart : string) :
  clock_in_range now -> four_digit_day n ->
  utcDay (Some now) = inr today ->
  utcDay (days_before 1 (Some now)) = inr yesterday ->
  utcDay (days_before 6 (Some now)) = inr sevenDaysAgo ->
  utcMonthStart (Some now) = inr monthStart ->
  (day_between today today (day_string n) = true <-> n = Day now) /\
  (day_between yesterday yesterday (day_string n) = true <-> n = Day now - 1) /\
  (day_between sevenDaysAgo today (day_string n) = true <-> Day now - 6 <= n <= Day now) /\
  (day_between monthStart today (day_string n) = true <->
   YearFromDay n = YearFromTime now /\ MonthOfDay n = MonthFromTime now /\
   DateOfDay n <= DateFromTime now).
Proof.
  intros Hclk Hn Et Ey E7 Em.
  rewrite utcDay_today in Et by exact Hclk.
  rewrite utcDay_days_before in Ey, E7 by (assumption || lia).
  destruct (utcMonthStart_first now Hclk) as [Hms _]. rewrite Hms in Em.
  apply (inj inr) in Et, Ey, E7, Em. subst.
  destruct (window_days_four_digit now Hclk) as (F0 & F1 & F6 & Fm).
  rewrite !day_between_days by assumption.
  split; [lia |]. split; [lia |]. split; [lia |].
  rewrite MonthFromTime_Day, DateFromTime_Day. unfold YearFromTime.
  apply month_to_date_days.
Qed.

(** On 2025-03-15 the week holds 2025-03-09 and the month 2025-03-01. *)
Lemma windows_select_days_witness :
  day_between "2025-03-09" "2025-03-15" (day_string 20156) = true /\
  day_between "2025-03-01" "2025-03-15" (day_string 20148) = true.
Proof.
  destruct (windows_select_days demo_now 20156 "2025-03-15" "2025-03-14" "2025-03-09"
              "2025-03-01") as (_ & _ & H7 & _); try reflexivity.
  - exact clock_in_range_demo.
  - unfold four_digit_day. vm_compute. intuition discriminate.
  - split; [apply H7; vm_compute; intuition discriminate | reflexivity].
Defined.

(** X4.  After a call of [incrementCounter day c] that succeeded, the
    total of every range that holds [day] is the one before with [c] one
    higher, and the total of every other range is what it was; this is
    what [queryTotals] then returns. *)
Theorem increment_adds_one_to_ranges (o : oracle) (day : string) (c : column)
    (a b : string) (w : world) :
  fst (incrementCounter o day c w) = inr tt ->
  sql_select_totals a b (store (snd (incrementCounter o day c w)))
  = (if day_between a b day then bump c (sql_select_totals a b (store w))
     else sql_select_totals a b (store w)) /\
  (forall o' totals,
     fst (queryTotals o' a b (snd (incrementCounter o day c w))) = inr totals ->
     totals = (if day_between a b day then bump c (sql_select_totals a b (store w))
               else sql_select_totals a b (store w))) /\
  (forall o',
     db_ok o' (db_calls (snd (incrementCounter o day c w))) = true ->
     fst (queryTotals o' a b (snd (incrementCounter o day c w)))
     = inr (if day_between a b day then bump c (sql_select_totals a b (store w))
            else sql_select_totals a b (store w))).
Proof.
  intros Hok.
  assert (E : sql_select_totals a b (store (snd (incrementCounter o day c w)))
              = (if day_between a b day then bump c (sql_select_totals a b (store w))
                 else sql_select_totals a b (store w))).
  { rewrite (incrementCounter_success o day c w Hok). apply select_upsert_increment. }
  split; [exact E |]. split.
  - intros o' totals Ht. apply queryTotals_result in Ht. rewrite Ht. exact E.
  - intros o' Hdb. rewrite (queryTotals_returns o' a b _ Hdb), E. reflexivity.
Qed.

(** An increment of [errors] for 2025-03-14 seen by the week's total. *)
Lemma increment_adds_one_to_ranges_witness :
  sql_select_totals "2025-03-09" "2025-03-15"
    (store (snd (incrementCounter healthy "2025-03-14" Errors
                   (World demo_table [] 0 0 0))))
  = Counters 6 1 2.
Proof.
  destruct (increment_adds_one_to_ranges healthy "2025-03-14" Errors
              "2025-03-09" "2025-03-15" (World demo_table [] 0 0 0)) as [H _].
  - reflexivity.
  - rewrite H. vm_compute. reflexivity.
Defined.

(** X5.  [N] successful increments add up on any table: after [N] calls
    of [incrementCounter] for [day] and [c] that all succeeded, column [c]
    of the row of [day] and of every range total that holds [day] is [N]
    higher than before, and every other column, and every total of a range
    that does not hold [day], is what it was. *)
Theorem increments_add_up (o : oracle) (N : nat) (day : string) (c : column)
    (w : world) :
  fst (increments o N day c w) = inr tt ->
  (forall c',
     get_column c' (default zero_counters (store (snd (increments o N day c w)) !! day))
     = get_column c' (default zero_counters (store w !! day))
       + (if decide (c' = c) then Z.of_nat N else 0)) /\
  (forall a b c',
     get_column c' (sql_select_totals a b (store (snd (increments o N day c w))))
     = get_column c' (sql_select_totals a b (store w))
       + (if day_between a b day then if decide (c' = c) then Z.of_nat N else 0 else 0)).
Proof.
  intros Hok. rewrite (increments_store o N day c w Hok).
  split; [intros c'; apply iter_upsert_row | intros a b c'; apply iter_upsert_select].
Qed.

(** Three more downloads on a day that already has a row. *)
Lemma increments_add_up_witness :
  get_column Downloads
    (sql_select_totals "2025-03-09" "2025-03-15"
       (store (snd (increments healthy 3 "2025-03-10" Downloads
                      (World demo_table [] 0 0 0)))))
  = 4.
Proof.
  destruct (increments_add_up healthy 3 "2025-03-10" Downloads (World demo_table [] 0 0 0))
    as [_ H].
  - vm_compute. reflexivity.
  - rewrite H. vm_compute. reflexivity.
Defined.

(** X6.  A call of [incrementCounter] that fails raises StorageError and
    changes no range total: the rows of other days are as they were, and
    the row of [day] is as it was or, when there was none and only the
    UPDATE was refused, is a new all-zero row. *)
Theorem failed_increment_keeps_totals (o : oracle) (day : string) (c : column)
    (w : world) (e : exn) :
  fst (incrementCounter o day c w) = inl e ->
  e = StorageError /\
  (forall a b,
     sql_select_totals a b (store (snd (incrementCounter o day c w)))
     = sql_select_totals a b (store w)) /\
  (forall d, d <> day -> store (snd (incrementCounter o day c w)) !! d = store w !! d) /\
  (store (snd (incrementCounter o day c w)) !! day = store w !! day \/
   store w !! day = None /\
   store (snd (incrementCounter o day c w)) !! day = Some zero_counters).
Proof.
  intros H. destruct (incrementCounter_failure o day c w e H) as [He [Hs | Hs]];
    rewrite Hs; (split; [exact He |]).
  - repeat split; auto.
  - split; [intros; apply select_insert_or_ignore |].
    split; [intros d Hd; apply insert_or_ignore_other; exact Hd |].
    unfold sql_insert_or_ignore. destruct (store w !! day) eqn:E; [left; exact E |].
    right. split; [reflexivity | apply lookup_insert_eq].
Qed.

(** The UPDATE is refused after the INSERT went through. *)
Lemma failed_increment_keeps_totals_witness :
  store (snd (incrementCounter second_query_fails "2025-03-15" Downloads empty_world))
    !! "2025-03-15"%string = Some zero_counters /\
  sql_select_totals "2025-03-15" "2025-03-15"
    (store (snd (incrementCounter second_query_fails "2025-03-15" Downloads empty_world)))
  = sql_select_totals "2025-03-15" "2025-03-15" (store empty_world).
Proof.
  destruct (failed_increment_keeps_totals second_query_fails "2025-03-15" Downloads
              empty_world StorageError) as (_ & H & _).
  - reflexivity.
  - split; [reflexivity | apply H].
Defined.

(** X7.  Two successful increments give the same table in either order,
    whatever their days and columns. *)
Theorem increments_commute (o1 o2 : oracle) (d1 d2 : string) (c1 c2 : column)
    (w1 w2 : world) :
  store w1 = store w2 ->
  fst ((incrementCounter o1 d1 c1 >> incrementCounter o1 d2 c2) w1) = inr tt ->
  fst ((incrementCounter o2 d2 c2 >> incrementCounter o2 d1 c1) w2) = inr tt ->
  store (snd ((incrementCounter o1 d1 c1 >> incrementCounter o1 d2 c2) w1))
  = store (snd ((incrementCounter o2 d2 c2 >> incrementCounter o2 d1 c1) w2)).
Proof.
  intros Hs. unfold bind.
  destruct (incrementCounter o1 d1 c1 w1) as [[e1 | []] wa] eqn:Ea; cbn [fst]; [discriminate |].
  destruct (incrementCounter o2 d2 c2 w2) as [[e2 | []] wb] eqn:Eb; cbn [fst]; [discriminate |].
  intros H1 H2.
  rewrite (incrementCounter_success _ _ _ _ H1), (incrementCounter_success _ _ _ _ H2).
  assert (Ha : store wa = upsert_increment c1 d1 (store w1)).
  { pose proof (incrementCounter_success o1 d1 c1 w1) as P. rewrite Ea in P. apply P. reflexivity. }
  assert (Hb : store wb = upsert_increment c2 d2 (store w2)).
  { pose proof (incrementCounter_success o2 d2 c2 w2) as P. rewrite Eb in P. apply P. reflexivity. }
  rewrite Ha, Hb, Hs. apply upsert_increment_comm.
Qed.

(** A download and an update check of the same day. *)
Lemma increments_commute_witness :
  store (snd ((incrementCounter healthy "2025-03-15" Downloads >>
               incrementCounter healthy "2025-03-15" UpdateChecks) empty_world))
  = store (snd ((incrementCounter healthy "2025-03-15" UpdateChecks >>
                 incrementCounter healthy "2025-03-15" Downloads) empty_world)).
Proof.
  apply (increments_commute healthy healthy); reflexivity.
Defined.

(** X8.  A range total reads only the rows of its range: two tables with
    the same rows for the keys between [a] and [b] have the same total,
    and [queryTotals] returns the same on them. *)
Theorem totals_depend_on_range_rows (a b : string) (t1 t2 : table) :
  (forall day, day_between a b day = true -> t1 !! day = t2 !! day) ->
  sql_select_totals a b t1 = sql_select_totals a b t2 /\
  (forall o1 o2 w1 w2 r1 r2,
     store w1 = t1 -> store w2 = t2 ->
     fst (queryTotals o1 a b w1) = inr r1 -> fst (queryTotals o2 a b w2) = inr r2 ->
     r1 = r2).
Proof.
  intros H. pose proof (select_ext a b t1 t2 H) as E. split; [exact E |].
  intros o1 o2 w1 w2 r1 r2 E1 E2 H1 H2.
  apply queryTotals_result in H1, H2. subst. exact E.
Qed.

(** The total of 2025-03-14 does not see the row of 2025-03-10. *)
Lemma totals_depend_on_range_rows_witness :
  sql_select_totals "2025-03-14" "2025-03-14" demo_table
  = sql_select_totals "2025-03-14" "2025-03-14" (<["2025-03-14" := Counters 2 0 1]> ∅).
Proof.
  destruct (totals_depend_on_range_rows "2025-03-14" "2025-03-14" demo_table
              (<["2025-03-14" := Counters 2 0 1]> ∅)) as [H _].
  - intros day B. apply day_between_same in B. subst day. reflexivity.
  - exact H.
Defined.

(** X9.  [fetchManifest] never raises.  It returns the parsed body when
    the request was answered with a success status and a JSON body, and
    null when the request was rejected, answered with another status, or
    answered with a body that is not JSON.  It issues exactly one GET of
    the URL and leaves the table alone. *)
Theorem fetchManifest_never_raises (o : oracle) (url : string) (w : world) :
  (exists v, fst (fetchManifest o url w) = inr v) /\
  (forall v, net o (net_calls w) = FetchResolves true (Some v) ->
             fst (fetchManifest o url w) = inr v) /\
  (net o (net_calls w) = FetchRejects -> fst (fetchManifest o url w) = inr JNull) /\
  (forall body, net o (net_calls w) = FetchResolves false body ->
                fst (fetchManifest o url w) = inr JNull) /\
  (net o (net_calls w) = FetchResolves true None ->
   fst (fetchManifest o url w) = inr JNull) /\
  store (snd (fetchManifest o url w)) = store w /\
  trace (snd (fetchManifest o url w)) = trace w ++ [HttpGet url] /\
  net_calls (snd (fetchManifest o url w)) = S (net_calls w) /\
  db_calls (snd (fetchManifest o url w)) = db_calls w.
Proof.
  rewrite fetchManifest_run. cbn [fst snd store trace net_calls db_calls].
  split; [eexists; reflexivity |].
  repeat split; try (intros; match goal with H : net _ _ = _ |- _ => rewrite H end; reflexivity).
Qed.

(** X10.  GET /update/check whose manifest request was answered with a
    success status and a JSON body: the answer is 200 with that value as
    its body, whatever D1 does; when the value is falsy (null, false, 0,
    the empty string) the answer is the 503 manifest_unavailable. *)
Theorem update_check_returns_manifest (o : oracle) (parse_url : string -> option string)
    (request : Request) (env : Env) (w : world) (manifest : json) :
  is_get request "/update/check" ->
  net o (net_calls w) = FetchResolves true (Some manifest) ->
  (truthy manifest = true ->
   fst (fetch o parse_url request env w)
   = inr {| status := 200; location := None; body := ManifestBody manifest |}) /\
  (manifest = JNull \/ manifest = JBool false \/ manifest = JStr "" \/
   manifest = JNum (S754_zero false) ->
   fst (fetch o parse_url request env w) = inr response_503) /\
  (forall members, manifest = JObj members ->
   fst (fetch o parse_url request env w)
   = inr {| status := 200; location := None; body := ManifestBody manifest |}).
Proof.
  intros Hget Hnet. rewrite fetch_update_check by exact Hget. cbv zeta. cbn [fst].
  rewrite Hnet. cbn [manifest_of].
  split; [| split].
  - intros ->. reflexivity.
  - intros [-> | [-> | [-> | ->]]]; reflexivity.
  - intros members ->. reflexivity.
Qed.

(** The manifest is served while the storage is down. *)
Lemma update_check_returns_manifest_witness :
  fst (fetch (Oracle (fun _ => demo_now) (fun _ => false)
                     (fun _ => FetchResolves true (Some demo_manifest)))
             https_only update_check_request demo_env empty_world)
  = inr {| status := 200; location := None; body := ManifestBody demo_manifest |}.
Proof.
  destruct (update_check_returns_manifest
              (Oracle (fun _ => demo_now) (fun _ => false)
                      (fun _ => FetchResolves true (Some demo_manifest)))
              https_only update_check_request demo_env empty_world demo_manifest)
    as (_ & _ & H).
  - split; reflexivity.
  - reflexivity.
  - apply (H _ eq_refl).
Defined.

(** X11.  What the two counting endpoints answer depends on the outcome of
    the manifest request only: not on D1, the table or the clock. *)
Theorem counting_response_ignores_storage (o1 o2 : oracle)
    (parse_url : string -> option string) (request : Request) (env : Env)
    (w1 w2 : world) :
  is_get request "/update/check" \/ is_get request "/download/latest" ->
  net o1 (net_calls w1) = net o2 (net_calls w2) ->
  fst (fetch o1 parse_url request env w1) = fst (fetch o2 parse_url request env w2).
Proof.
  intros [G | G] Hnet.
  - rewrite !fetch_update_check by exact G. cbv zeta. cbn [fst]. rewrite Hnet. reflexivity.
  - rewrite !fetch_download_latest by exact G. cbn [fst]. rewrite Hnet. reflexivity.
Qed.

(** A download with the storage up and with the storage refusing every
    statement. *)
Lemma counting_response_ignores_storage_witness :
  fst (fetch healthy https_only download_request demo_env empty_world)
  = fst (fetch (Oracle (fun _ => 0) (fun _ => false)
                       (fun _ => FetchResolves true (Some demo_manifest)))
               https_only download_request demo_env (World demo_table [] 0 0 0)).
Proof.
  apply counting_response_ignores_storage; [right; split; reflexivity | reflexivity].
Defined.

(** X12.  A request to a counting endpoint whose increment succeeds is
    counted exactly once, whatever the manifest request gives and whatever
    is answered: [incrementCounter] is called once, for today and the
    endpoint's column; the row of today is the old one (or a new all-zero
    one) with that column one higher; and every range total that holds
    today is one higher in that column, every other total unchanged. *)
Theorem counting_endpoint_counts_once (o : oracle) (parse_url : string -> option string)
    (request : Request) (env : Env) (w : world) (c : column) :
  counts request c ->
  increment_ok o w = true ->
  increment_calls (trace (snd (fetch o parse_url request env w)))
  = increment_calls (trace w) ++ [(today_of o w, c)] /\
  store (snd (fetch o parse_url request env w)) !! today_of o w
  = Some (bump c (default zero_counters (store w !! today_of o w))) /\
  (forall d, d <> today_of o w ->
     store (snd (fetch o parse_url request env w)) !! d = store w !! d) /\
  (forall a b,
     sql_select_totals a b (store (snd (fetch o parse_url request env w)))
     = if day_between a b (today_of o w) then bump c (sql_select_totals a b (store w))
       else sql_select_totals a b (store w)) /\
  net_calls (snd (fetch o parse_url request env w)) = S (net_calls w).
Proof.
  intros Hc Hok. rewrite (fetch_counting o parse_url request env w c Hc).
  rewrite counted_success by exact Hok.
  unfold after_manifest, after_db. cbn [store trace net_calls tick_clock].
  rewrite !increment_calls_app. cbn [increment_calls]. rewrite !app_nil_r.
  split; [reflexivity |].
  split; [apply increment_row |].
  split; [intros d Hd; rewrite upsert_increment_lookup;
          destruct (decide (d = today_of o w)); [contradiction | reflexivity] |].
  split; [intros a b; apply select_upsert_increment | reflexivity].
Qed.

(** A download on 2025-03-15, seen by the month's total. *)
Lemma counting_endpoint_counts_once_witness :
  sql_select_totals "2025-03-01" "2025-03-15"
    (store (snd (fetch healthy https_only download_request demo_env
                       (World demo_table [] 0 0 0))))
  = Counters 6 2 1.
Proof.
  destruct (counting_endpoint_counts_once healthy https_only download_request demo_env
              (World demo_table [] 0 0 0) Downloads) as (_ & _ & _ & H & _).
  - right. split; [split; reflexivity | reflexivity].
  - reflexivity.
  - rewrite H. vm_compute. reflexivity.
Defined.

(** X13.  A request to a counting endpoint whose increment fails: the
    handler calls [incrementCounter] a second time, for today's [errors].
    When that call succeeds, the row of today is the old one (or a new
    all-zero one) with [errors] one higher, so the request is recorded as
    an error and not in the endpoint's column; when it fails too, no range
    total changes. *)
Theorem failed_count_recorded_as_error (o : oracle) (parse_url : string -> option string)
    (request : Request) (env : Env) (w : world) (c : column) :
  counts request c ->
  increment_ok o w = false ->
  increment_calls (trace (snd (fetch o parse_url request env w)))
  = increment_calls (trace w) ++ [(today_of o w, c); (today_of o w, Errors)] /\
  (errors_increment_ok o w = true ->
   store (snd (fetch o parse_url request env w)) !! today_of o w
   = Some (bump Errors (default zero_counters (store w !! today_of o w))) /\
   (forall a b,
      sql_select_totals a b (store (snd (fetch o parse_url request env w)))
      = if day_between a b (today_of o w) then bump Errors (sql_select_totals a b (store w))
        else sql_select_totals a b (store w))) /\
  (errors_increment_ok o w = false ->
   forall a b,
     sql_select_totals a b (store (snd (fetch o parse_url request env w)))
     = sql_select_totals a b (store w)).
Proof.
  intros Hc Hbad. rewrite (fetch_counting o parse_url request env w c Hc).
  assert (Hbad' : increment_ok o (tick_clock w) = false) by exact Hbad.
  destruct (errors_increment_ok o w) eqn:Er.
  - assert (Er' : errors_increment_ok o (tick_clock w) = true) by exact Er.
    destruct (counted_retry o (today_of o w) c (MANIFEST_URL env) (tick_clock w) Hbad' Er')
      as [Hs Ht].
    cbn [tick_clock store trace] in Hs, Ht.
    split; [exact Ht |]. split; [| intros; discriminate].
    intros _. rewrite Hs. split; [apply increment_row |].
    intros a b. apply select_upsert_increment.
  - assert (Er' : errors_increment_ok o (tick_clock w) = false) by exact Er.
    destruct (counted_lost o (today_of o w) c (MANIFEST_URL env) (tick_clock w) Hbad' Er')
      as [Hs Ht].
    cbn [tick_clock store trace] in Hs, Ht.
    split; [exact Ht |]. split; [intros; discriminate |].
    intros _. exact Hs.
Qed.

(** An update check whose INSERT is refused while the later statements go
    through: [errors] of the day is 1 and [update_checks] is 0. *)
Lemma failed_count_recorded_as_error_witness :
  store (snd (fetch first_statement_fails https_only update_check_request demo_env
                    empty_world)) !! "2025-03-15"%string
  = Some (Counters 0 0 1).
Proof.
  destruct (failed_count_recorded_as_error first_statement_fails https_only
              update_check_request demo_env empty_world UpdateChecks) as (_ & H & _).
  - left. split; [split; reflexivity | reflexivity].
  - reflexivity.
  - destruct (H eq_refl) as [H1 _]. exact H1.
Defined.

(** X14.  GET /download/latest falls back to [latest.url] only when
    [latest.download.url] is absent or null: when that place holds
    anything else that is not a non-empty string (the empty string, a
    number, a boolean, an object), the answer is the 503
    manifest_unavailable, whatever [latest.url] holds. *)
Theorem download_url_blocks_fallback (o : oracle) (parse_url : string -> option string)
    (request : Request) (env : Env) (w : world) (manifest v : json) :
  is_get request "/download/latest" ->
  net o (net_calls w) = FetchResolves true (Some manifest) ->
  download_url manifest = Some v -> v <> JNull ->
  (forall url, v = JStr url -> url = "") ->
  fst (fetch o parse_url request env w) = inr response_503.
Proof.
  intros Hget Hnet Hd Hnn Hstr.
  rewrite fetch_download_latest by exact Hget. cbn [fst]. rewrite Hnet. cbn [manifest_of].
  unfold download_outcome, redirect_target. rewrite Hd.
  destruct (truthy manifest); [| reflexivity].
  destruct v as [| bv | x | s | items | members]; cbn [nullish_or];
    try reflexivity; [contradiction |].
  rewrite (Hstr s eq_refl). reflexivity.
Qed.

(** [latest.download.url] is the empty string and [latest.url] a URL. *)
Lemma download_url_blocks_fallback_witness :
  fst (fetch (serves empty_download_manifest) https_only download_request demo_env
             empty_world)
  = inr response_503 /\
  latest_url empty_download_manifest = Some (JStr "https://x/z.zip").
Proof.
  split; [| reflexivity].
  apply (download_url_blocks_fallback (serves empty_download_manifest) https_only
           download_request demo_env empty_world empty_download_manifest (JStr "")).
  - split; reflexivity.
  - reflexivity.
  - reflexivity.
  - discriminate.
  - intros url E. injection E as <-. reflexivity.
Defined.

(** X15.  GET /download/latest whose manifest names, as its target, a
    non-empty string that Response.redirect does not accept as a URL: the
    TypeError of Response.redirect leaves the handler, and the download
    has been counted all the same. *)
Theorem download_latest_invalid_url (o : oracle) (parse_url : string -> option string)
    (request : Request) (env : Env) (w : world) (manifest : json) (url : string) :
  is_get request "/download/latest" ->
  net o (net_calls w) = FetchResolves true (Some manifest) ->
  redirect_target manifest = Some (JStr url) -> url <> "" -> parse_url url = None ->
  fst (fetch o parse_url request env w) = inl TypeError /\
  increment_calls (trace (snd (fetch o parse_url request env w)))
  = increment_calls (trace w)
    ++ (today_of o w, Downloads)
       :: (if increment_ok o w then [] else [(today_of o w, Errors)]) /\
  (increment_ok o w = true ->
   store (snd (fetch o parse_url request env w)) !! today_of o w
   = Some (bump Downloads (default zero_counters (store w !! today_of o w)))).
Proof.
  intros Hget Hnet Ht Hne Hp.
  assert (Hc : counts request Downloads) by (right; split; [exact Hget | reflexivity]).
  split; [| split].
  - rewrite fetch_download_latest by exact Hget. cbn [fst]. rewrite Hnet. cbn [manifest_of].
    unfold download_outcome.
    rewrite (redirect_target_truthy manifest (JStr url) Ht) by discriminate.
    rewrite Ht. destruct (String.eqb_spec url ""); [contradiction |].
    rewrite Hp. reflexivity.
  - rewrite (fetch_counting o parse_url request env w Downloads Hc).
    destruct (counted_effects o (today_of o w) Downloads (MANIFEST_URL env) (tick_clock w))
      as [(evs1 & evs2 & Etr & E1 & E2) _].
    rewrite Etr. cbn [tick_clock trace].
    rewrite increment_calls_app. cbn [increment_calls].
    rewrite increment_calls_app. cbn [increment_calls].
    rewrite E1, E2. reflexivity.
  - intros Hok. rewrite (fetch_counting o parse_url request env w Downloads Hc).
    rewrite counted_success by exact Hok.
    unfold after_manifest, after_db. cbn [store tick_clock]. apply increment_row.
Qed.

(** A manifest whose [latest.url] is a path. *)
Lemma download_latest_invalid_url_witness :
  fst (fetch (serves relative_manifest) https_only download_request demo_env empty_world)
  = inl TypeError.
Proof.
  destruct (download_latest_invalid_url (serves relative_manifest) https_only
              download_request demo_env empty_world relative_manifest
              "/files/latest.zip") as [H _].
  - split; reflexivity.
  - reflexivity.
  - reflexivity.
  - discriminate.
  - reflexivity.
  - exact H.
Defined.

(** X16.  A request whose method is not GET, or whose path is none of
    /update/check, /download/latest and /report, is answered 404 with body
    {"ok":false,"error":"not_found"}; nothing is counted: the table and
    the trace are as they were, and no D1 statement or outbound request
    was issued. *)
Theorem other_requests_not_found (o : oracle) (parse_url : string -> option string)
    (request : Request) (env : Env) (w : world) :
  method request <> "GET" \/
  pathname request <> "/update/check" /\ pathname request <> "/download/latest" /\
  pathname request <> "/report" ->
  fst (fetch o parse_url request env w) = inr not_found_response /\
  store (snd (fetch o parse_url request env w)) = store w /\
  trace (snd (fetch o parse_url request env w)) = trace w /\
  db_calls (snd (fetch o parse_url request env w)) = db_calls w /\
  net_calls (snd (fetch o parse_url request env w)) = net_calls w.
Proof.
  intros H. destruct (not_counting request H) as (N1 & N2 & N3).
  rewrite fetch_not_found by assumption. repeat split.
Qed.

(** A POST to /update/check is not an update check. *)
Lemma other_requests_not_found_witness :
  fst (fetch healthy https_only
             {| method := "POST"; pathname := "/update/check"; admin_token_header := None |}
             demo_env empty_world)
  = inr not_found_response /\
  store (snd (fetch healthy https_only
                    {| method := "POST"; pathname := "/update/check";
                       admin_token_header := None |}
                    demo_env empty_world))
  = store empty_world.
Proof.
  destruct (other_requests_not_found healthy https_only
              {| method := "POST"; pathname := "/update/check"; admin_token_header := None |}
              demo_env empty_world) as (H1 & H2 & _).
  - left. discriminate.
  - split; [exact H1 | exact H2].
Defined.

(** X17.  The only errors that leave the HTTP handler.  A request ends
    with an error in two cases only: a GET /report with the admin token
    one of whose four queries was refused (the StorageError), and a GET
    /download/latest whose fetched manifest names as target a non-empty
    string that Response.redirect does not accept (the TypeError). *)
Theorem fetch_raises_only (o : oracle) (parse_url : string -> option string)
    (request : Request) (env : Env) (w : world) (e : exn) :
  (forall n, clock_in_range (clock o n)) ->
  fst (fetch o parse_url request env w) = inl e ->
  (e = StorageError /\ is_get request "/report" /\ authorised request env /\
   report_queries_ok o w = false) \/
  (e = TypeError /\ is_get request "/download/latest" /\
   exists manifest url,
     net o (net_calls w) = FetchResolves true (Some manifest) /\
     redirect_target manifest = Some (JStr url) /\ url <> "" /\ parse_url url = None).
Proof.
  intros Hclk He.
  destruct (decide (is_get request "/update/check")) as [G1 | G1].
  { rewrite fetch_update_check in He by exact G1. discriminate. }
  destruct (decide (is_get request "/download/latest")) as [G2 | G2].
  { right. rewrite fetch_download_latest in He by exact G2. cbn [fst] in He.
    unfold download_outcome in He.
    destruct (truthy (manifest_of (net o (net_calls w)))) eqn:T; [| discriminate].
    destruct (redirect_target _) as [[| | | url | |] |] eqn:Et; try discriminate.
    destruct (String.eqb_spec url "") as [| Hne]; [discriminate |].
    destruct (parse_url url) eqn:Ep; [discriminate |].
    split; [congruence |]. split; [exact G2 |].
    exists (manifest_of (net o (net_calls w))), url.
    split; [apply manifest_of_truthy; exact T |]. auto. }
  destruct (decide (is_get request "/report")) as [G3 | G3].
  { destruct (decide (authorised request env)) as [A | A].
    - left. rewrite fetch_report_authorised in He by (assumption || apply Hclk).
      cbv zeta in He. fold (report_queries_ok o w) in He.
      destruct (report_queries_ok o w); [discriminate |].
      cbn [fst] in He. split; [congruence | auto].
    - rewrite fetch_report_unauthorised in He by assumption. discriminate. }
  rewrite fetch_not_found in He by assumption. discriminate.
Qed.

(** The report whose second query is refused. *)
Lemma fetch_raises_only_witness :
  report_queries_ok second_query_fails empty_world = false.
Proof.
  destruct (fetch_raises_only second_query_fails https_only
              (report_request (Some "secret"%string)) demo_env empty_world StorageError)
    as [(_ & _ & _ & H) | (H & _)].
  - intros n. exact clock_in_range_demo.
  - reflexivity.
  - exact H.
  - discriminate.
Defined.

(** X18.  GET /report with the admin token, when the four range queries
    succeed: the answer is 200 with the totals of today, of yesterday, of
    the seven days ending today and of the month to date, taken from the
    table as it is.  Whether the queries succeed or not, the request
    changes no row, calls [incrementCounter] never, issues no outbound
    request and sends exactly four statements to D1. *)
Theorem report_returns_totals (o : oracle) (parse_url : string -> option string)
    (request : Request) (env : Env) (w : world) :
  is_get request "/report" -> authorised request env ->
  clock_in_range (clock o (S (clock_reads w))) ->
  (report_queries_ok o w = true ->
   fst (fetch o parse_url request env w)
   = inr {| status := 200; location := None;
            body := ReportBody
                      (sql_select_totals (today_of o w) (today_of o w) (store w))
                      (sql_select_totals (yesterday_of (clock o (S (clock_reads w))))
                                         (yesterday_of (clock o (S (clock_reads w))))
                                         (store w))
                      (sql_select_totals (sevenDaysAgo_of (clock o (S (clock_reads w))))
                                         (today_of o w) (store w))
                      (sql_select_totals (monthStart_of (clock o (S (clock_reads w))))
                                         (today_of o w) (store w)) |}) /\
  store (snd (fetch o parse_url request env w)) = store w /\
  increment_calls (trace (snd (fetch o parse_url request env w)))
  = increment_calls (trace w) /\
  net_calls (snd (fetch o parse_url request env w)) = net_calls w /\
  db_calls (snd (fetch o parse_url request env w)) = (4 + db_calls w)%nat.
Proof.
  intros Hget Hauth Hclk.
  rewrite fetch_report_authorised by assumption. cbv zeta.
  fold (report_queries_ok o w).
  destruct (report_queries_ok o w); cbn [fst snd after_db tick_clock store trace
                                          net_calls db_calls];
    rewrite increment_calls_app; cbn [increment_calls]; rewrite app_nil_r;
    (split; [intros H; try discriminate; reflexivity | repeat split]).
Qed.

(** The report of 2025-03-15 over two rows. *)
Lemma report_returns_totals_witness :
  fst (fetch healthy https_only (report_request (Some "secret"%string)) demo_env
             (World demo_table [] 0 0 0))
  = inr {| status := 200; location := None;
           body := ReportBody zero_counters (Counters 2 0 1) (Counters 6 1 1)
                              (Counters 6 1 1) |}.
Proof.
  destruct (report_returns_totals healthy https_only (report_request (Some "secret"%string))
              demo_env (World demo_table [] 0 0 0)) as [H _].
  - split; reflexivity.
  - split; [discriminate | reflexivity].
  - exact clock_in_range_demo.
  - rewrite H by reflexivity. vm_compute. reflexivity.
Defined.

(** X19.  The four totals of a report are consistent.  When both clock
    readings of the request fall on the same UTC day and no counter of the
    table is negative: today's and yesterday's totals together are at most
    the total of the last seven days; today's total is at most the month
    to date; on the first of a month the month to date is today's total;
    from the seventh on, the last seven days are at most the month to
    date, and up to the seventh the month to date is at most the last
    seven days. *)
Theorem report_totals_are_consistent (o : oracle) (parse_url : string -> option string)
    (request : Request) (env : Env) (w : world) (t y l m : counters) :
  is_get request "/report" -> authorised request env ->
  clock_in_range (clock o (S (clock_reads w))) ->
  Day (clock o (clock_reads w)) = Day (clock o (S (clock_reads w))) ->
  nonneg_table (store w) ->
  fst (fetch o parse_url request env w)
  = inr {| status := 200; location := None; body := ReportBody t y l m |} ->
  counters_le (add_counters t y) l /\
  counters_le t m /\
  (DateFromTime (clock o (S (clock_reads w))) = 1 -> m = t) /\
  (7 <= DateFromTime (clock o (S (clock_reads w))) -> counters_le l m) /\
  (DateFromTime (clock o (S (clock_reads w))) <= 7 -> counters_le m l).
Proof.
  intros Hget Hauth Hclk Hday Hn Hres.
  rewrite fetch_report_authorised in Hres by assumption. cbv zeta in Hres.
  destruct (_ && _) in Hres; [| discriminate]. cbn [fst] in Hres.
  apply (inj inr) in Hres. unfold report_response in Hres.
  injection Hres as <- <- <- <-.
  set (now := clock o (S (clock_reads w))) in *.
  assert (Hclk0 : clock_in_range (clock o (clock_reads w))).
  { unfold clock_in_range, YearFromTime in *. rewrite Hday. exact Hclk. }
  destruct (today_of_in_range o w Hclk0) as [Et _]. rewrite Et, Hday.
  unfold yesterday_of, sevenDaysAgo_of, monthStart_of.
  destruct (window_days_four_digit now Hclk) as (F0 & F1 & F6 & Fm).
  pose proof (DateOfDay_range (Day now)) as R.
  rewrite !DateFromTime_Day.
  split; [| split; [| split; [| split]]].
  - apply select_add_le; [exact Hn | | |].
    + intros k. apply day_between_incl; (assumption || lia).
    + intros k. apply day_between_incl; (assumption || lia).
    + intros k B1%day_between_same B2%day_between_same. subst k.
      apply day_string_inj in B2; [lia | assumption | assumption].
  - apply select_le; [exact Hn |].
    intros k. apply day_between_incl; (assumption || lia).
  - intros E1. rewrite E1. replace (Day now - 1 + 1) with (Day now) by lia. reflexivity.
  - intros E7. apply select_le; [exact Hn |].
    intros k. apply day_between_incl; (assumption || lia).
  - intros E7. apply select_le; [exact Hn |].
    intros k. apply day_between_incl; (assumption || lia).
Qed.

(** The report of 2025-03-15 over two rows. *)
Lemma report_totals_are_consistent_witness :
  counters_le (add_counters zero_counters (Counters 2 0 1)) (Counters 6 1 1) /\
  counters_le zero_counters (Counters 6 1 1).
Proof.
  destruct (report_totals_are_consistent healthy https_only
              (report_request (Some "secret"%string)) demo_env (World demo_table [] 0 0 0)
              zero_counters (Counters 2 0 1) (Counters 6 1 1) (Counters 6 1 1))
    as (H1 & H2 & _).
  - split; reflexivity.
  - split; [discriminate | reflexivity].
  - exact clock_in_range_demo.
  - reflexivity.
  - exact nonneg_demo_table.
  - vm_compute. reflexivity.
  - split; [exact H1 | exact H2].
Defined.

(** X20.  A counted request shows in the next report.  After a request to
    a counting endpoint whose increment succeeded, a GET /report with the
    admin token on the same UTC day, whose four queries succeed, answers
    with the totals of the table before the request with the endpoint's
    column one higher for today, for the last seven days and for the month
    to date, and with yesterday's total as it was. *)
Theorem counted_request_shows_in_report (o : oracle) (parse_url : string -> option string)
    (request report : Request) (env : Env) (w : world) (c : column) :
  counts request c -> increment_ok o w = true ->
  is_get report "/report" -> authorised report env ->
  clock_in_range (clock o (clock_reads w)) ->
  Day (clock o (S (clock_reads w))) = Day (clock o (clock_reads w)) ->
  Day (clock o (S (S (clock_reads w)))) = Day (clock o (clock_reads w)) ->
  report_queries_ok o (snd (fetch o parse_url request env w)) = true ->
  fst (fetch o parse_url report env (snd (fetch o parse_url request env w)))
  = inr {| status := 200; location := None;
           body := ReportBody
                     (bump c (sql_select_totals
                                (day_string (Day (clock o (clock_reads w))))
                                (day_string (Day (clock o (clock_reads w)))) (store w)))
                     (sql_select_totals
                        (day_string (Day (clock o (clock_reads w)) - 1))
                        (day_string (Day (clock o (clock_reads w)) - 1)) (store w))
                     (bump c (sql_select_totals
                                (day_string (Day (clock o (clock_reads w)) - 6))
                                (day_string (Day (clock o (clock_reads w)))) (store w)))
                     (bump c (sql_select_totals
                                (day_string (Day (clock o (clock_reads w))
                                             - (DateFromTime (clock o (clock_reads w)) - 1)))
                                (day_string (Day (clock o (clock_reads w)))) (store w))) |}.
Proof.
  intros Hc Hok Hget Hauth Hclk Hd1 Hd2 Hq.
  rewrite (fetch_counting o parse_url request env w c Hc) in *.
  assert (Hok' : increment_ok o (tick_clock w) = true) by exact Hok.
  rewrite (counted_success o _ c _ (tick_clock w) Hok') in *.
  set (w1 := after_manifest _ _) in *.
  assert (Hcr : clock_reads w1 = S (clock_reads w)) by reflexivity.
  assert (Hst : store w1 = upsert_increment c (today_of o w) (store w)) by reflexivity.
  assert (Hclk1 : clock_in_range (clock o (clock_reads w1))).
  { rewrite Hcr. exact (clock_in_range_same_day _ _ Hd1 Hclk). }
  assert (Hclk2 : clock_in_range (clock o (S (clock_reads w1)))).
  { rewrite Hcr. exact (clock_in_range_same_day _ _ Hd2 Hclk). }
  rewrite fetch_report_authorised by assumption. cbv zeta.
  fold (report_queries_ok o w1). rewrite Hq. cbn [fst]. unfold report_response.
  destruct (today_of_in_range o w1 Hclk1) as [Et1 _].
  destruct (today_of_in_range o w Hclk) as [Et _].
  rewrite Et1, Hst, Et. unfold yesterday_of, sevenDaysAgo_of, monthStart_of.
  rewrite Hcr, Hd1, Hd2. rewrite DateFromTime_Day.
  set (D := Day (clock o (clock_reads w))).
  destruct (window_days_four_digit _ Hclk) as (F0 & F1 & F6 & Fm). fold D in F0, F1, F6, Fm.
  pose proof (DateOfDay_range D) as R.
  rewrite !select_upsert_increment.
  assert (B0 : day_between (day_string D) (day_string D) (day_string D) = true)
    by (apply day_between_days; (assumption || lia)).
  assert (B1 : day_between (day_string (D - 1)) (day_string (D - 1)) (day_string D) = false).
  { apply not_true_iff_false. intros B. apply day_between_days in B; (assumption || lia). }
  assert (B6 : day_between (day_string (D - 6)) (day_string D) (day_string D) = true)
    by (apply day_between_days; (assumption || lia)).
  assert (Bm : day_between (day_string (D - DateOfDay D + 1)) (day_string D) (day_string D)
               = true)
    by (apply day_between_days; (assumption || lia)).
  rewrite B0, B1, B6, Bm.
  replace (D - (DateOfDay D - 1)) with (D - DateOfDay D + 1) by lia. reflexivity.
Qed.

(** A download on 2025-03-15, then the report of that day. *)
Lemma counted_request_shows_in_report_witness :
  fst (fetch healthy https_only (report_request (Some "secret"%string)) demo_env
             (snd (fetch healthy https_only download_request demo_env
                         (World demo_table [] 0 0 0))))
  = inr {| status := 200; location := None;
           body := ReportBody (Counters 0 1 0) (Counters 2 0 1) (Counters 6 2 1)
                              (Counters 6 2 1) |}.
Proof.
  rewrite (counted_request_shows_in_report healthy https_only download_request
             (report_request (Some "secret"%string)) demo_env (World demo_table [] 0 0 0)
             Downloads).
  - vm_compute. reflexivity.
  - right. split; [split; reflexivity | reflexivity].
  - reflexivity.
  - split; reflexivity.
  - split; [discriminate | reflexivity].
  - exact clock_in_range_demo.
  - reflexivity.
  - reflexivity.
  - reflexivity.
Defined.

(** X21.  A run of the scheduled job whose three range queries succeed
    posts exactly once, to the configured webhook, the message built from
    the totals of the table as it is.  When the webhook answers with a
    success status the job leaves the table as it was, having sent three
    statements to D1 and nothing else. *)
Theorem scheduled_posts_report (o : oracle) (env : Env) (w : world) :
  clock_in_range (clock o (clock_reads w)) ->
  job_queries_ok o w = true ->
  webhook_posts (trace (snd (scheduled o env w)))
  = webhook_posts (trace w)
    ++ [(DISCORD_WEBHOOK_URL env, report_message (clock o (clock_reads w)) (store w))] /\
  net_calls (snd (scheduled o env w)) = S (net_calls w) /\
  (webhook_ok (net o (net_calls w)) = true ->
   store (snd (scheduled o env w)) = store w /\
   trace (snd (scheduled o env w))
   = trace w ++ job_queries o (clock o (clock_reads w)) w
     ++ [HttpPost (DISCORD_WEBHOOK_URL env)
                  (report_message (clock o (clock_reads w)) (store w))] /\
   db_calls (snd (scheduled o env w)) = (3 + db_calls w)%nat).
Proof.
  intros Hclk Hq. rewrite scheduled_run by exact Hclk. cbv zeta.
  fold (job_queries_ok o w). rewrite Hq.
  destruct (webhook_ok (net o (net_calls w))); cbn [snd].
  - unfold after_post, after_db, job_queries.
    cbn [trace store net_calls db_calls tick_clock].
    rewrite !webhook_posts_app. cbn [webhook_posts]. rewrite app_nil_r, <- app_assoc.
    repeat split.
  - match goal with
    | |- context [incrementCounter o ?d Errors ?w'] =>
        destruct (incrementCounter_calls o d Errors w') as [_ Ew];
        destruct (incrementCounter_counters o d Errors w') as (En & _)
    end.
    rewrite Ew, En. unfold after_post, after_db, job_queries.
    cbn [trace store net_calls db_calls tick_clock].
    rewrite !webhook_posts_app. cbn [webhook_posts]. rewrite app_nil_r.
    split; [reflexivity |]. split; [reflexivity |]. intros; discriminate.
Qed.

(** The job of 2025-03-15 on the empty table. *)
Lemma scheduled_posts_report_witness :
  webhook_posts (trace (snd (scheduled healthy demo_env empty_world)))
  = [("https://discord/hook"%string, report_message demo_now ∅)] /\
  store (snd (scheduled healthy demo_env empty_world)) = ∅.
Proof.
  destruct (scheduled_posts_report healthy demo_env empty_world) as (H1 & _ & H3).
  - exact clock_in_range_demo.
  - reflexivity.
  - split; [exact H1 |]. destruct (H3 eq_refl) as [Hs _]. exact Hs.
Defined.

(** X22.  A failed run of the scheduled job is recorded.  When one of the
    range queries or the webhook request fails and the two statements of
    the increment that follows succeed, the row of today is the old one
    (or a new all-zero one) with [errors] one higher, no other row has
    changed, and every range total that holds today is one higher in
    [errors]. *)
Theorem scheduled_failure_recorded (o : oracle) (env : Env) (w : world) :
  clock_in_range (clock o (clock_reads w)) ->
  job_queries_ok o w = false \/ webhook_ok (net o (net_calls w)) = false ->
  db_ok o (3 + db_calls w) = true -> db_ok o (4 + db_calls w) = true ->
  store (snd (scheduled o env w)) !! day_string (Day (clock o (clock_reads w)))
  = Some (bump Errors
            (default zero_counters
               (store w !! day_string (Day (clock o (clock_reads w)))))) /\
  (forall d, d <> day_string (Day (clock o (clock_reads w))) ->
     store (snd (scheduled o env w)) !! d = store w !! d) /\
  (forall a b,
     sql_select_totals a b (store (snd (scheduled o env w)))
     = if day_between a b (day_string (Day (clock o (clock_reads w))))
       then bump Errors (sql_select_totals a b (store w))
       else sql_select_totals a b (store w)).
Proof.
  intros Hclk Hfail D3 D4.
  rewrite (scheduled_failure_store o env w Hclk Hfail D3 D4).
  split; [apply increment_row |].
  split; [| intros a b; apply select_upsert_increment].
  intros d Hd. rewrite upsert_increment_lookup.
  destruct (decide (d = _)); [contradiction | reflexivity].
Qed.

(** The job of 2025-03-15 with the webhook answering 500. *)
Lemma scheduled_failure_recorded_witness :
  store (snd (scheduled webhook_down demo_env empty_world)) !! "2025-03-15"%string
  = Some (Counters 0 0 1).
Proof.
  destruct (scheduled_failure_recorded webhook_down demo_env empty_world) as [H _].
  - exact clock_in_range_demo.
  - right. reflexivity.
  - reflexivity.
  - reflexivity.
  - exact H.
Defined.

(** X23.  A request or a run of the scheduled job changes no row but the
    one of the current UTC day: the rows of all other days are as they
    were, however the invocation ends. *)
Theorem handlers_touch_only_today (o : oracle) (parse_url : string -> option string)
    (request : Request) (env : Env) (w : world) (d : string) :
  (forall n, clock_in_range (clock o n)) ->
  d <> day_string (Day (clock o (clock_reads w))) ->
  store (snd (fetch o parse_url request env w)) !! d = store w !! d /\
  store (snd (scheduled o env w)) !! d = store w !! d.
Proof.
  intros Hclk Hd.
  destruct (today_of_in_range o w (Hclk _)) as [Et _].
  split.
  - destruct (fetch_world o parse_url request env w Hclk)
      as [(c & _ & ->) | [(evs & _ & _ & ->) | ->]]; [| reflexivity | reflexivity].
    rewrite counted_other_rows by (rewrite Et; exact Hd). reflexivity.
  - rewrite scheduled_run by apply Hclk. cbv zeta.
    destruct (_ && _); [destruct (webhook_ok _) |]; cbn [snd];
      rewrite ?incrementCounter_other_rows by exact Hd; reflexivity.
Qed.

(** A download on 2025-03-15 leaves the row of 2025-03-14 alone. *)
Lemma handlers_touch_only_today_witness :
  store (snd (fetch healthy https_only download_request demo_env
                    (World demo_table [] 0 0 0))) !! "2025-03-14"%string
  = Some (Counters 2 0 1).
Proof.
  destruct (handlers_touch_only_today healthy https_only download_request demo_env
              (World demo_table [] 0 0 0) "2025-03-14") as [H _].
  - intros n. exact clock_in_range_demo.
  - vm_compute. discriminate.
  - rewrite H. reflexivity.
Defined.

(** X24.  Each counter has one writer.  [update_checks] is changed only by
    GET /update/check and [downloads] only by GET /download/latest: every
    other request, and the scheduled job, leave that column of every row
    as it was (0 for a row they create). *)
Theorem columns_have_one_writer (o : oracle) (parse_url : string -> option string)
    (request : Request) (env : Env) (w : world) (d : string) :
  (forall n, clock_in_range (clock o n)) ->
  (~ is_get request "/update/check" ->
   update_checks (default zero_counters (store (snd (fetch o parse_url request env w)) !! d))
   = update_checks (default zero_counters (store w !! d))) /\
  (~ is_get request "/download/latest" ->
   downloads (default zero_counters (store (snd (fetch o parse_url request env w)) !! d))
   = downloads (default zero_counters (store w !! d))) /\
  update_checks (default zero_counters (store (snd (scheduled o env w)) !! d))
  = update_checks (default zero_counters (store w !! d)) /\
  downloads (default zero_counters (store (snd (scheduled o env w)) !! d))
  = downloads (default zero_counters (store w !! d)).
Proof.
  intros Hclk.
  assert (Hs : forall c', c' <> Errors ->
            get_column c' (default zero_counters (store (snd (scheduled o env w)) !! d))
            = get_column c' (default zero_counters (store w !! d))).
  { intros c' Hc'. rewrite scheduled_run by apply Hclk. cbv zeta.
    destruct (_ && _); [destruct (webhook_ok _) |]; cbn [snd];
      rewrite ?incrementCounter_other_columns by exact Hc'; reflexivity. }
  assert (Hf : forall c', c' <> Errors -> ~ counts request c' ->
            get_column c' (default zero_counters
                             (store (snd (fetch o parse_url request env w)) !! d))
            = get_column c' (default zero_counters (store w !! d))).
  { intros c' Hc' Hn.
    destruct (fetch_world o parse_url request env w Hclk)
      as [(c & Hc & ->) | [(evs & _ & _ & ->) | ->]]; [| reflexivity | reflexivity].
    rewrite counted_other_columns; [reflexivity | | exact Hc'].
    intros ->. contradiction. }
  split; [| split; [| split]].
  - intros Hn. rewrite <- !get_column_update_checks. apply Hf; [discriminate |].
    intros [[G _] | [_ E]]; [contradiction | discriminate].
  - intros Hn. rewrite <- !get_column_downloads. apply Hf; [discriminate |].
    intros [[_ E] | [G _]]; [discriminate | contradiction].
  - rewrite <- !get_column_update_checks. apply Hs. discriminate.
  - rewrite <- !get_column_downloads. apply Hs. discriminate.
Qed.

(** A download does not touch [update_checks] of the day. *)
Lemma columns_have_one_writer_witness :
  update_checks
    (default zero_counters
       (store (snd (fetch healthy https_only download_request demo_env empty_world))
          !! "2025-03-15"%string))
  = update_checks (default zero_counters (store empty_world !! "2025-03-15"%string)).
Proof.
  destruct (columns_have_one_writer healthy https_only download_request demo_env
              empty_world "2025-03-15") as [H _].
  - intros n. exact clock_in_range_demo.
  - apply H. intros [_ E]. discriminate.
Defined.

(** X25.  Counters never become negative: a table without negative
    counters stays so across [fetch], [scheduled] and [incrementCounter],
    however they end, and every range total of such a table is
    non-negative. *)
Theorem counters_stay_nonnegative (o : oracle) (parse_url : string -> option string)
    (request : Request) (env : Env) (day : string) (c : column) (w : world) :
  nonneg_table (store w) ->
  nonneg_table (store (snd (fetch o parse_url request env w))) /\
  nonneg_table (store (snd (scheduled o env w))) /\
  nonneg_table (store (snd (incrementCounter o day c w))) /\
  (forall a b, nonneg_counters (sql_select_totals a b (store w))).
Proof.
  intros H.
  pose (R := fun t t' : table => nonneg_table t -> nonneg_table t').
  assert (Rr : forall t, R t t) by (intros t Ht; exact Ht).
  assert (Rt : forall t1 t2 t3, R t1 t2 -> R t2 t3 -> R t1 t3)
    by (intros t1 t2 t3 H12 H23 Ht; auto).
  assert (Ri : forall d t, R t (sql_insert_or_ignore d t))
    by (intros d t Ht; apply nonneg_insert; exact Ht).
  assert (Ru : forall c' d t, R t (sql_update_increment c' d t))
    by (intros c' d t Ht; apply nonneg_update; exact Ht).
  split; [| split; [| split]].
  - exact (keeps_fetch R Rr Rt Ri Ru o parse_url request env w H).
  - exact (keeps_scheduled R Rr Rt Ri Ru o env w H).
  - exact (keeps_incrementCounter R Rr Rt Ri Ru o day c w H).
  - intros a b. apply nonneg_select. exact H.
Qed.

(** An update check on a table of two rows, and the month's total after it. *)
Lemma counters_stay_nonnegative_witness :
  nonneg_counters
    (sql_select_totals "2025-03-01" "2025-03-15"
       (store (snd (fetch healthy https_only update_check_request demo_env
                      (World demo_table [] 0 0 0))))).
Proof.
  destruct (counters_stay_nonnegative healthy https_only update_check_request demo_env
              "2025-03-15" Errors (World demo_table [] 0 0 0)) as [H _].
  - exact nonneg_demo_table.
  - apply nonneg_select. exact H.
Defined.

(** X26.  No operation of the Worker lowers a range total: after [fetch],
    [scheduled] or [incrementCounter], however they end, the total of
    every range is at least what it was, in each column. *)
Theorem range_totals_never_decrease (o : oracle) (parse_url : string -> option string)
    (request : Request) (env : Env) (day : string) (c : column) (w : world)
    (a b : string) :
  counters_le (sql_select_totals a b (store w))
              (sql_select_totals a b (store (snd (fetch o parse_url request env w)))) /\
  counters_le (sql_select_totals a b (store w))
              (sql_select_totals a b (store (snd (scheduled o env w)))) /\
  counters_le (sql_select_totals a b (store w))
              (sql_select_totals a b (store (snd (incrementCounter o day c w)))).
Proof.
  split; [| split].
  - exact (keeps_fetch totals_le totals_le_refl totals_le_trans
             totals_le_insert totals_le_update o parse_url request env w a b).
  - exact (keeps_scheduled totals_le totals_le_refl totals_le_trans
             totals_le_insert totals_le_update o env w a b).
  - exact (keeps_incrementCounter totals_le totals_le_refl totals_le_trans
             totals_le_insert totals_le_update o day c w a b).
Qed.

(** X27.  Rows are keyed by day keys: a table whose keys are all
    YYYY-MM-DD keys of days stays so across every request and every run of
    the scheduled job, since the only key they insert is today's. *)
Theorem day_keys_are_preserved (o : oracle) (parse_url : string -> option string)
    (request : Request) (env : Env) (w : world) :
  (forall n, clock_in_range (clock o n)) -> day_keyed (store w) ->
  day_keyed (store (snd (fetch o parse_url request env w))) /\
  day_keyed (store (snd (scheduled o env w))).
Proof.
  intros Hclk Hk.
  destruct (today_of_in_range o w (Hclk _)) as [Et Hd].
  split.
  - destruct (fetch_world o parse_url request env w Hclk)
      as [(c & _ & ->) | [(evs & _ & _ & ->) | ->]]; [| exact Hk | exact Hk].
    rewrite Et. apply counted_day_keyed; assumption.
  - rewrite scheduled_run by apply Hclk. cbv zeta.
    destruct (_ && _); [destruct (webhook_ok _) |]; cbn [snd];
      try exact Hk; apply incrementCounter_day_keyed; assumption.
Qed.

(** The key a first download of 2025-03-15 inserts. *)
Lemma day_keys_are_preserved_witness :
  exists n, four_digit_day n /\ "2025-03-15"%string = day_string n.
Proof.
  destruct (day_keys_are_preserved healthy https_only download_request demo_env empty_world)
    as [H _].
  - intros n. exact clock_in_range_demo.
  - intros day r E. unfold empty_world in E. cbn [store] in E.
    rewrite lookup_empty in E. discriminate.
  - apply (H "2025-03-15"%string (Counters 0 1 0)). vm_compute. reflexivity.
Defined.

(** X28.  One invocation does a bounded amount of I/O: a request sends at
    most four statements to D1 and at most one outbound request, and
    never posts to the webhook; a run of the scheduled job sends at most
    five statements and exactly one or no outbound request. *)
Theorem invocation_io_is_bounded (o : oracle) (parse_url : string -> option string)
    (request : Request) (env : Env) (w : world) :
  (forall n, clock_in_range (clock o n)) ->
  (db_calls (snd (fetch o parse_url request env w)) <= 4 + db_calls w)%nat /\
  (net_calls (snd (fetch o parse_url request env w)) <= 1 + net_calls w)%nat /\
  webhook_posts (trace (snd (fetch o parse_url request env w))) = webhook_posts (trace w) /\
  (db_calls (snd (scheduled o env w)) <= 5 + db_calls w)%nat /\
  (net_calls (snd (scheduled o env w)) <= 1 + net_calls w)%nat.
Proof.
  intros Hclk. split; [| split; [| split]].
  - destruct (fetch_world o parse_url request env w Hclk)
      as [(c & _ & ->) | [(evs & _ & _ & ->) | ->]];
      [| cbn [after_db db_calls tick_clock]; lia | cbn [db_calls tick_clock]; lia].
    destruct (counted_counters o (today_of o w) c (MANIFEST_URL env) (tick_clock w))
      as (_ & _ & D). cbn [tick_clock db_calls] in D. lia.
  - destruct (fetch_world o parse_url request env w Hclk)
      as [(c & _ & ->) | [(evs & _ & _ & ->) | ->]];
      [| cbn [after_db net_calls tick_clock]; lia | cbn [net_calls tick_clock]; lia].
    destruct (counted_counters o (today_of o w) c (MANIFEST_URL env) (tick_clock w))
      as (N & _ & _). cbn [tick_clock net_calls] in N. lia.
  - destruct (fetch_world o parse_url request env w Hclk)
      as [(c & _ & ->) | [(evs & _ & Hw & ->) | ->]]; [| | reflexivity].
    + rewrite counted_webhook_posts. reflexivity.
    + cbn [after_db trace tick_clock]. rewrite webhook_posts_app, Hw, app_nil_r. reflexivity.
  - rewrite scheduled_run by apply Hclk. cbv zeta.
    destruct (_ && _); [destruct (webhook_ok _) |]; cbn [snd];
      try match goal with
          | |- context [incrementCounter o ?dd Errors ?w'] =>
              destruct (incrementCounter_counters o dd Errors w') as (N & _ & D);
              unfold after_post, after_db in *;
              cbn [net_calls db_calls tick_clock] in *
          end;
      unfold after_post, after_db; cbn [net_calls db_calls tick_clock]; split; lia.
Qed.

(** An update check with the storage down. *)
Lemma invocation_io_is_bounded_witness :
  (db_calls (snd (fetch storage_down https_only update_check_request demo_env empty_world))
   <= 4)%nat /\
  (net_calls (snd (fetch storage_down https_only update_check_request demo_env empty_world))
   <= 1)%nat.
Proof.
  destruct (invocation_io_is_bounded storage_down https_only update_check_request demo_env
              empty_world) as (H1 & H2 & _).
  - intros n. exact clock_in_range_demo.
  - split; [exact H1 | exact H2].
Defined.
